(** * LifeLine360: vitals ingestion, threshold evaluation and emergency alerts

    A shallow embedding of

      - [src/integrations/firebase/vitals.ts]     (module [Vitals]),
      - [src/integrations/firebase/firestore.ts]  (module [FirestoreDb]),
      - [src/integrations/emergency/sos.ts]       (module [Sos]),
      - [src/integrations/bluetooth/ble.ts]       (module [Ble]),
      - [src/contexts/VitalsContext.tsx]          (module [VitalsContext]),
      - [src/components/dashboards/*.tsx]         (modules [PatientDashboard],
                                                   [ResponderDashboard]),
      - [src/integrations/firebase/auth.ts] and the user functions of
        firestore.ts                              (module [Accounts]),
      - [src/integrations/firebase/medical.ts]    (module [Medical]),
      - [src/integrations/location/gps.ts]        (module [Gps]),

    together with the properties of the threshold evaluator, the ingestion
    pipeline, the SOS session manager, the alert dispatcher and the alert
    lifecycle operations, and further properties of the heart-rate parser,
    the provider callbacks, the dashboard badges, family connections,
    medical profiles and location tracking.

    Conventions of the embedding.

    - A JavaScript [number] is an IEEE-754 binary64 value: Rocq's primitive
      [float].  The comparisons [<] and [>] are [PrimFloat.ltb]; they are
      [false] as soon as one side is NaN, as in JavaScript.
    - An optional property ([heartRate?: number]), [undefined] and [null]
      are [None].  Where the difference matters, which is in the data
      handed to the Firestore client, the properties whose value is
      [undefined] are listed beside the function that builds the data
      ([Sos.sosAlertUndefined], [Sos.vitalsAlertUndefined],
      [VitalsContext.undefinedProps]).
    - An [async] function is a state transformer over a [World] (the
      Firestore collections, the singleton SOS manager, and a trace of what
      the notification manager was asked to do) returning either a thrown
      [JsError] or a value.  [await] is sequencing; [try]/[catch] is
      [try_catch].
    - Everything the browser or the backend decides (the clock, whether a
      write is accepted, the geolocation answer, the medical-profile query,
      the notification transport) is read from an [Env].  The answer to a
      write is the one the caller sees, the Firestore client included:
      the client of config.ts refuses data with an [undefined] property
      ([refuses_undefined]). *)

From Stdlib Require Import PrimFloat SpecFloat FloatOps FloatAxioms Uint63.
From Stdlib.Strings Require Import Byte.
From stdpp Require Import gmap strings stringmap pretty.

Local Open Scope string_scope.

(** ** JavaScript values *)

Definition number := float.

(** [a < b] and [a > b] on numbers. *)
Definition lt (a b : number) : bool := PrimFloat.ltb a b.
Definition gt (a b : number) : bool := PrimFloat.ltb b a.

(** Truthiness of a number: [0], [-0] and [NaN] are falsy. *)
Definition number_truthy (x : number) : bool :=
  negb (PrimFloat.is_zero x || PrimFloat.is_nan x).

(** Truthiness of an optional number property ([undefined] is falsy). *)
Definition truthy (o : option number) : bool :=
  match o with
  | Some x => number_truthy x
  | None => false
  end.

(** Truthiness of a string: only the empty string is falsy. *)
Definition string_truthy (s : string) : bool :=
  match s with
  | EmptyString => false
  | String _ _ => true
  end.

(** Truthiness of an optional string ([string | null | undefined]). *)
Definition opt_string_truthy (o : option string) : bool :=
  match o with
  | Some s => string_truthy s
  | None => false
  end.

(** A thrown [Error]; only its message is observable here. *)
Module JsError.
Record t := mk { message : string }.
End JsError.
Abbreviation JsError := JsError.t.
Abbreviation mkError := JsError.mk.

(** ** Data model *)

(** [VitalReading] of vitals.ts.  [patientId] is declared [string]; the
    types are erased at run time and no function below inspects the
    property before storing it, so the embedding keeps the possibility of
    an object without it.  [id], [timestamp] and [isEmergency] are absent
    from the argument of [addVitalReading] ([Omit<...>]). *)
Module VitalReading.
Record BloodPressure := mkBloodPressure {
  systolic : number;
  diastolic : number
}.
Record t := mk {
  id : option string;
  patientId : option string;
  heartRate : option number;
  oxygenSaturation : option number;
  temperature : option number;
  bloodPressure : option BloodPressure;
  timestamp : option nat;
  deviceId : option string;
  isEmergency : option bool
}.
End VitalReading.

(** [VitalThresholds] of vitals.ts. *)
Module VitalThresholds.
Record Range := mkRange { min : number; max : number }.
Record Floor := mkFloor { floor_min : number }.
Record Pressure := mkPressure { systolic : Range; diastolic : Range }.
Record t := mk {
  heartRate : Range;
  oxygenSaturation : Floor;
  temperature : Range;
  bloodPressure : Pressure
}.
End VitalThresholds.

(** [LocationData] of location/gps.ts. *)
Module LocationData.
Record t := mk {
  latitude : number;
  longitude : number;
  accuracy : number;
  altitude : option number;
  heading : option number;
  speed : option number;
  timestamp : nat
}.
End LocationData.

(** [MedicalProfile] of medical.ts, reduced to the properties that the
    dispatcher reads or copies. *)
Module MedicalProfile.
Record EmergencyContact := mkContact {
  name : string;
  phoneNumber : string;
  isPrimary : bool
}.
Record t := mk {
  patientId : string;
  emergencyContacts : option (list EmergencyContact)
}.
End MedicalProfile.

Inductive AlertType := manual_sos | vitals_critical | device_disconnect | fall_detected.
Inductive Severity := low | medium | high | critical.
Inductive AlertStatus := active | acknowledged | responding | resolved.

#[global] Instance AlertType_eq_dec : EqDecision AlertType.
Proof. solve_decision. Defined.
#[global] Instance Severity_eq_dec : EqDecision Severity.
Proof. solve_decision. Defined.
#[global] Instance AlertStatus_eq_dec : EqDecision AlertStatus.
Proof. solve_decision. Defined.

(** A document of the [emergencyAlerts] collection.  Firestore documents
    are schemaless and the collection has two writers with different
    shapes: [createEmergencyAlert] of firestore.ts writes [alertType] and
    [vitalReading]; the SOS manager writes the [EmergencyAlert] interface
    of sos.ts ([type], [severity], [vitalData], ...).  The record is the
    union of both, every property optional. *)
Module EmergencyAlert.
Record t := mk {
  id : option string;
  patientId : option string;
  type : option AlertType;
  alertType : option string;
  severity : option Severity;
  status : option AlertStatus;
  location : option LocationData.t;
  vitalData : option VitalReading.t;
  vitalReading : option VitalReading.t;
  medicalProfile : option MedicalProfile.t;
  message : option string;
  acknowledgedBy : option string;
  acknowledgedAt : option nat;
  responderId : option string;
  responseTime : option nat;
  resolvedAt : option nat;
  createdAt : option nat;
  updatedAt : option nat
}.
End EmergencyAlert.

(** [SOSResponse] of sos.ts.  [alertId] is [this.currentAlertId!] on the
    already-active path, which is [null] when no id is stored. *)
Module SOSResponse.
Record t := mk {
  alertId : option string;
  success : bool;
  message : string;
  estimatedResponseTime : option string
}.
End SOSResponse.

(** ** The world *)

(** The two Firestore collections the pipeline writes. *)
Inductive Collection := VITALS | EMERGENCY_ALERTS.

Record Firestore := mkFirestore {
  vitals : gmap string VitalReading.t;
  emergencyAlerts : gmap string EmergencyAlert.t
}.

(** The private fields of [EmergencySOSManager]. *)
Record SOSManager := mkSOSManager {
  isSOSActive : bool;
  currentAlertId : option string;
  (** whether [setSOSCallback] has registered a callback *)
  onSOSCallback : bool
}.

(** The three fan-out legs of the dispatcher. *)
Inductive Leg := Responders | Family | EmergencyContacts.

#[global] Instance Leg_eq_dec : EqDecision Leg.
Proof. solve_decision. Defined.

(** What the outside observes of the notification side: which leg was
    entered ([Attempt], a ghost mark at the entry of [notifyResponders],
    [notifyFamilyMembers], [notifyEmergencyContacts]), which call reached
    the notification manager, and the SOS callback. *)
Inductive Event :=
| Attempt (leg : Leg)
| ShowEmergencyAlert (patientId : option string) (vitalData : option VitalReading.t)
| ShowVitalsAlert (patientId : string) (msg : string)
| ShowNotification (title body type priority userId : string)
| SOSCallback (alert : EmergencyAlert.t).

Record World := mkWorld {
  db : Firestore;
  sos : SOSManager;
  trace : list Event
}.

(** The methods of the notification manager (notifications/push.ts, not
    part of the core; its outcomes are taken from the environment). *)
Inductive NotificationMethod := showEmergencyAlert | showVitalsAlert | showNotification.

Record Env := mkEnv {
  (** [new Date()] / [serverTimestamp()] *)
  now : nat;
  (** the answer of the store to the write that a call makes to the
      collection, as the caller sees it (the client of config.ts and the
      backend behind it): rejected with this error, or accepted *)
  writeError : Collection -> option JsError;
  (** [locationManager.getCurrentLocation(...)] *)
  currentLocation : JsError + LocationData.t;
  (** [getMedicalProfile(patientId)] of medical.ts: a query on the
      [medicalProfiles] collection, [null] when there is no profile *)
  medicalProfileOf : string -> JsError + option MedicalProfile.t;
  (** [notificationManager.isSupported()] *)
  notificationsSupported : bool;
  (** the notification transport rejects the call with this error *)
  notificationError : NotificationMethod -> option JsError
}.

(** ** Async functions as state transformers *)

Definition M (A : Type) : Type := World -> World * (JsError + A).

Definition ret {A} (a : A) : M A := fun w => (w, inr a).
Definition throw {A} (e : JsError) : M A := fun w => (w, inl e).
Definition bind {A B} (m : M A) (k : A -> M B) : M B :=
  fun w =>
    match m w with
    | (w', inr a) => k a w'
    | (w', inl e) => (w', inl e)
    end.
Definition try_catch {A} (m : M A) (handler : JsError -> M A) : M A :=
  fun w =>
    match m w with
    | (w', inr a) => (w', inr a)
    | (w', inl e) => handler e w'
    end.

Notation "'await' x := m 'in' k" := (bind m (fun x => k))
  (at level 10, x name, m at level 100, k at level 200, only parsing).
Notation "'perform' m 'then' k" := (bind m (fun _ => k))
  (at level 10, m at level 100, k at level 200, only parsing).

Definition lift_result {A} (r : JsError + A) : M A := fun w => (w, r).
Definition emit (e : Event) : M unit :=
  fun w => (mkWorld (db w) (sos w) (trace w ++ [e]), inr tt).
Definition get_sos : M SOSManager := fun w => (w, inr (sos w)).
Definition put_sos (s : SOSManager) : M unit :=
  fun w => (mkWorld (db w) s (trace w), inr tt).
Definition get_db : M Firestore := fun w => (w, inr (db w)).

(** ** The Firestore client (firebase/firestore), as far as it is used *)

Section Store.
Variable env : Env.

(** [doc(collectionRef)]: a reference with an auto-generated id, one that
    no document of the collection has. *)
Definition newDocId {A} (c : gmap string A) : string := fresh_string "doc" c.

Definition with_vitals (w : World) (v : gmap string VitalReading.t) : World :=
  mkWorld (mkFirestore v (emergencyAlerts (db w))) (sos w) (trace w).
Definition with_alerts (w : World) (a : gmap string EmergencyAlert.t) : World :=
  mkWorld (mkFirestore (vitals (db w)) a) (sos w) (trace w).

(** [setDoc(docRef, data)] on the [vitals] collection, answered as the
    environment says. *)
Definition setDoc_vitals (id : string) (data : VitalReading.t) : M unit :=
  fun w =>
    match writeError env VITALS with
    | Some e => (w, inl e)
    | None => (with_vitals w (<[id := data]> (vitals (db w))), inr tt)
    end.

(** [setDoc(docRef, data)] on the [emergencyAlerts] collection. *)
Definition setDoc_alerts (id : string) (data : EmergencyAlert.t) : M unit :=
  fun w =>
    match writeError env EMERGENCY_ALERTS with
    | Some e => (w, inl e)
    | None => (with_alerts w (<[id := data]> (emergencyAlerts (db w))), inr tt)
    end.

(** [addDoc(collection(db, 'emergencyAlerts'), data)]: a new document
    under a fresh id; resolves to its reference, or rejects as the
    environment answers the write. *)
Definition addDoc_alerts (data : EmergencyAlert.t) : M string :=
  await d := get_db in
  let id := newDocId (emergencyAlerts d) in
  perform setDoc_alerts id data then
  ret id.

(** [updateDoc(doc(db, 'emergencyAlerts', id), patch)]: merges the patch
    into an existing document and rejects when there is none. *)
Definition updateDoc_alerts (id : string)
    (patch : EmergencyAlert.t -> EmergencyAlert.t) : M unit :=
  fun w =>
    match writeError env EMERGENCY_ALERTS with
    | Some e => (w, inl e)
    | None =>
        match emergencyAlerts (db w) !! id with
        | Some d => (with_alerts w (<[id := patch d]> (emergencyAlerts (db w))), inr tt)
        | None => (w, inl (mkError "No document to update"))
        end
    end.

End Store.

(** ** The client of config.ts

    [db] is [getFirestore(app)] with the default settings, so [addDoc],
    [setDoc] and [updateDoc] throw, before anything reaches the backend,
    on data in which a property has the value [undefined]; [null] and an
    absent property are accepted.  The repository knows it: [triggerSOS]
    cleans the location and [createUserProfile] the user data ``to remove
    undefined values''.

    An environment answers a write as this client does when it rejects
    the write as soon as a property of the data written is [undefined]. *)
Definition refuses_undefined (env : Env) (c : Collection) (undefinedProps : list string)
  : Prop :=
  undefinedProps <> [] -> writeError env c <> None.

(** ** firestore.ts *)

Module FirestoreDb.
Section WithEnv.
Variable env : Env.

(** [addVitalReading(vitalData)]:
    [{...vitalData, timestamp: serverTimestamp(), id: docRef.id}].
    The [catch] logs and rethrows. *)
Definition addVitalReading (vitalData : VitalReading.t) : M string :=
  try_catch
    (await d := get_db in
     let docRef := newDocId (vitals d) in
     perform setDoc_vitals env docRef
       {| VitalReading.id := Some docRef;
          VitalReading.patientId := VitalReading.patientId vitalData;
          VitalReading.heartRate := VitalReading.heartRate vitalData;
          VitalReading.oxygenSaturation := VitalReading.oxygenSaturation vitalData;
          VitalReading.temperature := VitalReading.temperature vitalData;
          VitalReading.bloodPressure := VitalReading.bloodPressure vitalData;
          VitalReading.timestamp := Some (now env);
          VitalReading.deviceId := VitalReading.deviceId vitalData;
          VitalReading.isEmergency := VitalReading.isEmergency vitalData |} then
     ret docRef)
    (fun error => throw error).

(** [createEmergencyAlert(alertData)]:
    [{...alertData, id: docRef.id, status: 'active',
      createdAt: serverTimestamp(), acknowledgedBy: null, acknowledgedAt: null}]. *)
Definition createEmergencyAlert (alertData : EmergencyAlert.t) : M string :=
  try_catch
    (await d := get_db in
     let docRef := newDocId (emergencyAlerts d) in
     perform setDoc_alerts env docRef
       {| EmergencyAlert.id := Some docRef;
          EmergencyAlert.patientId := EmergencyAlert.patientId alertData;
          EmergencyAlert.type := EmergencyAlert.type alertData;
          EmergencyAlert.alertType := EmergencyAlert.alertType alertData;
          EmergencyAlert.severity := EmergencyAlert.severity alertData;
          EmergencyAlert.status := Some active;
          EmergencyAlert.location := EmergencyAlert.location alertData;
          EmergencyAlert.vitalData := EmergencyAlert.vitalData alertData;
          EmergencyAlert.vitalReading := EmergencyAlert.vitalReading alertData;
          EmergencyAlert.medicalProfile := EmergencyAlert.medicalProfile alertData;
          EmergencyAlert.message := EmergencyAlert.message alertData;
          EmergencyAlert.acknowledgedBy := None;
          EmergencyAlert.acknowledgedAt := None;
          EmergencyAlert.responderId := EmergencyAlert.responderId alertData;
          EmergencyAlert.responseTime := EmergencyAlert.responseTime alertData;
          EmergencyAlert.resolvedAt := EmergencyAlert.resolvedAt alertData;
          EmergencyAlert.createdAt := Some (now env);
          EmergencyAlert.updatedAt := EmergencyAlert.updatedAt alertData |} then
     ret docRef)
    (fun error => throw error).

(** The patch of [transaction.update] in [acknowledgeAlert]:
    [{status: 'acknowledged', acknowledgedBy: responderId,
      acknowledgedAt: serverTimestamp()}]. *)
Definition acknowledged_by (responderId : string) (d : EmergencyAlert.t) : EmergencyAlert.t :=
  {| EmergencyAlert.id := EmergencyAlert.id d;
     EmergencyAlert.patientId := EmergencyAlert.patientId d;
     EmergencyAlert.type := EmergencyAlert.type d;
     EmergencyAlert.alertType := EmergencyAlert.alertType d;
     EmergencyAlert.severity := EmergencyAlert.severity d;
     EmergencyAlert.status := Some acknowledged;
     EmergencyAlert.location := EmergencyAlert.location d;
     EmergencyAlert.vitalData := EmergencyAlert.vitalData d;
     EmergencyAlert.vitalReading := EmergencyAlert.vitalReading d;
     EmergencyAlert.medicalProfile := EmergencyAlert.medicalProfile d;
     EmergencyAlert.message := EmergencyAlert.message d;
     EmergencyAlert.acknowledgedBy := Some responderId;
     EmergencyAlert.acknowledgedAt := Some (now env);
     EmergencyAlert.responderId := EmergencyAlert.responderId d;
     EmergencyAlert.responseTime := EmergencyAlert.responseTime d;
     EmergencyAlert.resolvedAt := EmergencyAlert.resolvedAt d;
     EmergencyAlert.createdAt := EmergencyAlert.createdAt d;
     EmergencyAlert.updatedAt := EmergencyAlert.updatedAt d |}.

(** [acknowledgeAlert(alertId, responderId)]: the body of
    [runTransaction] reads the document, throws when it does not exist or
    when [acknowledgedBy] is truthy, and updates it otherwise; the
    transaction is atomic, so the read and the write are one step on the
    world.  The [catch] logs and rethrows. *)
Definition acknowledgeAlert (alertId responderId : string) : M unit :=
  try_catch
    (await d := get_db in
     match emergencyAlerts d !! alertId with
     | None => throw (mkError "Alert does not exist")
     | Some data =>
         if opt_string_truthy (EmergencyAlert.acknowledgedBy data)
         then throw (mkError "Alert already acknowledged")
         else updateDoc_alerts env alertId (acknowledged_by responderId)
     end)
    (fun error => throw error).

End WithEnv.
End FirestoreDb.

(** ** vitals.ts *)

Module Vitals.

(** Default vital thresholds for emergency alerts. *)
#[warnings="-inexact-float"]
Definition DEFAULT_THRESHOLDS : VitalThresholds.t :=
  {| VitalThresholds.heartRate := {| VitalThresholds.min := 60%float; VitalThresholds.max := 100%float |};
     VitalThresholds.oxygenSaturation := {| VitalThresholds.floor_min := 90%float |};
     VitalThresholds.temperature := {| VitalThresholds.min := 96.8%float; VitalThresholds.max := 100.4%float |};
     VitalThresholds.bloodPressure :=
       {| VitalThresholds.systolic := {| VitalThresholds.min := 90%float; VitalThresholds.max := 140%float |};
          VitalThresholds.diastolic := {| VitalThresholds.min := 60%float; VitalThresholds.max := 90%float |} |} |}.

(** [checkVitalThresholds(reading, thresholds = DEFAULT_THRESHOLDS)]: the
    flag [isEmergency] starts [false] and each of the four guarded blocks
    may set it. *)
Definition checkVitalThresholds (reading : VitalReading.t) (thresholds : VitalThresholds.t) : bool :=
  let isEmergency := false in
  let isEmergency :=
    match VitalReading.heartRate reading with
    | Some heartRate =>
        if lt heartRate (VitalThresholds.min (VitalThresholds.heartRate thresholds))
           || gt heartRate (VitalThresholds.max (VitalThresholds.heartRate thresholds))
        then true else isEmergency
    | None => isEmergency
    end in
  let isEmergency :=
    match VitalReading.oxygenSaturation reading with
    | Some oxygenSaturation =>
        if lt oxygenSaturation (VitalThresholds.floor_min (VitalThresholds.oxygenSaturation thresholds))
        then true else isEmergency
    | None => isEmergency
    end in
  let isEmergency :=
    match VitalReading.temperature reading with
    | Some temperature =>
        if lt temperature (VitalThresholds.min (VitalThresholds.temperature thresholds))
           || gt temperature (VitalThresholds.max (VitalThresholds.temperature thresholds))
        then true else isEmergency
    | None => isEmergency
    end in
  let isEmergency :=
    match VitalReading.bloodPressure reading with
    | Some bp =>
        let systolic := VitalReading.systolic bp in
        let diastolic := VitalReading.diastolic bp in
        let bpT := VitalThresholds.bloodPressure thresholds in
        if lt systolic (VitalThresholds.min (VitalThresholds.systolic bpT))
           || gt systolic (VitalThresholds.max (VitalThresholds.systolic bpT))
           || lt diastolic (VitalThresholds.min (VitalThresholds.diastolic bpT))
           || gt diastolic (VitalThresholds.max (VitalThresholds.diastolic bpT))
        then true else isEmergency
    | None => isEmergency
    end in
  isEmergency.

Section WithEnv.
Variable env : Env.

(** The object built at the top of [addVitalReading]:
    [{...reading, timestamp: new Date(),
      isEmergency: checkVitalThresholds(reading as VitalReading)}]. *)
Definition stamped (reading : VitalReading.t) : VitalReading.t :=
  {| VitalReading.id := VitalReading.id reading;
     VitalReading.patientId := VitalReading.patientId reading;
     VitalReading.heartRate := VitalReading.heartRate reading;
     VitalReading.oxygenSaturation := VitalReading.oxygenSaturation reading;
     VitalReading.temperature := VitalReading.temperature reading;
     VitalReading.bloodPressure := VitalReading.bloodPressure reading;
     VitalReading.timestamp := Some (now env);
     VitalReading.deviceId := VitalReading.deviceId reading;
     VitalReading.isEmergency := Some (checkVitalThresholds reading DEFAULT_THRESHOLDS) |}.

(** The argument of [createEmergencyAlert] in [addVitalReading]:
    [{patientId: reading.patientId, vitalReading: vitalReading,
      alertType: 'vital_threshold_exceeded'}]. *)
Definition thresholdAlertData (reading vitalReading : VitalReading.t) : EmergencyAlert.t :=
  {| EmergencyAlert.id := None;
     EmergencyAlert.patientId := VitalReading.patientId reading;
     EmergencyAlert.type := None;
     EmergencyAlert.alertType := Some "vital_threshold_exceeded";
     EmergencyAlert.severity := None;
     EmergencyAlert.status := None;
     EmergencyAlert.location := None;
     EmergencyAlert.vitalData := None;
     EmergencyAlert.vitalReading := Some vitalReading;
     EmergencyAlert.medicalProfile := None;
     EmergencyAlert.message := None;
     EmergencyAlert.acknowledgedBy := None;
     EmergencyAlert.acknowledgedAt := None;
     EmergencyAlert.responderId := None;
     EmergencyAlert.responseTime := None;
     EmergencyAlert.resolvedAt := None;
     EmergencyAlert.createdAt := None;
     EmergencyAlert.updatedAt := None |}.

(** [addVitalReading(reading)].  The [catch] logs and rethrows. *)
Definition addVitalReading (reading : VitalReading.t) : M string :=
  try_catch
    (let vitalReading := stamped reading in
     await docId := FirestoreDb.addVitalReading env vitalReading in
     perform
       (if VitalReading.isEmergency vitalReading is Some true
        then await _ := FirestoreDb.createEmergencyAlert env
                          (thresholdAlertData reading vitalReading) in ret tt
        else ret tt) then
     ret docId)
    (fun error => throw error).

End WithEnv.
End Vitals.

(** ** sos.ts: the [EmergencySOSManager] singleton *)

Module Sos.

(** [calculateVitalsSeverity(vitalData)]: two counters, three guarded
    blocks (each guard is the truthiness of the property), then the
    cascade of returns. *)
#[warnings="-inexact-float"]
Definition calculateVitalsSeverity (vitalData : VitalReading.t) : Severity :=
  let criticalCount := 0 in
  let warningCount := 0 in
  let '(criticalCount, warningCount) :=
    match VitalReading.heartRate vitalData with
    | Some heartRate =>
        if number_truthy heartRate then
          if lt heartRate 40%float || gt heartRate 150%float
          then (S criticalCount, warningCount)
          else if lt heartRate 50%float || gt heartRate 120%float
               then (criticalCount, S warningCount)
               else (criticalCount, warningCount)
        else (criticalCount, warningCount)
    | None => (criticalCount, warningCount)
    end in
  let '(criticalCount, warningCount) :=
    match VitalReading.oxygenSaturation vitalData with
    | Some oxygenSaturation =>
        if number_truthy oxygenSaturation then
          if lt oxygenSaturation 85%float
          then (S criticalCount, warningCount)
          else if lt oxygenSaturation 90%float
               then (criticalCount, S warningCount)
               else (criticalCount, warningCount)
        else (criticalCount, warningCount)
    | None => (criticalCount, warningCount)
    end in
  let '(criticalCount, warningCount) :=
    match VitalReading.temperature vitalData with
    | Some temperature =>
        if number_truthy temperature then
          if lt temperature 95%float || gt temperature 104%float
          then (S criticalCount, warningCount)
          else if lt temperature 96.5%float || gt temperature 101%float
               then (criticalCount, S warningCount)
               else (criticalCount, warningCount)
        else (criticalCount, warningCount)
    | None => (criticalCount, warningCount)
    end in
  if (2 <=? criticalCount)%nat then critical
  else if (1 <=? criticalCount)%nat then high
  else if (2 <=? warningCount)%nat then medium
  else low.

(** [issues.push(x)] *)
Definition push (issues : list string) (x : string) : list string := app issues [x].

(** [issues.join(', ')] *)
Fixpoint join (sep : string) (l : list string) : string :=
  match l with
  | [] => EmptyString
  | [x] => x
  | x :: rest => x ++ sep ++ join sep rest
  end.

Section Message.
(** The conversion of a number inside a template literal. *)
Variable numberToString : number -> string.

(** [generateVitalsMessage(vitalData)] *)
#[warnings="-inexact-float"]
Definition generateVitalsMessage (vitalData : VitalReading.t) : string :=
  let issues : list string := [] in
  let issues :=
    match VitalReading.heartRate vitalData with
    | Some heartRate =>
        if number_truthy heartRate && (lt heartRate 50%float || gt heartRate 120%float)
        then push issues ("Heart rate: " ++ numberToString heartRate ++ " BPM")
        else issues
    | None => issues
    end in
  let issues :=
    match VitalReading.oxygenSaturation vitalData with
    | Some oxygenSaturation =>
        if number_truthy oxygenSaturation && lt oxygenSaturation 90%float
        then push issues ("Oxygen saturation: " ++ numberToString oxygenSaturation ++ "%")
        else issues
    | None => issues
    end in
  let issues :=
    match VitalReading.temperature vitalData with
    | Some temperature =>
        if number_truthy temperature && (lt temperature 96.5%float || gt temperature 101%float)
        then push issues ("Temperature: " ++ numberToString temperature ++ "°F")
        else issues
    | None => issues
    end in
  if (0 <? length issues)%nat
  then "Critical vitals detected: " ++ join ", " issues
  else "Abnormal vital signs detected".
End Message.

(** The alert object built by [triggerSOS] and [triggerVitalsAlert]
    ([Omit<EmergencyAlert, 'id' | 'createdAt' | 'updatedAt'>]). *)
Definition newAlert (patientId : string) (type : AlertType) (severity : Severity)
    (location : option LocationData.t) (vitalData : option VitalReading.t)
    (medicalProfile : option MedicalProfile.t) (message : string) : EmergencyAlert.t :=
  {| EmergencyAlert.id := None;
     EmergencyAlert.patientId := Some patientId;
     EmergencyAlert.type := Some type;
     EmergencyAlert.alertType := None;
     EmergencyAlert.severity := Some severity;
     EmergencyAlert.status := Some active;
     EmergencyAlert.location := location;
     EmergencyAlert.vitalData := vitalData;
     EmergencyAlert.vitalReading := None;
     EmergencyAlert.medicalProfile := medicalProfile;
     EmergencyAlert.message := Some message;
     EmergencyAlert.acknowledgedBy := None;
     EmergencyAlert.acknowledgedAt := None;
     EmergencyAlert.responderId := None;
     EmergencyAlert.responseTime := None;
     EmergencyAlert.resolvedAt := None;
     EmergencyAlert.createdAt := None;
     EmergencyAlert.updatedAt := None |}.

(** [{...alert, createdAt: t, updatedAt: t}], with [id] when given. *)
Definition timestamped (id : option string) (t : nat) (alert : EmergencyAlert.t) : EmergencyAlert.t :=
  {| EmergencyAlert.id := id;
     EmergencyAlert.patientId := EmergencyAlert.patientId alert;
     EmergencyAlert.type := EmergencyAlert.type alert;
     EmergencyAlert.alertType := EmergencyAlert.alertType alert;
     EmergencyAlert.severity := EmergencyAlert.severity alert;
     EmergencyAlert.status := EmergencyAlert.status alert;
     EmergencyAlert.location := EmergencyAlert.location alert;
     EmergencyAlert.vitalData := EmergencyAlert.vitalData alert;
     EmergencyAlert.vitalReading := EmergencyAlert.vitalReading alert;
     EmergencyAlert.medicalProfile := EmergencyAlert.medicalProfile alert;
     EmergencyAlert.message := EmergencyAlert.message alert;
     EmergencyAlert.acknowledgedBy := EmergencyAlert.acknowledgedBy alert;
     EmergencyAlert.acknowledgedAt := EmergencyAlert.acknowledgedAt alert;
     EmergencyAlert.responderId := EmergencyAlert.responderId alert;
     EmergencyAlert.responseTime := EmergencyAlert.responseTime alert;
     EmergencyAlert.resolvedAt := EmergencyAlert.resolvedAt alert;
     EmergencyAlert.createdAt := Some t;
     EmergencyAlert.updatedAt := Some t |}.

(** The object literal that cleans the raw location in [triggerSOS]: the
    three optional properties are copied only when neither [undefined]
    nor [null]. *)
Definition cleanLocation (rawLocation : LocationData.t) : LocationData.t :=
  {| LocationData.latitude := LocationData.latitude rawLocation;
     LocationData.longitude := LocationData.longitude rawLocation;
     LocationData.accuracy := LocationData.accuracy rawLocation;
     LocationData.altitude := LocationData.altitude rawLocation;
     LocationData.heading := LocationData.heading rawLocation;
     LocationData.speed := LocationData.speed rawLocation;
     LocationData.timestamp := LocationData.timestamp rawLocation |}.

(** [medicalProfile?.emergencyContacts] as a condition: the profile was
    found and carries the property (an empty array is truthy). *)
Definition hasEmergencyContacts (medicalProfile : option MedicalProfile.t) : bool :=
  match medicalProfile with
  | Some p => if MedicalProfile.emergencyContacts p is Some _ then true else false
  | None => false
  end.

Section WithEnv.
Variable env : Env.
Variable numberToString : number -> string.

Definition getCurrentLocation : M LocationData.t := lift_result (currentLocation env).
Definition getMedicalProfile (patientId : string) : M (option MedicalProfile.t) :=
  lift_result (medicalProfileOf env patientId).

(** A call [await notificationManager.method(...)]. *)
Definition notificationManager (method : NotificationMethod) (call : Event) : M unit :=
  fun w =>
    match notificationError env method with
    | Some e => (w, inl e)
    | None => emit call w
    end.

Definition set_isSOSActive (b : bool) : M unit :=
  await s := get_sos in put_sos (mkSOSManager b (currentAlertId s) (onSOSCallback s)).
Definition set_currentAlertId (o : option string) : M unit :=
  await s := get_sos in put_sos (mkSOSManager (isSOSActive s) o (onSOSCallback s)).

(** [notifyResponders(alertId, alert)]: never throws. *)
Definition notifyResponders (alertId : string) (alert : EmergencyAlert.t) : M unit :=
  perform emit (Attempt Responders) then
  try_catch
    (if notificationsSupported env
     then notificationManager showEmergencyAlert
            (ShowEmergencyAlert (EmergencyAlert.patientId alert) (EmergencyAlert.vitalData alert))
     else ret tt)
    (fun _ => ret tt).

(** [notifyFamilyMembers(patientId, alert)]: never throws. *)
Definition notifyFamilyMembers (patientId : string) (alert : EmergencyAlert.t) : M unit :=
  perform emit (Attempt Family) then
  try_catch
    (let message :=
       if decide (EmergencyAlert.type alert = Some vitals_critical)
       then "Critical vitals detected for your family member"
       else "Emergency alert from your family member" in
     if notificationsSupported env
     then notificationManager showVitalsAlert (ShowVitalsAlert patientId message)
     else ret tt)
    (fun _ => ret tt).

(** [notifyEmergencyContacts(patientId, alert)]: never throws. *)
Definition notifyEmergencyContacts (patientId : string) (alert : EmergencyAlert.t) : M unit :=
  perform emit (Attempt EmergencyContacts) then
  try_catch
    (if notificationsSupported env
     then notificationManager showNotification
            (ShowNotification "🚨 Emergency Alert"
               ("Emergency SOS activated for patient " ++ patientId)
               "emergency" "critical" "emergency_contact")
     else ret tt)
    (fun _ => ret tt).

(** [triggerSOS(patientId, message?)] *)
Definition triggerSOS (patientId : string) (message : option string) : M SOSResponse.t :=
  await this := get_sos in
  if isSOSActive this then
    ret {| SOSResponse.alertId := currentAlertId this;
           SOSResponse.success := false;
           SOSResponse.message := "SOS already active";
           SOSResponse.estimatedResponseTime := None |}
  else
    try_catch
      (perform set_isSOSActive true then
       await location :=
         try_catch
           (await rawLocation := getCurrentLocation in
            ret (Some (cleanLocation rawLocation)))
           (fun locationError => ret None) in
       await medicalProfile :=
         try_catch (getMedicalProfile patientId) (fun medicalError => ret None) in
       let alert :=
         newAlert patientId manual_sos critical location None medicalProfile
           (match message with
            | Some m => if string_truthy m then m else "Emergency SOS activated"
            | None => "Emergency SOS activated"
            end) in
       await docRef := addDoc_alerts env (timestamped None (now env) alert) in
       perform set_currentAlertId (Some docRef) then
       perform try_catch (notifyResponders docRef alert) (fun notifyError => ret tt) then
       perform
         try_catch
           (if hasEmergencyContacts medicalProfile
            then notifyEmergencyContacts patientId alert
            else ret tt)
           (fun contactError => ret tt) then
       let fullAlert := timestamped (Some docRef) (now env) alert in
       (* this.onSOSCallback?.(fullAlert): the callback registered by
          VitalsContext sets a state flag and logs *)
       await this := get_sos in
       perform (if onSOSCallback this then emit (SOSCallback fullAlert) else ret tt) then
       ret {| SOSResponse.alertId := Some docRef;
              SOSResponse.success := true;
              SOSResponse.message := "Emergency alert sent successfully";
              SOSResponse.estimatedResponseTime := Some "5-10 minutes" |})
      (fun error =>
         perform set_isSOSActive false then
         perform set_currentAlertId None then
         ret {| SOSResponse.alertId := Some EmptyString;
                SOSResponse.success := false;
                SOSResponse.message :=
                  "Failed to send emergency alert: "
                  ++ (if string_truthy (JsError.message error)
                      then JsError.message error else "Unknown error");
                SOSResponse.estimatedResponseTime := None |}).

(** The patch of [cancelSOS] and [resolveAlert]:
    [{status: 'resolved', resolvedAt: serverTimestamp(), message,
      updatedAt: serverTimestamp()}]. *)
Definition resolved_with (message : string) (d : EmergencyAlert.t) : EmergencyAlert.t :=
  {| EmergencyAlert.id := EmergencyAlert.id d;
     EmergencyAlert.patientId := EmergencyAlert.patientId d;
     EmergencyAlert.type := EmergencyAlert.type d;
     EmergencyAlert.alertType := EmergencyAlert.alertType d;
     EmergencyAlert.severity := EmergencyAlert.severity d;
     EmergencyAlert.status := Some resolved;
     EmergencyAlert.location := EmergencyAlert.location d;
     EmergencyAlert.vitalData := EmergencyAlert.vitalData d;
     EmergencyAlert.vitalReading := EmergencyAlert.vitalReading d;
     EmergencyAlert.medicalProfile := EmergencyAlert.medicalProfile d;
     EmergencyAlert.message := Some message;
     EmergencyAlert.acknowledgedBy := EmergencyAlert.acknowledgedBy d;
     EmergencyAlert.acknowledgedAt := EmergencyAlert.acknowledgedAt d;
     EmergencyAlert.responderId := EmergencyAlert.responderId d;
     EmergencyAlert.responseTime := EmergencyAlert.responseTime d;
     EmergencyAlert.resolvedAt := Some (now env);
     EmergencyAlert.createdAt := EmergencyAlert.createdAt d;
     EmergencyAlert.updatedAt := Some (now env) |}.

(** The patch of [acknowledgeAlert]:
    [{status: 'acknowledged', acknowledgedBy: responderId,
      acknowledgedAt: serverTimestamp(), updatedAt: serverTimestamp()}]. *)
Definition acknowledged_by (responderId : string) (d : EmergencyAlert.t) : EmergencyAlert.t :=
  {| EmergencyAlert.id := EmergencyAlert.id d;
     EmergencyAlert.patientId := EmergencyAlert.patientId d;
     EmergencyAlert.type := EmergencyAlert.type d;
     EmergencyAlert.alertType := EmergencyAlert.alertType d;
     EmergencyAlert.severity := EmergencyAlert.severity d;
     EmergencyAlert.status := Some acknowledged;
     EmergencyAlert.location := EmergencyAlert.location d;
     EmergencyAlert.vitalData := EmergencyAlert.vitalData d;
     EmergencyAlert.vitalReading := EmergencyAlert.vitalReading d;
     EmergencyAlert.medicalProfile := EmergencyAlert.medicalProfile d;
     EmergencyAlert.message := EmergencyAlert.message d;
     EmergencyAlert.acknowledgedBy := Some responderId;
     EmergencyAlert.acknowledgedAt := Some (now env);
     EmergencyAlert.responderId := EmergencyAlert.responderId d;
     EmergencyAlert.responseTime := EmergencyAlert.responseTime d;
     EmergencyAlert.resolvedAt := EmergencyAlert.resolvedAt d;
     EmergencyAlert.createdAt := EmergencyAlert.createdAt d;
     EmergencyAlert.updatedAt := Some (now env) |}.

(** The patch of [startResponse]:
    [{status: 'responding', responderId, responseTime: serverTimestamp(),
      updatedAt: serverTimestamp()}]. *)
Definition responding_with (responderId : string) (d : EmergencyAlert.t) : EmergencyAlert.t :=
  {| EmergencyAlert.id := EmergencyAlert.id d;
     EmergencyAlert.patientId := EmergencyAlert.patientId d;
     EmergencyAlert.type := EmergencyAlert.type d;
     EmergencyAlert.alertType := EmergencyAlert.alertType d;
     EmergencyAlert.severity := EmergencyAlert.severity d;
     EmergencyAlert.status := Some responding;
     EmergencyAlert.location := EmergencyAlert.location d;
     EmergencyAlert.vitalData := EmergencyAlert.vitalData d;
     EmergencyAlert.vitalReading := EmergencyAlert.vitalReading d;
     EmergencyAlert.medicalProfile := EmergencyAlert.medicalProfile d;
     EmergencyAlert.message := EmergencyAlert.message d;
     EmergencyAlert.acknowledgedBy := EmergencyAlert.acknowledgedBy d;
     EmergencyAlert.acknowledgedAt := EmergencyAlert.acknowledgedAt d;
     EmergencyAlert.responderId := Some responderId;
     EmergencyAlert.responseTime := Some (now env);
     EmergencyAlert.resolvedAt := EmergencyAlert.resolvedAt d;
     EmergencyAlert.createdAt := EmergencyAlert.createdAt d;
     EmergencyAlert.updatedAt := Some (now env) |}.

(** [cancelSOS(reason?)] *)
Definition cancelSOS (reason : option string) : M bool :=
  await this := get_sos in
  if negb (isSOSActive this) || negb (opt_string_truthy (currentAlertId this)) then
    ret false
  else
    try_catch
      (perform
         updateDoc_alerts env (default EmptyString (currentAlertId this))
           (resolved_with
              (match reason with
               | Some r => if string_truthy r then r else "SOS cancelled by patient"
               | None => "SOS cancelled by patient"
               end)) then
       perform set_isSOSActive false then
       perform set_currentAlertId None then
       perform
         notificationManager showNotification
           (ShowNotification "SOS Cancelled"
              (match reason with
               | Some r =>
                   if string_truthy r then r
                   else "Emergency alert has been cancelled by the patient"
               | None => "Emergency alert has been cancelled by the patient"
               end)
              "info" "normal" "responder") then
       ret true)
      (fun error => ret false).

(** [triggerVitalsAlert(patientId, vitalData)].  The outer [catch] logs
    and rethrows. *)
Definition triggerVitalsAlert (patientId : string) (vitalData : VitalReading.t) : M string :=
  try_catch
    (await location :=
       try_catch
         (await l := getCurrentLocation in ret (Some l))
         (fun locationError => ret None) in
     await medicalProfile :=
       try_catch (getMedicalProfile patientId) (fun medicalError => ret None) in
     let severity := calculateVitalsSeverity vitalData in
     let alert :=
       newAlert patientId vitals_critical severity location (Some vitalData)
         medicalProfile (generateVitalsMessage numberToString vitalData) in
     await docRef := addDoc_alerts env (timestamped None (now env) alert) in
     perform
       (if decide (severity = critical)
        then notifyResponders docRef alert
        else ret tt) then
     perform notifyFamilyMembers patientId alert then
     ret docRef)
    (fun error => throw error).

(** The properties of the object that [triggerSOS] passes to [addDoc]
    whose value is [undefined]: [location] when the location gather
    threw ([let location] is left unassigned; a location that was
    obtained is cleaned), and [medicalProfile] when [getMedicalProfile]
    threw (its answer [null], for a patient without profile, is a
    value). *)
Definition sosAlertUndefined (patientId : string) : list string :=
  app (if currentLocation env is inl _ then ["location"] else [])
      (if medicalProfileOf env patientId is inl _ then ["medicalProfile"] else []).

(** The same for [triggerVitalsAlert], which passes the location as
    [getCurrentLocation] of gps.ts built it: there [altitude], [heading]
    and [speed] are [position.coords.x || undefined], present with the
    value [undefined] when the browser gave [null], [0] or [NaN]. *)
Definition vitalsAlertUndefined (patientId : string) : list string :=
  app (match currentLocation env with
       | inl _ => ["location"]
       | inr l =>
           app (if LocationData.altitude l is None then ["location.altitude"] else [])
               (app (if LocationData.heading l is None then ["location.heading"] else [])
                    (if LocationData.speed l is None then ["location.speed"] else []))
       end)
      (if medicalProfileOf env patientId is inl _ then ["medicalProfile"] else []).

(** [acknowledgeAlert(alertId, responderId)] (for responders) *)
Definition acknowledgeAlert (alertId responderId : string) : M bool :=
  try_catch
    (perform updateDoc_alerts env alertId (acknowledged_by responderId) then
     ret true)
    (fun error => ret false).

(** [startResponse(alertId, responderId)] (for responders) *)
Definition startResponse (alertId responderId : string) : M bool :=
  try_catch
    (perform updateDoc_alerts env alertId (responding_with responderId) then
     ret true)
    (fun error => ret false).

(** [resolveAlert(alertId, resolution)] *)
Definition resolveAlert (alertId resolution : string) : M bool :=
  try_catch
    (perform updateDoc_alerts env alertId (resolved_with resolution) then
     await this := get_sos in
     perform
       (if decide (currentAlertId this = Some alertId)
        then perform set_isSOSActive false then set_currentAlertId None
        else ret tt) then
     ret true)
    (fun error => ret false).

(** [setSOSCallback(callback)] *)
Definition setSOSCallback : M unit :=
  await this := get_sos in
  put_sos (mkSOSManager (isSOSActive this) (currentAlertId this) true).

(** [isSOSCurrentlyActive()] and [getCurrentAlertId()] *)
Definition isSOSCurrentlyActive : M bool := await this := get_sos in ret (isSOSActive this).
Definition getCurrentAlertId : M (option string) := await this := get_sos in ret (currentAlertId this).

End WithEnv.
End Sos.

(** ** ble.ts: the heart-rate characteristic *)

Module Ble.

(** [VitalData] of ble.ts.  The simulated devices build it without
    [deviceType]. *)
Record VitalData := mkVitalData {
  heartRate : option number;
  oxygenSaturation : option number;
  temperature : option number;
  bloodPressure : option VitalReading.BloodPressure;
  timestamp : nat;
  deviceId : string;
  deviceType : option string;
  signalStrength : option number
}.

(** An unsigned integer read from a [DataView], as a number. *)
Definition number_of_N (n : N) : number :=
  PrimFloat.of_uint63 (Uint63.of_Z (Z.of_N n)).

(** The [RangeError] of a [DataView] accessor. *)
Definition RangeError : JsError :=
  mkError "Offset is outside the bounds of the DataView".

(** [value.getUint8(byteOffset)] on a [DataView] over the given bytes. *)
Definition getUint8 (value : list byte) (byteOffset : nat) : JsError + N :=
  match value !! byteOffset with
  | Some b => inr (Byte.to_N b)
  | None => inl RangeError
  end.

(** [value.getUint16(byteOffset, littleEndian)]. *)
Definition getUint16 (value : list byte) (byteOffset : nat) (littleEndian : bool) : JsError + N :=
  match value !! byteOffset, value !! S byteOffset with
  | Some b0, Some b1 =>
      inr (if littleEndian
           then Byte.to_N b0 + 256 * Byte.to_N b1
           else 256 * Byte.to_N b0 + Byte.to_N b1)%N
  | _, _ => inl RangeError
  end.

(** [parseHeartRateData(characteristic)], on [characteristic.value]
    ([None] when the characteristic has no value yet). *)
Definition parseHeartRateData (value : option (list byte)) : JsError + option N :=
  match value with
  | None => inr None
  | Some value =>
      match getUint8 value 0 with
      | inl e => inl e
      | inr flags =>
          let rate16Bits := N.land flags 1 in
          if negb (rate16Bits =? 0)%N then
            match getUint16 value 1 true with
            | inl e => inl e
            | inr heartRate => inr (Some heartRate)
            end
          else
            match getUint8 value 1 with
            | inl e => inl e
            | inr heartRate => inr (Some heartRate)
            end
      end
  end.

(** The listener of [characteristicvaluechanged] set up by
    [connectHeartRateMonitor]: what it passes to the data callback, if it
    calls it ([onDataCallback] tells whether one is registered).  The
    update of [deviceInfo.lastSeen] that follows is not tracked. *)
Definition onHeartRateValueChanged (onDataCallback : bool) (now : nat)
    (deviceId : string) (value : option (list byte)) : JsError + option VitalData :=
  match parseHeartRateData value with
  | inl e => inl e
  | inr heartRate =>
      inr (match heartRate with
           | Some hr =>
               if onDataCallback && negb (hr =? 0)%N
               then Some {| heartRate := Some (number_of_N hr);
                            oxygenSaturation := None;
                            temperature := None;
                            bloodPressure := None;
                            timestamp := now;
                            deviceId := deviceId;
                            deviceType := Some "heart_rate";
                            signalStrength := None |}
               else None
           | None => None
           end)
  end.

End Ble.

(** ** VitalsContext.tsx: the handlers that feed and drive the pipeline *)

Module VitalsContext.

(** The part of the provider's React state that the emergency functions
    write. *)
Record State := mkState {
  isSOSActive : bool;
  loading : bool;
  error : option string
}.

Section WithEnv.
Variable env : Env.
Variable numberToString : number -> string.

(** The callback given to [bluetoothManager.setDataCallback]: the
    reading is ingested and a failure is only logged. *)
Definition onBluetoothData (patientId : string) (data : Ble.VitalData) : M unit :=
  try_catch
    (await _ :=
       Vitals.addVitalReading env
         {| VitalReading.id := None;
            VitalReading.patientId := Some patientId;
            VitalReading.heartRate := Ble.heartRate data;
            VitalReading.oxygenSaturation := Ble.oxygenSaturation data;
            VitalReading.temperature := Ble.temperature data;
            VitalReading.bloodPressure := Ble.bloodPressure data;
            VitalReading.timestamp := None;
            VitalReading.deviceId := Some (Ble.deviceId data);
            VitalReading.isEmergency := None |} in
     ret tt)
    (fun error => ret tt).

(** The properties of the object literal that this callback passes to
    [addVitalReading] whose value is [undefined]: the four metrics are
    named in the literal, so each one that the device data lacks is
    present with the value [undefined]; [patientId] and [deviceId] are
    strings.  The object is spread unchanged into the data of [setDoc]. *)
Definition undefinedProps (data : Ble.VitalData) : list string :=
  app (if Ble.heartRate data is None then ["heartRate"] else [])
      (app (if Ble.oxygenSaturation data is None then ["oxygenSaturation"] else [])
           (app (if Ble.temperature data is None then ["temperature"] else [])
                (if Ble.bloodPressure data is None then ["bloodPressure"] else []))).

(** The callback given to [subscribeToPatientVitals] for a patient, as
    far as it acts on the SOS manager: when the first reading of the
    snapshot is flagged as an emergency, [triggerVitalsAlert] is called
    with it.  The promise is not awaited: a rejection is not seen by the
    callback. *)
Definition onPatientVitals (patientId : string) (newVitals : list VitalReading.t) : M unit :=
  match newVitals with
  | latest :: _ =>
      if VitalReading.isEmergency latest is Some true
      then try_catch
             (await _ := Sos.triggerVitalsAlert env numberToString patientId latest in ret tt)
             (fun unhandled => ret tt)
      else ret tt
  | [] => ret tt
  end.

(** [triggerSOS(message?)] of the provider, on the patient id of the
    signed-in user. *)
Definition triggerSOS (patientId : option string) (message : option string)
    (st : State) : World -> (State * World) * (JsError + unit) :=
  fun w =>
    if negb (opt_string_truthy patientId) then
      ((st, w), inl (mkError "Patient ID not found"))
    else
      (* try { setLoading(true); ... *)
      let st := mkState (isSOSActive st) true (error st) in
      match Sos.triggerSOS env (default EmptyString patientId) message w with
      | (w', inr response) =>
          if SOSResponse.success response then
            (* setIsSOSActive(true); finally setLoading(false) *)
            ((mkState true false (error st), w'), inr tt)
          else
            (* throw new Error(response.message); catch: setError, rethrow *)
            ((mkState (isSOSActive st) false (Some (SOSResponse.message response)), w'),
             inl (mkError (SOSResponse.message response)))
      | (w', inl e) =>
          ((mkState (isSOSActive st) false (Some (JsError.message e)), w'), inl e)
      end.

(** [cancelSOS()] of the provider. *)
Definition cancelSOS (st : State) : World -> (State * World) * (JsError + unit) :=
  fun w =>
    match Sos.cancelSOS env None w with
    | (w', inr success) =>
        ((if success then mkState false (loading st) (error st) else st, w'), inr tt)
    | (w', inl e) =>
        ((mkState (isSOSActive st) (loading st) (Some (JsError.message e)), w'), inl e)
    end.

End WithEnv.
End VitalsContext.

(** ** The status badges of the dashboards *)

Module PatientDashboard.

(** [getVitalStatus(type, value)] of PatientDashboard.tsx. *)
#[warnings="-inexact-float"]
Definition getVitalStatus (type : string) (value : option number) : string :=
  if negb (truthy value) then "unknown"
  else
    match value with
    | Some value =>
        if String.eqb type "heartRate" then
          if lt value 60%float || gt value 100%float then "critical" else "normal"
        else if String.eqb type "spo2" then
          if lt value 90%float then "critical"
          else if lt value 95%float then "warning" else "normal"
        else if String.eqb type "temperature" then
          if lt value 96.8%float || gt value 100.4%float then "critical" else "normal"
        else "normal"
    | None => "unknown"
    end.

End PatientDashboard.

Module ResponderDashboard.

(** [getVitalStatus(vital, value)] of ResponderDashboard.tsx. *)
#[warnings="-inexact-float"]
Definition getVitalStatus (vital : string) (value : number) : string :=
  if String.eqb vital "heartRate" then
    if lt value 60%float || gt value 100%float then "critical"
    else if lt value 70%float || gt value 90%float then "warning" else "normal"
  else if String.eqb vital "oxygenSaturation" then
    if lt value 90%float then "critical"
    else if lt value 95%float then "warning" else "normal"
  else if String.eqb vital "temperature" then
    if lt value 96.8%float || gt value 100.4%float then "critical"
    else if lt value 97.5%float || gt value 99.5%float then "warning" else "normal"
  else "normal".

End ResponderDashboard.

(** ** Operations on the other stores *)

(** An [async] function over a state [S]: the generic form of [M]. *)
Definition Op (S A : Type) : Type := S -> S * (JsError + A).

Definition op_ret {S A} (a : A) : Op S A := fun s => (s, inr a).
Definition op_throw {S A} (e : JsError) : Op S A := fun s => (s, inl e).
Definition op_bind {S A B} (m : Op S A) (k : A -> Op S B) : Op S B :=
  fun s =>
    match m s with
    | (s', inr a) => k a s'
    | (s', inl e) => (s', inl e)
    end.
Definition op_try {S A} (m : Op S A) (handler : JsError -> Op S A) : Op S A :=
  fun s =>
    match m s with
    | (s', inr a) => (s', inr a)
    | (s', inl e) => handler e s'
    end.

Notation "'let!' x := m 'in' k" := (op_bind m (fun x => k))
  (at level 10, x name, m at level 100, k at level 200, only parsing).
Notation "'run!' m 'then' k" := (op_bind m (fun _ => k))
  (at level 10, m at level 100, k at level 200, only parsing).

(** ** firestore.ts and auth.ts: users and family connections *)

Module Accounts.

Inductive UserRole := patient | family | responder.

#[global] Instance UserRole_eq_dec : EqDecision UserRole.
Proof. solve_decision. Defined.

(** [UserData] of auth.ts, as a document of the [users] collection
    (every property optional: [updateUserProfile] merges partial
    objects, and creates the document when there is none). *)
Record UserData := mkUserData {
  uid : option string;
  email : option string;
  role : option UserRole;
  displayName : option string;
  patientId : option string;
  connectedPatients : option (list string);
  createdAt : option nat;
  updatedAt : option nat
}.

(** A document of the [familyConnections] collection. *)
Record Connection := mkConnection {
  c_id : string;
  c_familyUserId : string;
  c_patientId : string;
  c_patientUserId : string;
  c_status : string;
  c_createdAt : nat
}.

Record Store := mkStore {
  users : gmap string UserData;
  familyConnections : gmap string Connection
}.

Inductive Collection := USERS | FAMILY_CONNECTIONS.

(** The user that Firebase Authentication hands back. *)
Record AuthUser := mkAuthUser {
  a_uid : string;
  a_email : string;
  a_displayName : option string
}.

Record Env := mkEnv {
  (** [new Date()] / [serverTimestamp()] *)
  now : nat;
  (** the store rejects a read of / a write to the collection *)
  readError : Collection -> option JsError;
  writeError : Collection -> option JsError;
  (** the first document of
      [query(users, where('patientId', '==', p), limit(1))]; which of
      several matching documents comes first is the backend's choice *)
  firstUserByPatientId : gmap string UserData -> string -> option (string * UserData);
  (** [createUserWithEmailAndPassword(auth, email, password)] *)
  createUser : string -> string -> JsError + AuthUser;
  (** [updateProfile(user, {displayName})] fails with this error *)
  updateProfileError : option JsError;
  (** [generatePatientId()]: [P-<time>-<random>], upper-cased *)
  generatePatientId : string
}.

(** What is assumed of the query: it answers with a document of the
    collection that matches, and with nothing only when none matches. *)
Definition query_ok (env : Env) : Prop :=
  forall (us : gmap string UserData) (p : string),
    match firstUserByPatientId env us p with
    | Some (k, u) => us !! k = Some u /\ patientId u = Some p
    | None => forall k u, us !! k = Some u -> patientId u <> Some p
    end.

(** [{...doc, ...updates}] on user documents: a property of [updates]
    that is present replaces the one of [doc]. *)
Definition merge (doc updates : UserData) : UserData :=
  {| uid := if uid updates is Some x then Some x else uid doc;
     email := if email updates is Some x then Some x else email doc;
     role := if role updates is Some x then Some x else role doc;
     displayName := if displayName updates is Some x then Some x else displayName doc;
     patientId := if patientId updates is Some x then Some x else patientId doc;
     connectedPatients :=
       if connectedPatients updates is Some x then Some x else connectedPatients doc;
     createdAt := if createdAt updates is Some x then Some x else createdAt doc;
     updatedAt := if updatedAt updates is Some x then Some x else updatedAt doc |}.

Definition no_user_data : UserData :=
  mkUserData None None None None None None None None.

Section WithEnv.
Variable env : Env.

Definition with_users (s : Store) (us : gmap string UserData) : Store :=
  mkStore us (familyConnections s).
Definition with_connections (s : Store) (cs : gmap string Connection) : Store :=
  mkStore (users s) cs.

(** [createUserProfile(userId, userData)]: the properties that are
    [undefined] are dropped (they are the absent ones here), and the
    document is written with both timestamps set by the server. *)
Definition createUserProfile (userId : string) (userData : UserData) : Op Store unit :=
  op_try
    (fun s =>
       match writeError env USERS with
       | Some e => (s, inl e)
       | None =>
           (with_users s
              (<[userId := {| uid := uid userData;
                              email := email userData;
                              role := role userData;
                              displayName := displayName userData;
                              patientId := patientId userData;
                              connectedPatients := connectedPatients userData;
                              createdAt := Some (now env);
                              updatedAt := Some (now env) |}]> (users s)),
            inr tt)
       end)
    (fun error => op_throw error).

(** [getUserProfile(userId)] *)
Definition getUserProfile (userId : string) : Op Store (option UserData) :=
  op_try
    (fun s =>
       match readError env USERS with
       | Some e => (s, inl e)
       | None => (s, inr (users s !! userId))
       end)
    (fun error => op_throw error).

(** [updateUserProfile(userId, updates)]:
    [setDoc(ref, {...updates, updatedAt: serverTimestamp()}, {merge: true})]. *)
Definition updateUserProfile (userId : string) (updates : UserData) : Op Store unit :=
  op_try
    (fun s =>
       match writeError env USERS with
       | Some e => (s, inl e)
       | None =>
           let patch :=
             {| uid := uid updates;
                email := email updates;
                role := role updates;
                displayName := displayName updates;
                patientId := patientId updates;
                connectedPatients := connectedPatients updates;
                createdAt := createdAt updates;
                updatedAt := Some (now env) |} in
           (with_users s
              (<[userId := merge (default no_user_data (users s !! userId)) patch]> (users s)),
            inr tt)
       end)
    (fun error => op_throw error).

(** [findUserByPatientId(patientId)]: the id and the data of the first
    matching document, or [null]. *)
Definition findUserByPatientId (p : string) : Op Store (option (string * UserData)) :=
  op_try
    (fun s =>
       match readError env USERS with
       | Some e => (s, inl e)
       | None => (s, inr (firstUserByPatientId env (users s) p))
       end)
    (fun error => op_throw error).

(** [createFamilyConnection(familyUserId, patientId)] *)
Definition createFamilyConnection (familyUserId p : string) : Op Store string :=
  op_try
    (let! found := findUserByPatientId p in
     match found with
     | None => op_throw (mkError "Patient not found")
     | Some (patientDocId, _) =>
         let! docRef :=
           (fun s =>
              let docRef := newDocId (familyConnections s) in
              match writeError env FAMILY_CONNECTIONS with
              | Some e => (s, inl e)
              | None =>
                  (with_connections s
                     (<[docRef := {| c_id := docRef;
                                     c_familyUserId := familyUserId;
                                     c_patientId := p;
                                     c_patientUserId := patientDocId;
                                     c_status := "active";
                                     c_createdAt := now env |}]> (familyConnections s)),
                   inr docRef)
              end) in
         let! familyUser := getUserProfile familyUserId in
         let connected :=
           match familyUser with
           | Some u => default [] (connectedPatients u)
           | None => []
           end in
         run! (if bool_decide (p ∈ connected)
               then op_ret tt
               else updateUserProfile familyUserId
                      (mkUserData None None None None None
                         (Some (connected ++ [p])%list) None None)) then
         op_ret docRef
     end)
    (fun error => op_throw error).

(** [connectFamilyToPatient(familyUid, patientId)] of auth.ts. *)
Definition connectFamilyToPatient (familyUid p : string) : Op Store unit :=
  op_try
    (run! createFamilyConnection familyUid p then op_ret tt)
    (fun error => op_throw error).

(** [signUpUser(email, password, role, displayName?)] of auth.ts. *)
Definition signUpUser (email' password : string) (role' : UserRole)
    (displayName' : option string) : Op Store UserData :=
  op_try
    (let! user := (fun s => (s, createUser env email' password)) in
     run! (if opt_string_truthy displayName'
           then (fun s =>
                   match updateProfileError env with
                   | Some e => (s, inl e)
                   | None => (s, inr tt)
                   end)
           else op_ret tt) then
     let userData :=
       {| uid := Some (a_uid user);
          email := Some (a_email user);
          role := Some role';
          displayName :=
            Some (if opt_string_truthy displayName' then default EmptyString displayName'
                  else if opt_string_truthy (a_displayName user)
                       then default EmptyString (a_displayName user)
                       else EmptyString);
          patientId :=
            if decide (role' = patient) then Some (generatePatientId env) else None;
          connectedPatients := if decide (role' = family) then Some [] else None;
          createdAt := Some (now env);
          updatedAt := Some (now env) |} in
     run! createUserProfile (a_uid user) userData then
     op_ret userData)
    (fun error => op_throw error).

End WithEnv.
End Accounts.

(** ** medical.ts: the medical profile *)

Module Medical.

(** [Medication], and [Partial<Medication>] as the argument of
    [updateMedication]. *)
Module Medication.
Record t := mk {
  id : string;
  name : string;
  dosage : string;
  frequency : string;
  prescribedBy : string;
  startDate : nat;
  endDate : option nat;
  notes : option string;
  active : bool
}.
Record updates := mkUpdates {
  u_id : option string;
  u_name : option string;
  u_dosage : option string;
  u_frequency : option string;
  u_prescribedBy : option string;
  u_startDate : option nat;
  u_endDate : option nat;
  u_notes : option string;
  u_active : option bool
}.
(** [{...med, ...updates}] *)
Definition apply (med : t) (u : updates) : t :=
  {| id := default (id med) (u_id u);
     name := default (name med) (u_name u);
     dosage := default (dosage med) (u_dosage u);
     frequency := default (frequency med) (u_frequency u);
     prescribedBy := default (prescribedBy med) (u_prescribedBy u);
     startDate := default (startDate med) (u_startDate u);
     endDate := if u_endDate u is Some x then Some x else endDate med;
     notes := if u_notes u is Some x then Some x else notes med;
     active := default (active med) (u_active u) |}.
(** [{...medication, id}] *)
Definition with_id (med : t) (newId : string) : t :=
  mk newId (name med) (dosage med) (frequency med) (prescribedBy med)
    (startDate med) (endDate med) (notes med) (active med).
End Medication.

(** [EmergencyContact], and [Partial<EmergencyContact>]. *)
Module Contact.
Record t := mk {
  id : string;
  name : string;
  relationship : string;
  phoneNumber : string;
  email : option string;
  address : option string;
  isPrimary : bool
}.
Record updates := mkUpdates {
  u_id : option string;
  u_name : option string;
  u_relationship : option string;
  u_phoneNumber : option string;
  u_email : option string;
  u_address : option string;
  u_isPrimary : option bool
}.
Definition apply (c : t) (u : updates) : t :=
  {| id := default (id c) (u_id u);
     name := default (name c) (u_name u);
     relationship := default (relationship c) (u_relationship u);
     phoneNumber := default (phoneNumber c) (u_phoneNumber u);
     email := if u_email u is Some x then Some x else email c;
     address := if u_address u is Some x then Some x else address c;
     isPrimary := default (isPrimary c) (u_isPrimary u) |}.
Definition with_id (c : t) (newId : string) : t :=
  mk newId (name c) (relationship c) (phoneNumber c) (email c) (address c) (isPrimary c).
End Contact.

(** [MedicalProfile].  [insuranceInfo], [physicianInfo] and
    [medicalHistory] are left out: no function below reads or writes
    them.  [Partial<MedicalProfile>] is the record [updates]. *)
Module Profile.
Record t := mk {
  id : option string;
  patientId : string;
  bloodType : option string;
  allergies : list string;
  medications : list Medication.t;
  medicalConditions : list string;
  emergencyContacts : list Contact.t;
  createdAt : option nat;
  updatedAt : option nat
}.
Record updates := mkUpdates {
  u_patientId : option string;
  u_bloodType : option string;
  u_allergies : option (list string);
  u_medications : option (list Medication.t);
  u_medicalConditions : option (list string);
  u_emergencyContacts : option (list Contact.t)
}.
Definition no_updates : updates := mkUpdates None None None None None None.
(** The document after [updateDoc(ref, {...updates, updatedAt: t})]. *)
Definition apply (p : t) (u : updates) (t' : nat) : t :=
  {| id := id p;
     patientId := default (patientId p) (u_patientId u);
     bloodType := if u_bloodType u is Some x then Some x else bloodType p;
     allergies := default (allergies p) (u_allergies u);
     medications := default (medications p) (u_medications u);
     medicalConditions := default (medicalConditions p) (u_medicalConditions u);
     emergencyContacts := default (emergencyContacts p) (u_emergencyContacts u);
     createdAt := createdAt p;
     updatedAt := Some t' |}.
End Profile.

(** The line break of [sections.join('\n')]. *)
Definition newline : string := String (Ascii.ascii_of_nat 10) EmptyString.

(** [validateMedicalProfile(profile)], on the two properties of the
    partial profile that it reads. *)
Definition validateMedicalProfile (patientId : option string)
    (emergencyContacts : option (list Contact.t)) : list string :=
  let errors : list string := [] in
  let errors :=
    if negb (opt_string_truthy patientId)
    then Sos.push errors "Patient ID is required" else errors in
  let errors :=
    match emergencyContacts with
    | Some cs =>
        if (length cs =? 0)%nat
        then Sos.push errors "At least one emergency contact is required" else errors
    | None => errors
    end in
  let errors :=
    match emergencyContacts with
    | Some cs =>
        fold_left
          (fun errors '(index, contact) =>
             let errors :=
               if negb (string_truthy (Contact.name contact))
               then Sos.push errors
                      ("Emergency contact " ++ pretty (index + 1)%nat ++ ": Name is required")
               else errors in
             if negb (string_truthy (Contact.phoneNumber contact))
             then Sos.push errors
                    ("Emergency contact " ++ pretty (index + 1)%nat
                     ++ ": Phone number is required")
             else errors)
          (imap (fun index contact => (index, contact)) cs) errors
    | None => errors
    end in
  errors.

(** [formatMedicalProfile(profile)] *)
Definition formatMedicalProfile (profile : Profile.t) : string :=
  let sections : list string := [] in
  let sections :=
    if opt_string_truthy (Profile.bloodType profile)
    then Sos.push sections ("Blood Type: " ++ default EmptyString (Profile.bloodType profile))
    else sections in
  let sections :=
    if (0 <? length (Profile.allergies profile))%nat
    then Sos.push sections ("Allergies: " ++ Sos.join ", " (Profile.allergies profile))
    else sections in
  let sections :=
    if (0 <? length (Profile.medications profile))%nat then
      let activeMeds := List.filter Medication.active (Profile.medications profile) in
      if (0 <? length activeMeds)%nat
      then Sos.push sections
             ("Medications: "
              ++ Sos.join ", "
                   (List.map (fun med => Medication.name med ++ " (" ++ Medication.dosage med ++ ")")
                      activeMeds))
      else sections
    else sections in
  let sections :=
    if (0 <? length (Profile.medicalConditions profile))%nat
    then Sos.push sections
           ("Medical Conditions: " ++ Sos.join ", " (Profile.medicalConditions profile))
    else sections in
  Sos.join newline sections.

Record Env := mkEnv {
  (** [serverTimestamp()] *)
  now : nat;
  (** the store rejects a read of / a write to [medicalProfiles] *)
  readError : option JsError;
  writeError : option JsError;
  (** the first document of
      [query(medicalProfiles, where('patientId', '==', p))] *)
  firstProfileOf : gmap string Profile.t -> string -> option (string * Profile.t);
  (** [generateId()]: [<time>_<random>] *)
  generateId : string
}.

(** What is assumed of the query. *)
Definition query_ok (env : Env) : Prop :=
  forall (ps : gmap string Profile.t) (p : string),
    match firstProfileOf env ps p with
    | Some (k, d) => ps !! k = Some d /\ Profile.patientId d = p
    | None => forall k d, ps !! k = Some d -> Profile.patientId d <> p
    end.

Section WithEnv.
Variable env : Env.

(** The store is the [medicalProfiles] collection. *)
Definition Store := gmap string Profile.t.

(** [getMedicalProfile(patientId)]: [{id: doc.id, ...data}], or [null]. *)
Definition getMedicalProfile (p : string) : Op (gmap string Profile.t) (option Profile.t) :=
  op_try
    (fun s =>
       match readError env with
       | Some e => (s, inl e)
       | None =>
           (s, inr (match firstProfileOf env s p with
                    | Some (docId, data) =>
                        Some {| Profile.id :=
                                  if Profile.id data is Some x then Some x else Some docId;
                                Profile.patientId := Profile.patientId data;
                                Profile.bloodType := Profile.bloodType data;
                                Profile.allergies := Profile.allergies data;
                                Profile.medications := Profile.medications data;
                                Profile.medicalConditions := Profile.medicalConditions data;
                                Profile.emergencyContacts := Profile.emergencyContacts data;
                                Profile.createdAt := Profile.createdAt data;
                                Profile.updatedAt := Profile.updatedAt data |}
                    | None => None
                    end))
       end)
    (fun error => op_throw error).

(** [updateMedicalProfile(profileId, updates)] *)
Definition updateMedicalProfile (profileId : string) (u : Profile.updates)
  : Op (gmap string Profile.t) unit :=
  op_try
    (fun s =>
       match writeError env with
       | Some e => (s, inl e)
       | None =>
           match s !! profileId with
           | Some d => (<[profileId := Profile.apply d u (now env)]> s, inr tt)
           | None => (s, inl (mkError "No document to update"))
           end
       end)
    (fun error => op_throw error).

(** The common frame of the six list operations: read the profile, fail
    when there is none, write the changed list under [profile.id]. *)
Definition withProfile {A} (p : string) (change : Profile.t -> Profile.updates * A)
  : Op (gmap string Profile.t) A :=
  op_try
    (let! profile := getMedicalProfile p in
     match profile with
     | None => op_throw (mkError "Medical profile not found")
     | Some profile =>
         let '(u, result) := change profile in
         run! updateMedicalProfile (default EmptyString (Profile.id profile)) u then
         op_ret result
     end)
    (fun error => op_throw error).

(** [addMedication(patientId, medication)] *)
Definition addMedication (p : string) (medication : Medication.t) : Op (gmap string Profile.t) string :=
  withProfile p (fun profile =>
    let newMedication := Medication.with_id medication (generateId env) in
    let updatedMedications := (Profile.medications profile ++ [newMedication])%list in
    (Profile.mkUpdates None None None (Some updatedMedications) None None,
     Medication.id newMedication)).

(** [updateMedication(patientId, medicationId, updates)] *)
Definition updateMedication (p medicationId : string) (u : Medication.updates)
  : Op (gmap string Profile.t) unit :=
  withProfile p (fun profile =>
    let updatedMedications :=
      List.map (fun med => if String.eqb (Medication.id med) medicationId
                           then Medication.apply med u else med)
        (Profile.medications profile) in
    (Profile.mkUpdates None None None (Some updatedMedications) None None, tt)).

(** [removeMedication(patientId, medicationId)] *)
Definition removeMedication (p medicationId : string) : Op (gmap string Profile.t) unit :=
  withProfile p (fun profile =>
    let updatedMedications :=
      List.filter (fun med => negb (String.eqb (Medication.id med) medicationId))
        (Profile.medications profile) in
    (Profile.mkUpdates None None None (Some updatedMedications) None None, tt)).

(** [addEmergencyContact(patientId, contact)] *)
Definition addEmergencyContact (p : string) (contact : Contact.t) : Op (gmap string Profile.t) string :=
  withProfile p (fun profile =>
    let newContact := Contact.with_id contact (generateId env) in
    let updatedContacts := (Profile.emergencyContacts profile ++ [newContact])%list in
    (Profile.mkUpdates None None None None None (Some updatedContacts),
     Contact.id newContact)).

(** [updateEmergencyContact(patientId, contactId, updates)] *)
Definition updateEmergencyContact (p contactId : string) (u : Contact.updates)
  : Op (gmap string Profile.t) unit :=
  withProfile p (fun profile =>
    let updatedContacts :=
      List.map (fun contact => if String.eqb (Contact.id contact) contactId
                               then Contact.apply contact u else contact)
        (Profile.emergencyContacts profile) in
    (Profile.mkUpdates None None None None None (Some updatedContacts), tt)).

(** [removeEmergencyContact(patientId, contactId)] *)
Definition removeEmergencyContact (p contactId : string) : Op (gmap string Profile.t) unit :=
  withProfile p (fun profile =>
    let updatedContacts :=
      List.filter (fun contact => negb (String.eqb (Contact.id contact) contactId))
        (Profile.emergencyContacts profile) in
    (Profile.mkUpdates None None None None None (Some updatedContacts), tt)).

End WithEnv.
End Medical.

(** ** location/gps.ts: the tracking state of [LocationManager] *)

Module Gps.

(** The private fields of [LocationManager] (the two callbacks as
    whether they are set), with what the browser holds: whether
    geolocation exists, and the ids of the registered position watches. *)
Record State := mkState {
  watchId : option nat;
  isTracking : bool;
  lastKnownLocation : option LocationData.t;
  onLocationCallback : bool;
  onErrorCallback : bool;
  supported : bool;
  watches : gset nat
}.

(** [stopTracking()] *)
Definition stopTracking (s : State) : State :=
  match watchId s with
  | Some id =>
      (* navigator.geolocation.clearWatch(this.watchId) *)
      mkState None false (lastKnownLocation s) (onLocationCallback s) (onErrorCallback s)
        (supported s) (watches s ∖ {[id]})
  | None => s
  end.

(** [startTracking(onLocation, onError?, options?)]; [watchPosition]
    answers with an id that no registered watch has. *)
Definition startTracking (onError : bool) (s : State) : State * (JsError + unit) :=
  if negb (supported s) then
    (s, inl (mkError "Geolocation is not supported by this browser"))
  else
    let s := if isTracking s then stopTracking s else s in
    let id := fresh (watches s) in
    (mkState (Some id) true (lastKnownLocation s) true onError (supported s)
       ({[id]} ∪ watches s),
     inr tt).

(** The success callback of the watch, run by the browser for a
    registered watch only. *)
Definition onPosition (id : nat) (location : LocationData.t) (s : State) : State :=
  if bool_decide (id ∈ watches s)
  then mkState (watchId s) (isTracking s) (Some location) (onLocationCallback s)
         (onErrorCallback s) (supported s) (watches s)
  else s.

(** What a client and the browser can do to the manager. *)
Inductive Action :=
| StartTracking (onError : bool)
| StopTracking
| Position (id : nat) (location : LocationData.t).

Definition step (a : Action) (s : State) : State :=
  match a with
  | StartTracking onError => (startTracking onError s).1
  | StopTracking => stopTracking s
  | Position id location => onPosition id location s
  end.

(** The manager as constructed, in a browser with or without geolocation. *)
Definition initial (supported : bool) : State :=
  mkState None false None false false supported ∅.

End Gps.

(** ** Vocabulary of the properties *)

(** A reading with no property at all, and readings with a few. *)
Definition no_reading : VitalReading.t :=
  VitalReading.mk None None None None None None None None None.

Definition reading_of (patientId : option string)
    (heartRate oxygenSaturation temperature : option number) : VitalReading.t :=
  VitalReading.mk None patientId heartRate oxygenSaturation temperature None None None None.

Definition pressure_reading (systolic diastolic : number) : VitalReading.t :=
  VitalReading.mk None None None None None
    (Some (VitalReading.mkBloodPressure systolic diastolic)) None None None.

(** A value lies strictly outside a range / strictly below a floor. *)
Definition outside (v : number) (r : VitalThresholds.Range) : Prop :=
  lt v (VitalThresholds.min r) = true \/ gt v (VitalThresholds.max r) = true.

Definition below (v : number) (f : VitalThresholds.Floor) : Prop :=
  lt v (VitalThresholds.floor_min f) = true.

(** Some property present in the reading violates its configured range. *)
Inductive Violation (r : VitalReading.t) (th : VitalThresholds.t) : Prop :=
| heartRate_violation v :
    VitalReading.heartRate r = Some v ->
    outside v (VitalThresholds.heartRate th) -> Violation r th
| oxygenSaturation_violation v :
    VitalReading.oxygenSaturation r = Some v ->
    below v (VitalThresholds.oxygenSaturation th) -> Violation r th
| temperature_violation v :
    VitalReading.temperature r = Some v ->
    outside v (VitalThresholds.temperature th) -> Violation r th
| systolic_violation bp :
    VitalReading.bloodPressure r = Some bp ->
    outside (VitalReading.systolic bp)
      (VitalThresholds.systolic (VitalThresholds.bloodPressure th)) -> Violation r th
| diastolic_violation bp :
    VitalReading.bloodPressure r = Some bp ->
    outside (VitalReading.diastolic bp)
      (VitalThresholds.diastolic (VitalThresholds.bloodPressure th)) -> Violation r th.

(** The bands of the severity classifier: the critical band of each
    metric, and the warning band (looser bounds, outside the critical
    band). *)
Module Band.
#[warnings="-inexact-float"]
Definition heartRate_critical (v : number) : bool := lt v 40%float || gt v 150%float.
Definition oxygenSaturation_critical (v : number) : bool := lt v 85%float.
Definition temperature_critical (v : number) : bool := lt v 95%float || gt v 104%float.
Definition heartRate_warning (v : number) : bool :=
  negb (heartRate_critical v) && (lt v 50%float || gt v 120%float).
Definition oxygenSaturation_warning (v : number) : bool :=
  negb (oxygenSaturation_critical v) && lt v 90%float.
#[warnings="-inexact-float"]
Definition temperature_warning (v : number) : bool :=
  negb (temperature_critical v) && (lt v 96.5%float || gt v 101%float).

(** 1 when the metric is present and in the band. *)
Definition present_in (band : number -> bool) (metric : option number) : nat :=
  match metric with
  | Some v => if band v then 1 else 0
  | None => 0
  end.

(** 1 when the metric is present, truthy (neither 0 nor NaN) and in the
    band. *)
Definition counted_in (band : number -> bool) (metric : option number) : nat :=
  match metric with
  | Some v => if number_truthy v && band v then 1 else 0
  | None => 0
  end.

(** The number of metrics in the critical (warning) band, every present
    metric taken into account. *)
Definition criticalBandCount (r : VitalReading.t) : nat :=
  present_in heartRate_critical (VitalReading.heartRate r)
  + present_in oxygenSaturation_critical (VitalReading.oxygenSaturation r)
  + present_in temperature_critical (VitalReading.temperature r).
Definition warningBandCount (r : VitalReading.t) : nat :=
  present_in heartRate_warning (VitalReading.heartRate r)
  + present_in oxygenSaturation_warning (VitalReading.oxygenSaturation r)
  + present_in temperature_warning (VitalReading.temperature r).

(** The same counts over the truthy metrics only. *)
Definition criticalCount (r : VitalReading.t) : nat :=
  counted_in heartRate_critical (VitalReading.heartRate r)
  + counted_in oxygenSaturation_critical (VitalReading.oxygenSaturation r)
  + counted_in temperature_critical (VitalReading.temperature r).
Definition warningCount (r : VitalReading.t) : nat :=
  counted_in heartRate_warning (VitalReading.heartRate r)
  + counted_in oxygenSaturation_warning (VitalReading.oxygenSaturation r)
  + counted_in temperature_warning (VitalReading.temperature r).
End Band.

(** The cascade of returns at the end of the severity classifier, as a
    function of the two counts. *)
Definition severityPolicy (criticalCount warningCount : nat) : Severity :=
  if (2 <=? criticalCount)%nat then critical
  else if (1 <=? criticalCount)%nat then high
  else if (2 <=? warningCount)%nat then medium
  else low.

(** Sample readings: a heart rate of zero alone; a heart rate of zero with
    an oxygen saturation of 80; a heart rate of 160 with an oxygen
    saturation of 80; a heart rate of 110 alone. *)
Definition zero_heart_rate : VitalReading.t :=
  reading_of (Some "P1") (Some 0%float) None None.
Definition zero_and_hypoxia : VitalReading.t :=
  reading_of (Some "P1") (Some 0%float) (Some 80%float) None.
Definition tachycardia_and_hypoxia : VitalReading.t :=
  reading_of (Some "P1") (Some 160%float) (Some 80%float) None.
Definition mild_tachycardia : VitalReading.t :=
  reading_of (Some "P1") (Some 110%float) None None.

(** The reading of the end-to-end scenario: patient P1, heart rate 180. *)
Definition heart_rate_180 : VitalReading.t :=
  reading_of (Some "P1") (Some 180%float) None None.

(** Readings with normal vitals and no patient reference: the property
    is absent; the property is the empty string. *)
Definition anonymous_reading : VitalReading.t :=
  reading_of None (Some 72%float) (Some 98%float) None.
Definition unnamed_reading : VitalReading.t :=
  reading_of (Some EmptyString) (Some 72%float) (Some 98%float) None.

(** The document that [addVitalReading] of firestore.ts writes for the
    object built by [addVitalReading] of vitals.ts. *)
Definition persistedReading (env : Env) (docId : string) (r : VitalReading.t) : VitalReading.t :=
  {| VitalReading.id := Some docId;
     VitalReading.patientId := VitalReading.patientId r;
     VitalReading.heartRate := VitalReading.heartRate r;
     VitalReading.oxygenSaturation := VitalReading.oxygenSaturation r;
     VitalReading.temperature := VitalReading.temperature r;
     VitalReading.bloodPressure := VitalReading.bloodPressure r;
     VitalReading.timestamp := Some (now env);
     VitalReading.deviceId := VitalReading.deviceId r;
     VitalReading.isEmergency := Some (Vitals.checkVitalThresholds r Vitals.DEFAULT_THRESHOLDS) |}.

(** The alert document that [createEmergencyAlert] writes for it. *)
Definition thresholdAlert (env : Env) (alertId : string) (r : VitalReading.t) : EmergencyAlert.t :=
  {| EmergencyAlert.id := Some alertId;
     EmergencyAlert.patientId := VitalReading.patientId r;
     EmergencyAlert.type := None;
     EmergencyAlert.alertType := Some "vital_threshold_exceeded";
     EmergencyAlert.severity := None;
     EmergencyAlert.status := Some active;
     EmergencyAlert.location := None;
     EmergencyAlert.vitalData := None;
     EmergencyAlert.vitalReading := Some (Vitals.stamped env r);
     EmergencyAlert.medicalProfile := None;
     EmergencyAlert.message := None;
     EmergencyAlert.acknowledgedBy := None;
     EmergencyAlert.acknowledgedAt := None;
     EmergencyAlert.responderId := None;
     EmergencyAlert.responseTime := None;
     EmergencyAlert.resolvedAt := None;
     EmergencyAlert.createdAt := Some (now env);
     EmergencyAlert.updatedAt := None |}.

(** Running an operation: the world it leaves and what it returns. *)
Definition world_after {A} (m : M A) (w : World) : World := (m w).1.
Definition result_of {A} (m : M A) (w : World) : JsError + A := (m w).2.

(** A world with empty collections and an idle SOS manager. *)
Definition emptyWorld : World :=
  mkWorld (mkFirestore ∅ ∅) (mkSOSManager false None false) [].

(** A location fix in which the browser gave every coordinate: no
    property of it is [undefined]. *)
Definition completeFix : LocationData.t :=
  {| LocationData.latitude := 12.5%float;
     LocationData.longitude := 77.5%float;
     LocationData.accuracy := 10%float;
     LocationData.altitude := Some 920%float;
     LocationData.heading := Some 90%float;
     LocationData.speed := Some 1.5%float;
     LocationData.timestamp := 1000 |}.

(** An environment where every write is accepted, the location is a
    complete fix, the patient has no medical profile ([null]), and
    notifications are delivered. *)
Definition quietEnv : Env :=
  {| now := 1000;
     writeError := fun _ => None;
     currentLocation := inr completeFix;
     medicalProfileOf := fun _ => inr None;
     notificationsSupported := true;
     notificationError := fun _ => None |}.

(** The same environment, except that every notification call fails. *)
Definition degradedEnv : Env :=
  {| now := 1000;
     writeError := fun _ => None;
     currentLocation := inr completeFix;
     medicalProfileOf := fun _ => inr None;
     notificationsSupported := true;
     notificationError := fun _ => Some (mkError "push failed") |}.

(** Environments in which an enrichment is not available, with the
    answer of the client of config.ts to the alert that is then written:
    the location is denied and the profile query fails; the location is
    denied only; the patient stands still, so that the fix has no speed. *)
Definition refusedData : JsError := mkError "Unsupported field value: undefined".
Definition enrichmentFailsEnv : Env :=
  {| now := 1000;
     writeError := fun c => if c is EMERGENCY_ALERTS then Some refusedData else None;
     currentLocation := inl (mkError "Location access denied by user");
     medicalProfileOf := fun _ => inl (mkError "unavailable");
     notificationsSupported := true;
     notificationError := fun _ => None |}.
Definition locationDeniedEnv : Env :=
  {| now := 1000;
     writeError := fun c => if c is EMERGENCY_ALERTS then Some refusedData else None;
     currentLocation := inl (mkError "Location access denied by user");
     medicalProfileOf := fun _ => inr None;
     notificationsSupported := true;
     notificationError := fun _ => None |}.
Definition standingStillEnv : Env :=
  {| now := 1000;
     writeError := fun c => if c is EMERGENCY_ALERTS then Some refusedData else None;
     currentLocation :=
       inr {| LocationData.latitude := 12.5%float;
              LocationData.longitude := 77.5%float;
              LocationData.accuracy := 10%float;
              LocationData.altitude := Some 920%float;
              LocationData.heading := None;
              LocationData.speed := None;
              LocationData.timestamp := 1000 |};
     medicalProfileOf := fun _ => inr None;
     notificationsSupported := true;
     notificationError := fun _ => None |}.

(** What the two best-effort gathers of the dispatcher yield: the
    location and the medical profile, or nothing when the gather failed. *)
Definition gathered_location (env : Env) : option LocationData.t :=
  match currentLocation env with
  | inr l => Some l
  | inl _ => None
  end.
Definition gathered_profile (env : Env) (patientId : string) : option MedicalProfile.t :=
  match medicalProfileOf env patientId with
  | inr p => p
  | inl _ => None
  end.

(** The call that reaches the notification manager, if it does. *)
Definition delivered (env : Env) (method : NotificationMethod) (call : Event) : list Event :=
  if notificationsSupported env then
    match notificationError env method with
    | None => [call]
    | Some _ => []
    end
  else [].

(** The stretch of trace left by each leg. *)
Definition responderEvents (env : Env) (alert : EmergencyAlert.t) : list Event :=
  Attempt Responders
  :: delivered env showEmergencyAlert
       (ShowEmergencyAlert (EmergencyAlert.patientId alert) (EmergencyAlert.vitalData alert)).
Definition familyEvents (env : Env) (patientId : string) (alert : EmergencyAlert.t) : list Event :=
  Attempt Family
  :: delivered env showVitalsAlert
       (ShowVitalsAlert patientId
          (if decide (EmergencyAlert.type alert = Some vitals_critical)
           then "Critical vitals detected for your family member"
           else "Emergency alert from your family member")).
Definition contactEvents (env : Env) (patientId : string) : list Event :=
  Attempt EmergencyContacts
  :: delivered env showNotification
       (ShowNotification "🚨 Emergency Alert"
          ("Emergency SOS activated for patient " ++ patientId)
          "emergency" "critical" "emergency_contact").

(** The alert objects of the two dispatch paths. *)
Definition vitalsAlert (env : Env) (numberToString : number -> string)
    (patientId : string) (vitalData : VitalReading.t) : EmergencyAlert.t :=
  Sos.newAlert patientId vitals_critical (Sos.calculateVitalsSeverity vitalData)
    (gathered_location env) (Some vitalData) (gathered_profile env patientId)
    (Sos.generateVitalsMessage numberToString vitalData).
Definition sosAlert (env : Env) (patientId : string) (message : option string) : EmergencyAlert.t :=
  Sos.newAlert patientId manual_sos critical
    (Sos.cleanLocation <$> gathered_location env) None (gathered_profile env patientId)
    (match message with
     | Some m => if string_truthy m then m else "Emergency SOS activated"
     | None => "Emergency SOS activated"
     end).

(** The events of the two dispatch paths after the alert is persisted. *)
Definition vitalsAlertEvents (env : Env) (patientId : string) (alert : EmergencyAlert.t) : list Event :=
  (if decide (EmergencyAlert.severity alert = Some critical)
   then responderEvents env alert else [])
  ++ familyEvents env patientId alert.
Definition sosEvents (env : Env) (patientId : string) (docId : string)
    (callback : bool) (alert : EmergencyAlert.t) : list Event :=
  responderEvents env alert
  ++ (if Sos.hasEmergencyContacts (EmergencyAlert.medicalProfile alert)
      then contactEvents env patientId else [])
  ++ (if callback then [SOSCallback (Sos.timestamped (Some docId) (now env) alert)] else []).

(** The answer of [triggerSOS] on its three paths. *)
Definition alreadyActive (this : SOSManager) : SOSResponse.t :=
  {| SOSResponse.alertId := currentAlertId this;
     SOSResponse.success := false;
     SOSResponse.message := "SOS already active";
     SOSResponse.estimatedResponseTime := None |}.
Definition sent (docId : string) : SOSResponse.t :=
  {| SOSResponse.alertId := Some docId;
     SOSResponse.success := true;
     SOSResponse.message := "Emergency alert sent successfully";
     SOSResponse.estimatedResponseTime := Some "5-10 minutes" |}.
Definition failedToSend (error : JsError) : SOSResponse.t :=
  {| SOSResponse.alertId := Some EmptyString;
     SOSResponse.success := false;
     SOSResponse.message :=
       "Failed to send emergency alert: "
       ++ (if string_truthy (JsError.message error)
           then JsError.message error else "Unknown error");
     SOSResponse.estimatedResponseTime := None |}.

(** A rendering of numbers that hides the digits. *)
Definition opaqueNumber : number -> string := fun _ => "#".

(** The world after a first manual SOS on the empty world. *)
Definition sosActiveWorld : World :=
  world_after (Sos.triggerSOS quietEnv "P1" None) emptyWorld.

(** The persisted status of an alert, if the alert exists and has one. *)
Definition status_of (w : World) (alertId : string) : option AlertStatus :=
  match emergencyAlerts (db w) !! alertId with
  | Some d => EmergencyAlert.status d
  | None => None
  end.

(** The acknowledger recorded on an alert. *)
Definition acknowledger_of (w : World) (alertId : string) : option string :=
  match emergencyAlerts (db w) !! alertId with
  | Some d => EmergencyAlert.acknowledgedBy d
  | None => None
  end.

(** A metric equal to zero, removed. *)
Definition drop_zero (metric : option number) : option number :=
  match metric with
  | Some v => if PrimFloat.is_zero v then None else Some v
  | None => None
  end.

Definition without_zero_metrics (r : VitalReading.t) : VitalReading.t :=
  {| VitalReading.id := VitalReading.id r;
     VitalReading.patientId := VitalReading.patientId r;
     VitalReading.heartRate := drop_zero (VitalReading.heartRate r);
     VitalReading.oxygenSaturation := drop_zero (VitalReading.oxygenSaturation r);
     VitalReading.temperature := drop_zero (VitalReading.temperature r);
     VitalReading.bloodPressure := VitalReading.bloodPressure r;
     VitalReading.timestamp := VitalReading.timestamp r;
     VitalReading.deviceId := VitalReading.deviceId r;
     VitalReading.isEmergency := VitalReading.isEmergency r |}.

(** The legs entered in a stretch of trace. *)
Definition attempted (leg : Leg) (events : list Event) : Prop := In (Attempt leg) events.

(** An alert document of the SOS manager in a given status. *)
Definition alert_in (st : AlertStatus) (acknowledgedBy : option string) : EmergencyAlert.t :=
  {| EmergencyAlert.id := None;
     EmergencyAlert.patientId := Some "P1";
     EmergencyAlert.type := Some manual_sos;
     EmergencyAlert.alertType := None;
     EmergencyAlert.severity := Some critical;
     EmergencyAlert.status := Some st;
     EmergencyAlert.location := None;
     EmergencyAlert.vitalData := None;
     EmergencyAlert.vitalReading := None;
     EmergencyAlert.medicalProfile := None;
     EmergencyAlert.message := Some "Emergency SOS activated";
     EmergencyAlert.acknowledgedBy := acknowledgedBy;
     EmergencyAlert.acknowledgedAt := None;
     EmergencyAlert.responderId := None;
     EmergencyAlert.responseTime := None;
     EmergencyAlert.resolvedAt := None;
     EmergencyAlert.createdAt := Some 1;
     EmergencyAlert.updatedAt := Some 1 |}.

(** A world whose only alert, under id [a1], is the given document. *)
Definition world_with_alert (d : EmergencyAlert.t) : World :=
  mkWorld (mkFirestore ∅ {[ "a1" := d ]}) (mkSOSManager false None false) [].

(** The message that [cancelSOS] stores on the alert. *)
Definition cancellationMessage (reason : option string) : string :=
  match reason with
  | Some r => if string_truthy r then r else "SOS cancelled by patient"
  | None => "SOS cancelled by patient"
  end.

(** The four operations that write the status of an alert. *)
Inductive LifecycleOp :=
| Acknowledge (responderId : string)
| StartResponse (responderId : string)
| Resolve (resolution : string)
| AcknowledgeInTransaction (responderId : string).

(** Running one of them on an alert, the answer left aside. *)
Definition lifecycle (env : Env) (op : LifecycleOp) (alertId : string) (w : World) : World :=
  match op with
  | Acknowledge responderId => world_after (Sos.acknowledgeAlert env alertId responderId) w
  | StartResponse responderId => world_after (Sos.startResponse env alertId responderId) w
  | Resolve resolution => world_after (Sos.resolveAlert env alertId resolution) w
  | AcknowledgeInTransaction responderId =>
      world_after (FirestoreDb.acknowledgeAlert env alertId responderId) w
  end.

(** The part of an alert document that is fixed at dispatch: everything
    but the status, the message, and the marks of the lifecycle. *)
Definition snapshot_of (d : EmergencyAlert.t) :=
  (EmergencyAlert.id d, EmergencyAlert.patientId d, EmergencyAlert.type d,
   EmergencyAlert.alertType d, EmergencyAlert.severity d, EmergencyAlert.location d,
   EmergencyAlert.vitalData d, EmergencyAlert.vitalReading d,
   EmergencyAlert.medicalProfile d, EmergencyAlert.createdAt d).

(** A Heart Rate Measurement value as a device sends it: flags, then the
    rate in one byte when it fits, in two bytes (little endian, bit 0 of
    the flags set) otherwise. *)
Definition byte_of (n : N) : byte := default Byte.x00 (Byte.of_N n).
Definition encodeHeartRate (n : N) : list byte :=
  if (n <? 256)%N then [Byte.x00; byte_of n]
  else [Byte.x01; byte_of (n mod 256)%N; byte_of (n / 256)%N].

(** A query that answers with the first matching entry of the collection
    in the order in which the map lists it. *)
Definition firstUserMatching (us : gmap string Accounts.UserData) (p : string)
  : option (string * Accounts.UserData) :=
  head (filter (fun kv => Accounts.patientId kv.2 = Some p) (map_to_list us)).

(** An environment of the account functions where every read and write
    is accepted. *)
Definition accountsEnv : Accounts.Env :=
  {| Accounts.now := 2000;
     Accounts.readError := fun _ => None;
     Accounts.writeError := fun _ => None;
     Accounts.firstUserByPatientId := firstUserMatching;
     Accounts.createUser := fun email _ => inr (Accounts.mkAuthUser "uid-new" email None);
     Accounts.updateProfileError := None;
     Accounts.generatePatientId := "P-LX3K9A-7QF2ZD" |}.

(** The same, except that the [users] collection rejects writes. *)
Definition usersReadOnlyEnv : Accounts.Env :=
  {| Accounts.now := 2000;
     Accounts.readError := fun _ => None;
     Accounts.writeError :=
       fun c => if c is Accounts.USERS then Some (mkError "permission-denied") else None;
     Accounts.firstUserByPatientId := firstUserMatching;
     Accounts.createUser := fun email _ => inr (Accounts.mkAuthUser "uid-new" email None);
     Accounts.updateProfileError := None;
     Accounts.generatePatientId := "P-LX3K9A-7QF2ZD" |}.

(** A patient and a family member who is connected to nobody. *)
Definition patientDoc : Accounts.UserData :=
  Accounts.mkUserData (Some "uid-p") (Some "p@example.org") (Some Accounts.patient)
    (Some "Pat") (Some "P-1") None (Some 1) (Some 1).
Definition familyDoc : Accounts.UserData :=
  Accounts.mkUserData (Some "uid-f") (Some "f@example.org") (Some Accounts.family)
    (Some "Fam") None (Some []) (Some 1) (Some 1).
Definition twoUsers : Accounts.Store :=
  Accounts.mkStore {[ "uid-p" := patientDoc; "uid-f" := familyDoc ]} ∅.

(** The patients that a family member is connected to, as stored. *)
Definition connectedPatientsOf (s : Accounts.Store) (familyUserId : string) : list string :=
  match Accounts.users s !! familyUserId with
  | Some u => default [] (Accounts.connectedPatients u)
  | None => []
  end.

(** The connection document that [createFamilyConnection] writes. *)
Definition connectionDoc (env : Accounts.Env) (docId familyUserId p patientDocId : string)
  : Accounts.Connection :=
  Accounts.mkConnection docId familyUserId p patientDocId "active" (Accounts.now env).

(** The errors that [validateMedicalProfile] reports for one emergency
    contact, given with its index in the list. *)
Definition contactErrors (entry : nat * Medical.Contact.t) : list string :=
  app
    (if negb (string_truthy (Medical.Contact.name entry.2))
     then ["Emergency contact " ++ pretty (entry.1 + 1)%nat ++ ": Name is required"]
     else [])
    (if negb (string_truthy (Medical.Contact.phoneNumber entry.2))
     then ["Emergency contact " ++ pretty (entry.1 + 1)%nat ++ ": Phone number is required"]
     else []).

(** A contact with a name and a phone number. *)
Definition reachable (contact : Medical.Contact.t) : Prop :=
  string_truthy (Medical.Contact.name contact) = true
  /\ string_truthy (Medical.Contact.phoneNumber contact) = true.

(** The profile with another list of medications. *)
Definition with_medications (profile : Medical.Profile.t) (meds : list Medical.Medication.t)
  : Medical.Profile.t :=
  Medical.Profile.mk (Medical.Profile.id profile) (Medical.Profile.patientId profile)
    (Medical.Profile.bloodType profile) (Medical.Profile.allergies profile) meds
    (Medical.Profile.medicalConditions profile) (Medical.Profile.emergencyContacts profile)
    (Medical.Profile.createdAt profile) (Medical.Profile.updatedAt profile).

(** [d], stored under [k], is the one medical profile of patient [p],
    and it has no [id] property of its own (as the documents that
    [createMedicalProfile] writes). *)
Definition the_profile (s : gmap string Medical.Profile.t) (p k : string)
    (d : Medical.Profile.t) : Prop :=
  s !! k = Some d
  /\ Medical.Profile.patientId d = p
  /\ Medical.Profile.id d = None
  /\ forall k' d', s !! k' = Some d' -> Medical.Profile.patientId d' = p -> k' = k.

(** The profile that [getMedicalProfile] returns for the document [d]
    stored under [k]. *)
Definition fetched (k : string) (d : Medical.Profile.t) : Medical.Profile.t :=
  Medical.Profile.mk
    (if Medical.Profile.id d is Some x then Some x else Some k)
    (Medical.Profile.patientId d) (Medical.Profile.bloodType d) (Medical.Profile.allergies d)
    (Medical.Profile.medications d) (Medical.Profile.medicalConditions d)
    (Medical.Profile.emergencyContacts d) (Medical.Profile.createdAt d)
    (Medical.Profile.updatedAt d).

(** A query that answers with the first matching profile in the order
    in which the map lists the collection. *)
Definition firstProfileMatching (ps : gmap string Medical.Profile.t) (p : string)
  : option (string * Medical.Profile.t) :=
  head (filter (fun kv => Medical.Profile.patientId kv.2 = p) (map_to_list ps)).

Definition medicalEnv : Medical.Env :=
  {| Medical.now := 3000;
     Medical.readError := None;
     Medical.writeError := None;
     Medical.firstProfileOf := firstProfileMatching;
     Medical.generateId := "1700000000000_k3j9x2m1q" |}.

Definition aspirin : Medical.Medication.t :=
  Medical.Medication.mk "med-1" "Aspirin" "100mg" "daily" "Dr. Rao" 10 None None true.
Definition warfarin : Medical.Medication.t :=
  Medical.Medication.mk "med-2" "Warfarin" "5mg" "daily" "Dr. Rao" 5 (Some 9) None false.
Definition insulin : Medical.Medication.t :=
  Medical.Medication.mk EmptyString "Insulin" "10u" "daily" "Dr. Rao" 20 None None true.
Definition profileDoc : Medical.Profile.t :=
  Medical.Profile.mk None "P-1" (Some "O+") ["penicillin"] [aspirin; warfarin] [] []
    (Some 1) (Some 1).
Definition oneProfile : gmap string Medical.Profile.t := {[ "prof-1" := profileDoc ]}.

Definition namelessContact : Medical.Contact.t :=
  Medical.Contact.mk "c-2" EmptyString "sister" "555-0101" None None false.
Definition primaryContact : Medical.Contact.t :=
  Medical.Contact.mk "c-1" "Asha" "spouse" "555-0100" None None true.

(** The manager after a sequence of calls and browser callbacks. *)
Definition after_actions (actions : list Gps.Action) (s : Gps.State) : Gps.State :=
  fold_left (fun s a => Gps.step a s) actions s.

(** The browser holds exactly the watch that the manager remembers, and
    the manager says that it is tracking exactly when it remembers one. *)
Definition single_watch (s : Gps.State) : Prop :=
  Gps.watches s = (if Gps.watchId s is Some id then {[id]} else ∅)
  /\ Gps.isTracking s = bool_decide (is_Some (Gps.watchId s)).

(** An environment whose store rejects every write. *)
Definition readOnlyEnv : Env :=
  {| now := 1000;
     writeError := fun _ => Some (mkError "permission-denied");
     currentLocation := inl (mkError "Location request timed out");
     medicalProfileOf := fun _ => inr None;
     notificationsSupported := true;
     notificationError := fun _ => None |}.

(** What a heart-rate monitor delivers for a rate of 72, and a stored
    reading that is flagged as an emergency. *)
Definition monitorData : Ble.VitalData :=
  Ble.mkVitalData (Some 72%float) None None None 1000 "hrm-1" (Some "heart_rate") None.
Definition flaggedReading : VitalReading.t :=
  VitalReading.mk (Some "v1") (Some "P1") (Some 180%float) None None None (Some 1000)
    None (Some true).

(** ** The threshold evaluator *)

(** The four guarded blocks, each as the test it performs. *)
Definition heartRate_check (r : VitalReading.t) (th : VitalThresholds.t) : bool :=
  match VitalReading.heartRate r with
  | Some v => lt v (VitalThresholds.min (VitalThresholds.heartRate th))
              || gt v (VitalThresholds.max (VitalThresholds.heartRate th))
  | None => false
  end.
Definition oxygenSaturation_check (r : VitalReading.t) (th : VitalThresholds.t) : bool :=
  match VitalReading.oxygenSaturation r with
  | Some v => lt v (VitalThresholds.floor_min (VitalThresholds.oxygenSaturation th))
  | None => false
  end.
Definition temperature_check (r : VitalReading.t) (th : VitalThresholds.t) : bool :=
  match VitalReading.temperature r with
  | Some v => lt v (VitalThresholds.min (VitalThresholds.temperature th))
              || gt v (VitalThresholds.max (VitalThresholds.temperature th))
  | None => false
  end.
Definition bloodPressure_check (r : VitalReading.t) (th : VitalThresholds.t) : bool :=
  match VitalReading.bloodPressure r with
  | Some bp =>
      let bpT := VitalThresholds.bloodPressure th in
      lt (VitalReading.systolic bp) (VitalThresholds.min (VitalThresholds.systolic bpT))
      || gt (VitalReading.systolic bp) (VitalThresholds.max (VitalThresholds.systolic bpT))
      || lt (VitalReading.diastolic bp) (VitalThresholds.min (VitalThresholds.diastolic bpT))
      || gt (VitalReading.diastolic bp) (VitalThresholds.max (VitalThresholds.diastolic bpT))
  | None => false
  end.

(** The flag at the end is the disjunction of the four tests: a block
    never clears it. *)
Lemma checkVitalThresholds_blocks r th :
  Vitals.checkVitalThresholds r th
  = heartRate_check r th || oxygenSaturation_check r th
    || temperature_check r th || bloodPressure_check r th.
Proof.
  unfold Vitals.checkVitalThresholds, heartRate_check, oxygenSaturation_check,
    temperature_check, bloodPressure_check.
  destruct (VitalReading.heartRate r) as [hr|];
    destruct (VitalReading.oxygenSaturation r) as [ox|];
    destruct (VitalReading.temperature r) as [te|];
    destruct (VitalReading.bloodPressure r) as [bp|]; cbn zeta;
    repeat match goal with
           | |- context [if ?b then true else _] => destruct b eqn:?
           end;
    rewrite ?orb_true_r, ?orb_false_r; cbn; try reflexivity; try congruence.
Qed.

Lemma heartRate_check_spec r th :
  heartRate_check r th = true <->
  exists v, VitalReading.heartRate r = Some v /\ outside v (VitalThresholds.heartRate th).
Proof.
  unfold heartRate_check, outside. destruct (VitalReading.heartRate r) as [v|].
  - rewrite orb_true_iff. split.
    + intros H. exists v. split; [reflexivity | exact H].
    + intros (v' & [= <-] & H). exact H.
  - split; [discriminate | intros (v & [=] & _)].
Qed.

Lemma oxygenSaturation_check_spec r th :
  oxygenSaturation_check r th = true <->
  exists v, VitalReading.oxygenSaturation r = Some v
            /\ below v (VitalThresholds.oxygenSaturation th).
Proof.
  unfold oxygenSaturation_check, below.
  destruct (VitalReading.oxygenSaturation r) as [v|].
  - split.
    + intros H. exists v. split; [reflexivity | exact H].
    + intros (v' & [= <-] & H). exact H.
  - split; [discriminate | intros (v & [=] & _)].
Qed.

Lemma temperature_check_spec r th :
  temperature_check r th = true <->
  exists v, VitalReading.temperature r = Some v /\ outside v (VitalThresholds.temperature th).
Proof.
  unfold temperature_check, outside. destruct (VitalReading.temperature r) as [v|].
  - rewrite orb_true_iff. split.
    + intros H. exists v. split; [reflexivity | exact H].
    + intros (v' & [= <-] & H). exact H.
  - split; [discriminate | intros (v & [=] & _)].
Qed.

Lemma bloodPressure_check_spec r th :
  bloodPressure_check r th = true <->
  exists bp, VitalReading.bloodPressure r = Some bp
    /\ (outside (VitalReading.systolic bp)
          (VitalThresholds.systolic (VitalThresholds.bloodPressure th))
        \/ outside (VitalReading.diastolic bp)
          (VitalThresholds.diastolic (VitalThresholds.bloodPressure th))).
Proof.
  unfold bloodPressure_check, outside.
  destruct (VitalReading.bloodPressure r) as [bp|].
  - cbn zeta. rewrite !orb_true_iff. split.
    + intros H. exists bp. split; [reflexivity | tauto].
    + intros (bp' & [= <-] & H). tauto.
  - split; [discriminate | intros (v & [=] & _)].
Qed.

Lemma checkVitalThresholds_iff r th :
  Vitals.checkVitalThresholds r th = true <-> Violation r th.
Proof.
  rewrite checkVitalThresholds_blocks, !orb_true_iff,
    heartRate_check_spec, oxygenSaturation_check_spec,
    temperature_check_spec, bloodPressure_check_spec.
  split.
  - intros [[[(v & Hv & H) | (v & Hv & H)] | (v & Hv & H)] | (bp & Hbp & [H | H])].
    + exact (heartRate_violation _ _ v Hv H).
    + exact (oxygenSaturation_violation _ _ v Hv H).
    + exact (temperature_violation _ _ v Hv H).
    + exact (systolic_violation _ _ bp Hbp H).
    + exact (diastolic_violation _ _ bp Hbp H).
  - intros [v Hv H | v Hv H | v Hv H | bp Hbp H | bp Hbp H]; eauto 8.
Qed.

(** C2. The threshold evaluator is a total function of the reading and
    the thresholds alone; it returns [true] exactly when some property
    present in the reading lies strictly outside its configured range (a
    reading without any property is never an emergency), and the bounds
    themselves are inside the range: under the default thresholds a heart
    rate of 100 (and of 60), an oxygen saturation of 90, a temperature of
    96.8 or 100.4 and a pressure of 140/90 or 90/60 are normal, while 101
    and 89 are emergencies. *)
#[warnings="-inexact-float"]
Theorem checkVitalThresholds_classify :
  (forall r th, Vitals.checkVitalThresholds r th = true <-> Violation r th)
  /\ (forall th, Vitals.checkVitalThresholds no_reading th = false)
  /\ Vitals.DEFAULT_THRESHOLDS
     = VitalThresholds.mk (VitalThresholds.mkRange 60%float 100%float)
         (VitalThresholds.mkFloor 90%float)
         (VitalThresholds.mkRange 96.8%float 100.4%float)
         (VitalThresholds.mkPressure (VitalThresholds.mkRange 90%float 140%float)
            (VitalThresholds.mkRange 60%float 90%float))
  /\ Vitals.checkVitalThresholds (reading_of None (Some 100%float) None None)
       Vitals.DEFAULT_THRESHOLDS = false
  /\ Vitals.checkVitalThresholds (reading_of None (Some 101%float) None None)
       Vitals.DEFAULT_THRESHOLDS = true
  /\ Vitals.checkVitalThresholds (reading_of None None (Some 90%float) None)
       Vitals.DEFAULT_THRESHOLDS = false
  /\ Vitals.checkVitalThresholds (reading_of None None (Some 89%float) None)
       Vitals.DEFAULT_THRESHOLDS = true
  /\ Vitals.checkVitalThresholds (reading_of None (Some 60%float) None None)
       Vitals.DEFAULT_THRESHOLDS = false
  /\ Vitals.checkVitalThresholds (reading_of None None None (Some 96.8%float))
       Vitals.DEFAULT_THRESHOLDS = false
  /\ Vitals.checkVitalThresholds (reading_of None None None (Some 100.4%float))
       Vitals.DEFAULT_THRESHOLDS = false
  /\ Vitals.checkVitalThresholds (pressure_reading 140%float 90%float) Vitals.DEFAULT_THRESHOLDS = false
  /\ Vitals.checkVitalThresholds (pressure_reading 90%float 60%float) Vitals.DEFAULT_THRESHOLDS = false.
Proof.
  split; [exact checkVitalThresholds_iff |].
  split; [intros th; reflexivity |].
  repeat split; vm_compute; reflexivity.
Qed.

(** ** The severity classifier *)

(** The two counters at the end of the three blocks: the truthy metrics
    in the critical band, and the truthy metrics in the warning band. *)
#[warnings="-inexact-float"]
Lemma calculateVitalsSeverity_counts r :
  Sos.calculateVitalsSeverity r
  = severityPolicy (Band.criticalCount r) (Band.warningCount r).
Proof.
  unfold Sos.calculateVitalsSeverity, Band.criticalCount, Band.warningCount,
    Band.counted_in, Band.heartRate_warning, Band.oxygenSaturation_warning,
    Band.temperature_warning, Band.heartRate_critical,
    Band.oxygenSaturation_critical, Band.temperature_critical.
  destruct (VitalReading.heartRate r) as [hr|];
    [destruct (number_truthy hr);
     destruct (lt hr 40%float || gt hr 150%float);
     destruct (lt hr 50%float || gt hr 120%float) |];
  (destruct (VitalReading.oxygenSaturation r) as [ox|];
    [destruct (number_truthy ox); destruct (lt ox 85%float);
     destruct (lt ox 90%float) |]);
  (destruct (VitalReading.temperature r) as [te|];
    [destruct (number_truthy te);
     destruct (lt te 95%float || gt te 104%float);
     destruct (lt te 96.5%float || gt te 101%float) |]);
  reflexivity.
Qed.

(** A metric equal to zero is not counted in any band. *)
Lemma counted_in_drop_zero band metric :
  Band.counted_in band (drop_zero metric) = Band.counted_in band metric.
Proof.
  destruct metric as [v|]; [| reflexivity].
  unfold drop_zero. destruct (PrimFloat.is_zero v) eqn:Hz.
  - unfold Band.counted_in, number_truthy. rewrite Hz. reflexivity.
  - reflexivity.
Qed.

Lemma calculateVitalsSeverity_skips_zero r :
  Sos.calculateVitalsSeverity (without_zero_metrics r) = Sos.calculateVitalsSeverity r.
Proof.
  rewrite !calculateVitalsSeverity_counts.
  unfold Band.criticalCount, Band.warningCount, without_zero_metrics; cbn.
  rewrite !counted_in_drop_zero. reflexivity.
Qed.

(** On a record none of whose metrics is falsy, the truthy metrics are
    the present ones. *)
Lemma counted_in_present band metric :
  (forall v, metric = Some v -> number_truthy v = true) ->
  Band.counted_in band metric = Band.present_in band metric.
Proof.
  intros H. destruct metric as [v|]; [| reflexivity].
  cbn. rewrite (H v eq_refl). reflexivity.
Qed.

(** C4, at the record [{heartRate: 0, oxygenSaturation: 80}]: both
    metrics are in the critical band as the claim words it (0 < 40 and
    80 < 85), yet the classifier returns [high], not [critical]. *)
Lemma calculateVitalsSeverity_zero_not_counted :
  2 <= Band.criticalBandCount zero_and_hypoxia
  /\ Sos.calculateVitalsSeverity zero_and_hypoxia = high
  /\ Sos.calculateVitalsSeverity zero_and_hypoxia <> critical.
Proof. vm_compute. repeat split; [lia | discriminate]. Qed.

(** C4 (amended). Counting only the metrics that are present and truthy
    (a metric whose value is 0 or NaN is skipped), the classifier returns
    [critical] when at least two counted metrics are in the critical band,
    [high] when exactly one is, [medium] when none is and at least two
    are in the warning band, and [low] otherwise; a heart rate of 160
    with an oxygen saturation of 80 yields [critical].  On a record none
    of whose metrics is falsy the counts are those over the present
    metrics. *)
Theorem calculateVitalsSeverity_policy :
  (forall r,
     (2 <= Band.criticalCount r -> Sos.calculateVitalsSeverity r = critical)
     /\ (Band.criticalCount r = 1 -> Sos.calculateVitalsSeverity r = high)
     /\ (Band.criticalCount r = 0 -> 2 <= Band.warningCount r ->
         Sos.calculateVitalsSeverity r = medium)
     /\ (Band.criticalCount r = 0 -> Band.warningCount r <= 1 ->
         Sos.calculateVitalsSeverity r = low))
  /\ (forall r,
        (forall v, VitalReading.heartRate r = Some v -> number_truthy v = true) ->
        (forall v, VitalReading.oxygenSaturation r = Some v -> number_truthy v = true) ->
        (forall v, VitalReading.temperature r = Some v -> number_truthy v = true) ->
        Band.criticalCount r = Band.criticalBandCount r
        /\ Band.warningCount r = Band.warningBandCount r)
  /\ Sos.calculateVitalsSeverity tachycardia_and_hypoxia = critical.
Proof.
  split; [| split].
  - intros r. rewrite calculateVitalsSeverity_counts. unfold severityPolicy.
    repeat split; intros; repeat case_match;
      rewrite ?Nat.leb_le, ?Nat.leb_gt in *; first [reflexivity | lia].
  - intros r Hhr Hox Hte.
    unfold Band.criticalCount, Band.warningCount, Band.criticalBandCount,
      Band.warningBandCount.
    rewrite !(counted_in_present _ _ Hhr), !(counted_in_present _ _ Hox),
      !(counted_in_present _ _ Hte). split; reflexivity.
  - vm_compute. reflexivity.
Qed.

Lemma calculateVitalsSeverity_policy_witness :
  2 <= Band.criticalCount tachycardia_and_hypoxia
  /\ Sos.calculateVitalsSeverity tachycardia_and_hypoxia = critical.
Proof.
  assert (H : 2 <= Band.criticalCount tachycardia_and_hypoxia) by (vm_compute; lia).
  split; [exact H |].
  exact (proj1 (proj1 calculateVitalsSeverity_policy tachycardia_and_hypoxia) H).
Defined.

(** ** The ingestion pipeline *)

(** What [addVitalReading] of vitals.ts does, by the answers of the
    store: the reading is written first; the alert is written only for an
    emergency reading; a rejected write is rethrown as it is. *)
Lemma addVitalReading_run env r w :
  let docId := newDocId (vitals (db w)) in
  let w1 := with_vitals w (<[docId := persistedReading env docId r]> (vitals (db w))) in
  let alertId := newDocId (emergencyAlerts (db w)) in
  Vitals.addVitalReading env r w =
  match writeError env VITALS with
  | Some e => (w, inl e)
  | None =>
      if Vitals.checkVitalThresholds r Vitals.DEFAULT_THRESHOLDS then
        match writeError env EMERGENCY_ALERTS with
        | Some e => (w1, inl e)
        | None =>
            (with_alerts w1
               (<[alertId := thresholdAlert env alertId r]> (emergencyAlerts (db w))),
             inr docId)
        end
      else (w1, inr docId)
  end.
Proof.
  unfold Vitals.addVitalReading, FirestoreDb.addVitalReading,
    FirestoreDb.createEmergencyAlert, try_catch, bind, ret, throw, get_db,
    setDoc_vitals, setDoc_alerts, persistedReading, thresholdAlert, Vitals.stamped.
  cbn.
  destruct (writeError env VITALS) as [e|]; [reflexivity |].
  destruct (Vitals.checkVitalThresholds r Vitals.DEFAULT_THRESHOLDS); [| reflexivity].
  cbn. destruct (writeError env EMERGENCY_ALERTS) as [e|]; reflexivity.
Qed.

Lemma newDocId_fresh {A} (c : gmap string A) : c !! newDocId c = None.
Proof. apply fresh_string_fresh. Qed.

(** C1, at the reading [{patientId: 'P1', heartRate: 180}] on an empty
    store that accepts every write: the reading is an emergency and one
    alert document is created, but no alert document has the type
    [vitals_critical]: the one created has no [type] property. *)
Lemma addVitalReading_alert_is_not_vitals_critical :
  let w' := world_after (Vitals.addVitalReading quietEnv heart_rate_180) emptyWorld in
  Vitals.checkVitalThresholds heart_rate_180 Vitals.DEFAULT_THRESHOLDS = true
  /\ size (emergencyAlerts (db w')) = 1
  /\ ~ (exists id alert,
          emergencyAlerts (db w') !! id = Some alert
          /\ EmergencyAlert.type alert = Some vitals_critical
          /\ EmergencyAlert.status alert = Some active).
Proof.
  cbn zeta. unfold world_after. rewrite addVitalReading_run.
  assert (Hc : Vitals.checkVitalThresholds heart_rate_180 Vitals.DEFAULT_THRESHOLDS = true)
    by (vm_compute; reflexivity).
  rewrite Hc. cbn.
  split; [reflexivity |]. split.
  - rewrite map_size_insert_None; [reflexivity | apply lookup_empty].
  - intros (id & alert & Hl & Ht & _).
    apply lookup_insert_Some in Hl as [[_ <-] | [_ Hl]].
    + discriminate Ht.
    + rewrite lookup_empty in Hl. discriminate Hl.
Qed.

(** C1 (amended). For every ingested raw reading, when the store accepts
    the writes, the ingestion pipeline returns the id of exactly one new
    persisted reading, whose [isEmergency] is the verdict of the threshold
    evaluator, and, when the reading is classified as emergency, creates
    exactly one alert document, whose [alertType] is
    ['vital_threshold_exceeded'] and whose status is [active]; that
    document has no [type] and no [severity].  A reading that is not an
    emergency creates no alert. *)
Theorem addVitalReading_one_reading_one_alert env r w :
  writeError env VITALS = None ->
  writeError env EMERGENCY_ALERTS = None ->
  let w' := world_after (Vitals.addVitalReading env r) w in
  exists docId reading,
    result_of (Vitals.addVitalReading env r) w = inr docId
    /\ vitals (db w) !! docId = None
    /\ vitals (db w') = <[docId := reading]> (vitals (db w))
    /\ size (vitals (db w')) = S (size (vitals (db w)))
    /\ VitalReading.isEmergency reading
       = Some (Vitals.checkVitalThresholds r Vitals.DEFAULT_THRESHOLDS)
    /\ VitalReading.patientId reading = VitalReading.patientId r
    /\ VitalReading.heartRate reading = VitalReading.heartRate r
    /\ VitalReading.oxygenSaturation reading = VitalReading.oxygenSaturation r
    /\ VitalReading.temperature reading = VitalReading.temperature r
    /\ VitalReading.bloodPressure reading = VitalReading.bloodPressure r
    /\ if Vitals.checkVitalThresholds r Vitals.DEFAULT_THRESHOLDS then
         exists alertId alert,
           emergencyAlerts (db w) !! alertId = None
           /\ emergencyAlerts (db w') = <[alertId := alert]> (emergencyAlerts (db w))
           /\ size (emergencyAlerts (db w')) = S (size (emergencyAlerts (db w)))
           /\ EmergencyAlert.alertType alert = Some "vital_threshold_exceeded"
           /\ EmergencyAlert.status alert = Some active
           /\ EmergencyAlert.type alert = None
           /\ EmergencyAlert.severity alert = None
           /\ EmergencyAlert.patientId alert = VitalReading.patientId r
       else emergencyAlerts (db w') = emergencyAlerts (db w).
Proof.
  intros Hv Ha. cbn zeta. unfold world_after, result_of.
  rewrite addVitalReading_run, Hv, Ha.
  exists (newDocId (vitals (db w))),
    (persistedReading env (newDocId (vitals (db w))) r).
  destruct (Vitals.checkVitalThresholds r Vitals.DEFAULT_THRESHOLDS) eqn:Hc; cbn;
    (split; [reflexivity |]);
    (split; [apply newDocId_fresh |]);
    (split; [reflexivity |]);
    (split; [apply map_size_insert_None, newDocId_fresh |]);
    rewrite ?Hc; repeat (split; [reflexivity |]); try reflexivity.
  exists (newDocId (emergencyAlerts (db w))),
    (thresholdAlert env (newDocId (emergencyAlerts (db w))) r).
  split; [apply newDocId_fresh |].
  split; [reflexivity |].
  split; [apply map_size_insert_None, newDocId_fresh |].
  repeat split; reflexivity.
Qed.

Lemma addVitalReading_one_reading_one_alert_witness :
  writeError quietEnv VITALS = None
  /\ writeError quietEnv EMERGENCY_ALERTS = None
  /\ exists docId reading,
       result_of (Vitals.addVitalReading quietEnv heart_rate_180) emptyWorld = inr docId
       /\ vitals (db (world_after (Vitals.addVitalReading quietEnv heart_rate_180) emptyWorld))
          = <[docId := reading]> (vitals (db emptyWorld))
       /\ VitalReading.isEmergency reading = Some true.
Proof.
  split; [reflexivity |]. split; [reflexivity |].
  destruct (addVitalReading_one_reading_one_alert quietEnv heart_rate_180 emptyWorld
              eq_refl eq_refl)
    as (docId & reading & Hres & _ & Hmap & _ & Hem & _).
  exists docId, reading. split; [exact Hres |]. split; [exact Hmap |].
  rewrite Hem. vm_compute. reflexivity.
Defined.

(** C3, at a reading without patient reference (the property is absent,
    or it is the empty string) on an empty store that accepts every
    write: nothing is rejected; the call returns the id of the document
    it has persisted. *)
Lemma addVitalReading_accepts_missing_patient :
  VitalReading.patientId anonymous_reading = None
  /\ VitalReading.patientId unnamed_reading = Some EmptyString
  /\ (exists docId reading,
        result_of (Vitals.addVitalReading quietEnv anonymous_reading) emptyWorld = inr docId
        /\ vitals (db (world_after (Vitals.addVitalReading quietEnv anonymous_reading)
                         emptyWorld)) !! docId = Some reading
        /\ VitalReading.patientId reading = None)
  /\ (exists docId reading,
        result_of (Vitals.addVitalReading quietEnv unnamed_reading) emptyWorld = inr docId
        /\ vitals (db (world_after (Vitals.addVitalReading quietEnv unnamed_reading)
                         emptyWorld)) !! docId = Some reading
        /\ VitalReading.patientId reading = Some EmptyString).
Proof.
  split; [reflexivity |]. split; [reflexivity |].
  unfold world_after, result_of. rewrite !addVitalReading_run. cbn.
  split; eexists _, _;
    (split; [reflexivity |]); (split; [apply lookup_insert_eq | reflexivity]).
Qed.

(** C3 (amended). The ingestion pipeline performs no validation: a raw
    reading without patient reference is handled like any other.  When
    the store accepts the write of the reading, the reading is persisted
    (with the patient reference it came with, none); the call fails only
    with the error of a write that the store rejects, and when the first
    write is rejected nothing is persisted. *)
Theorem addVitalReading_no_validation env r w :
  opt_string_truthy (VitalReading.patientId r) = false ->
  let w' := world_after (Vitals.addVitalReading env r) w in
  let docId := newDocId (vitals (db w)) in
  (writeError env VITALS = None ->
     vitals (db w') !! docId = Some (persistedReading env docId r)
     /\ VitalReading.patientId (persistedReading env docId r) = VitalReading.patientId r
     /\ (writeError env EMERGENCY_ALERTS = None ->
         result_of (Vitals.addVitalReading env r) w = inr docId))
  /\ (forall e, result_of (Vitals.addVitalReading env r) w = inl e ->
        writeError env VITALS = Some e
        \/ (writeError env VITALS = None /\ writeError env EMERGENCY_ALERTS = Some e))
  /\ (forall e, writeError env VITALS = Some e -> w' = w).
Proof.
  intros _. cbn zeta. unfold world_after, result_of. rewrite addVitalReading_run.
  destruct (writeError env VITALS) as [e1|] eqn:Hv;
    [| destruct (Vitals.checkVitalThresholds r Vitals.DEFAULT_THRESHOLDS);
       [destruct (writeError env EMERGENCY_ALERTS) as [e2|] eqn:Ha |]]; cbn.
  - split; [discriminate |]. split; [| reflexivity].
    intros e [= <-]. left. reflexivity.
  - split; [| split; [| discriminate]].
    + intros _. split; [apply lookup_insert_eq |]. split; [reflexivity | discriminate].
    + intros e [= <-]. right. split; reflexivity.
  - split; [| split; discriminate].
    intros _. split; [apply lookup_insert_eq |]. split; reflexivity.
  - split; [| split; discriminate].
    intros _. split; [apply lookup_insert_eq |]. split; reflexivity.
Qed.

Lemma addVitalReading_no_validation_witness :
  opt_string_truthy (VitalReading.patientId anonymous_reading) = false
  /\ writeError quietEnv VITALS = None
  /\ vitals (db (world_after (Vitals.addVitalReading quietEnv anonymous_reading) emptyWorld))
       !! newDocId (vitals (db emptyWorld))
     = Some (persistedReading quietEnv (newDocId (vitals (db emptyWorld))) anonymous_reading).
Proof.
  split; [reflexivity |]. split; [reflexivity |].
  exact (proj1 (proj1 (addVitalReading_no_validation quietEnv anonymous_reading emptyWorld
                         eq_refl) eq_refl)).
Defined.

(** ** The alert dispatcher *)

Ltac run_sos :=
  unfold Sos.triggerVitalsAlert, Sos.triggerSOS, Sos.cancelSOS,
    Sos.acknowledgeAlert, Sos.startResponse, Sos.resolveAlert,
    Sos.notifyResponders, Sos.notifyFamilyMembers, Sos.notifyEmergencyContacts,
    Sos.notificationManager, Sos.getCurrentLocation, Sos.getMedicalProfile,
    Sos.set_isSOSActive, Sos.set_currentAlertId,
    addDoc_alerts, setDoc_alerts, updateDoc_alerts, lift_result, emit,
    get_sos, put_sos, get_db, try_catch, bind, ret, throw.

(** What [triggerVitalsAlert] does, by the answers of the environment:
    the two gathers never fail the call; a rejected write is rethrown and
    leaves the world as it was; an accepted write is followed by the
    notification legs, whose failures are swallowed. *)
Lemma triggerVitalsAlert_run env numberToString patientId vitalData w :
  let alert := vitalsAlert env numberToString patientId vitalData in
  let docId := newDocId (emergencyAlerts (db w)) in
  Sos.triggerVitalsAlert env numberToString patientId vitalData w =
  match writeError env EMERGENCY_ALERTS with
  | Some e => (w, inl e)
  | None =>
      (mkWorld
         (mkFirestore (vitals (db w))
            (<[docId := Sos.timestamped None (now env) alert]> (emergencyAlerts (db w))))
         (sos w)
         (trace w ++ vitalsAlertEvents env patientId alert),
       inr docId)
  end.
Proof.
  cbn zeta.
  unfold vitalsAlertEvents, responderEvents, familyEvents, delivered, vitalsAlert,
    gathered_location, gathered_profile, with_alerts.
  run_sos.
  destruct (currentLocation env) as [le|l];
    destruct (medicalProfileOf env patientId) as [me|p];
    destruct (writeError env EMERGENCY_ALERTS) as [e|]; cbn; try reflexivity;
    destruct (Sos.calculateVitalsSeverity vitalData);
    destruct (notificationsSupported env);
    destruct (notificationError env showEmergencyAlert);
    destruct (notificationError env showVitalsAlert);
    repeat (case_decide; try congruence);
    cbn; rewrite <- ?app_assoc; reflexivity.
Qed.

(** What [triggerSOS] does: the guard on the active flag first; then the
    same discipline as above, except that a rejected write is turned into
    a failure answer and the session is reset. *)
Lemma triggerSOS_run env patientId message w :
  let alert := sosAlert env patientId message in
  let docId := newDocId (emergencyAlerts (db w)) in
  let callback := onSOSCallback (sos w) in
  Sos.triggerSOS env patientId message w =
  if isSOSActive (sos w) then (w, inr (alreadyActive (sos w)))
  else
    match writeError env EMERGENCY_ALERTS with
    | Some e =>
        (mkWorld (db w) (mkSOSManager false None callback) (trace w),
         inr (failedToSend e))
    | None =>
        (mkWorld
           (mkFirestore (vitals (db w))
              (<[docId := Sos.timestamped None (now env) alert]> (emergencyAlerts (db w))))
           (mkSOSManager true (Some docId) callback)
           (trace w ++ sosEvents env patientId docId callback alert),
         inr (sent docId))
    end.
Proof.
  cbn zeta.
  unfold sosEvents, responderEvents, contactEvents, delivered, sosAlert,
    gathered_location, gathered_profile, with_alerts, alreadyActive, sent, failedToSend.
  run_sos.
  destruct (isSOSActive (sos w)); [reflexivity |]. cbn.
  destruct (currentLocation env) as [le|l];
    destruct (medicalProfileOf env patientId) as [me|p];
    destruct (writeError env EMERGENCY_ALERTS) as [e|]; cbn; try reflexivity;
    try (destruct (Sos.hasEmergencyContacts p));
    destruct (notificationsSupported env);
    destruct (notificationError env showEmergencyAlert);
    destruct (notificationError env showNotification);
    destruct (onSOSCallback (sos w));
    cbn; rewrite <- ?app_assoc; cbn; rewrite ?app_nil_r; reflexivity.
Qed.

(** [cancelSOS] when no session is active. *)
Lemma cancelSOS_idle env reason w :
  isSOSActive (sos w) = false -> Sos.cancelSOS env reason w = (w, inr false).
Proof.
  intros Hidle. run_sos. rewrite Hidle. reflexivity.
Qed.

(** ** The lifecycle operations *)

Lemma updateDoc_alerts_run env id patch w d :
  writeError env EMERGENCY_ALERTS = None ->
  emergencyAlerts (db w) !! id = Some d ->
  updateDoc_alerts env id patch w
  = (with_alerts w (<[id := patch d]> (emergencyAlerts (db w))), inr tt).
Proof.
  intros Hw Hd. unfold updateDoc_alerts. rewrite Hw, Hd. reflexivity.
Qed.

(** The manager's [acknowledgeAlert] and [startResponse] write their
    patch on any existing document. *)
Lemma sos_acknowledgeAlert_run env alertId responderId w d :
  writeError env EMERGENCY_ALERTS = None ->
  emergencyAlerts (db w) !! alertId = Some d ->
  Sos.acknowledgeAlert env alertId responderId w
  = (with_alerts w
       (<[alertId := Sos.acknowledged_by env responderId d]> (emergencyAlerts (db w))),
     inr true).
Proof.
  intros Hw Hd. unfold Sos.acknowledgeAlert, try_catch, bind, ret.
  rewrite (updateDoc_alerts_run _ _ _ _ _ Hw Hd). reflexivity.
Qed.

Lemma sos_startResponse_run env alertId responderId w d :
  writeError env EMERGENCY_ALERTS = None ->
  emergencyAlerts (db w) !! alertId = Some d ->
  Sos.startResponse env alertId responderId w
  = (with_alerts w
       (<[alertId := Sos.responding_with env responderId d]> (emergencyAlerts (db w))),
     inr true).
Proof.
  intros Hw Hd. unfold Sos.startResponse, try_catch, bind, ret.
  rewrite (updateDoc_alerts_run _ _ _ _ _ Hw Hd). reflexivity.
Qed.

(** [resolveAlert] writes its patch on any existing document and returns
    [true]; the store it leaves has the patched document. *)
Lemma sos_resolveAlert_run env alertId resolution w d :
  writeError env EMERGENCY_ALERTS = None ->
  emergencyAlerts (db w) !! alertId = Some d ->
  result_of (Sos.resolveAlert env alertId resolution) w = inr true
  /\ db (world_after (Sos.resolveAlert env alertId resolution) w)
     = mkFirestore (vitals (db w))
         (<[alertId := Sos.resolved_with env resolution d]> (emergencyAlerts (db w))).
Proof.
  intros Hw Hd. unfold result_of, world_after, Sos.resolveAlert, try_catch, bind.
  rewrite (updateDoc_alerts_run _ _ _ _ _ Hw Hd).
  unfold get_sos, with_alerts, Sos.set_isSOSActive, Sos.set_currentAlertId,
    bind, get_sos, put_sos, ret. cbn.
  case_decide; cbn; split; reflexivity.
Qed.

(** The manager's three operations never throw: a failure is the answer
    [false]. *)
Lemma sos_lifecycle_total env alertId responderId resolution w :
  (exists b, result_of (Sos.acknowledgeAlert env alertId responderId) w = inr b)
  /\ (exists b, result_of (Sos.startResponse env alertId responderId) w = inr b)
  /\ (exists b, result_of (Sos.resolveAlert env alertId resolution) w = inr b).
Proof.
  unfold result_of. run_sos.
  destruct (writeError env EMERGENCY_ALERTS);
    destruct (emergencyAlerts (db w) !! alertId); cbn;
    repeat split; try (eexists; reflexivity);
    case_decide; cbn; eexists; reflexivity.
Qed.

(** [acknowledgeAlert] of firestore.ts: the three outcomes of the
    transaction. *)
Lemma firestore_acknowledgeAlert_run env alertId responderId w :
  FirestoreDb.acknowledgeAlert env alertId responderId w =
  match emergencyAlerts (db w) !! alertId with
  | None => (w, inl (mkError "Alert does not exist"))
  | Some d =>
      if opt_string_truthy (EmergencyAlert.acknowledgedBy d)
      then (w, inl (mkError "Alert already acknowledged"))
      else
        match writeError env EMERGENCY_ALERTS with
        | Some e => (w, inl e)
        | None =>
            (with_alerts w
               (<[alertId := FirestoreDb.acknowledged_by env responderId d]>
                  (emergencyAlerts (db w))),
             inr tt)
        end
  end.
Proof.
  unfold FirestoreDb.acknowledgeAlert, try_catch, bind, get_db, throw, updateDoc_alerts.
  destruct (emergencyAlerts (db w) !! alertId) as [d|] eqn:Hd; [| reflexivity].
  destruct (opt_string_truthy (EmergencyAlert.acknowledgedBy d)); [reflexivity |].
  destruct (writeError env EMERGENCY_ALERTS); [reflexivity |].
  rewrite Hd. reflexivity.
Qed.

(** First acknowledger wins on the firestore.ts path: after a successful
    acknowledgement by a responder with a non-empty id, any further
    acknowledgement is rejected and changes nothing. *)
Lemma firestore_acknowledgeAlert_first_wins env1 env2 alertId first second w :
  string_truthy first = true ->
  result_of (FirestoreDb.acknowledgeAlert env1 alertId first) w = inr tt ->
  let w1 := world_after (FirestoreDb.acknowledgeAlert env1 alertId first) w in
  FirestoreDb.acknowledgeAlert env2 alertId second w1
  = (w1, inl (mkError "Alert already acknowledged")).
Proof.
  intros Hf. unfold result_of, world_after. cbn zeta.
  rewrite (firestore_acknowledgeAlert_run env1).
  destruct (emergencyAlerts (db w) !! alertId) as [d|]; [| discriminate].
  destruct (opt_string_truthy (EmergencyAlert.acknowledgedBy d)); [discriminate |].
  destruct (writeError env1 EMERGENCY_ALERTS); [discriminate |].
  intros _. cbn. rewrite firestore_acknowledgeAlert_run. cbn.
  rewrite lookup_insert_eq. cbn. rewrite Hf. reflexivity.
Qed.

Lemma status_of_insert w alertId d :
  status_of (with_alerts w (<[alertId := d]> (emergencyAlerts (db w)))) alertId
  = EmergencyAlert.status d.
Proof. unfold status_of. cbn. rewrite lookup_insert_eq. reflexivity. Qed.

(** C5, on an alert already acknowledged by [responder-1]: the manager's
    [acknowledgeAlert] called for [responder-2] answers [true] and
    replaces the acknowledger, where [acknowledgeAlert] of firestore.ts
    rejects the same call and changes nothing; and on an active alert two
    successive calls of the manager's [acknowledgeAlert] both answer
    [true], the second acknowledger replacing the first. *)
Theorem sos_acknowledgeAlert_overwrites_acknowledger :
  let w := world_with_alert (alert_in acknowledged (Some "responder-1")) in
  let w0 := world_with_alert (alert_in active None) in
  let w1 := world_after (Sos.acknowledgeAlert quietEnv "a1" "responder-1") w0 in
  let w2 := world_after (Sos.acknowledgeAlert quietEnv "a1" "responder-2") w1 in
  (result_of (Sos.acknowledgeAlert quietEnv "a1" "responder-2") w = inr true
   /\ acknowledger_of (world_after (Sos.acknowledgeAlert quietEnv "a1" "responder-2") w) "a1"
      = Some "responder-2")
  /\ FirestoreDb.acknowledgeAlert quietEnv "a1" "responder-2" w
     = (w, inl (mkError "Alert already acknowledged"))
  /\ (result_of (Sos.acknowledgeAlert quietEnv "a1" "responder-1") w0 = inr true
      /\ acknowledger_of w1 "a1" = Some "responder-1"
      /\ result_of (Sos.acknowledgeAlert quietEnv "a1" "responder-2") w1 = inr true
      /\ acknowledger_of w2 "a1" = Some "responder-2").
Proof. vm_compute. repeat split; reflexivity. Qed.

(** C6, on an alert whose status is [resolved]: [startResponse] answers
    [true] and the persisted status becomes [responding]. *)
Lemma startResponse_leaves_resolved :
  let w := world_with_alert (alert_in resolved None) in
  status_of w "a1" = Some resolved
  /\ result_of (Sos.startResponse quietEnv "a1" "responder-1") w = inr true
  /\ status_of (world_after (Sos.startResponse quietEnv "a1" "responder-1") w) "a1"
     = Some responding.
Proof. vm_compute. repeat split; reflexivity. Qed.

(** C6 (amended). No lifecycle operation looks at the persisted status.
    On an alert whose status is [resolved], when the store accepts the
    write, [startResponse] of the manager answers [true] and sets the
    status to [responding], and [resolveAlert] answers [true] and leaves
    it [resolved]; when the alert has no acknowledger, [acknowledgeAlert]
    of the manager answers [true] and sets the status to [acknowledged],
    and so does [acknowledgeAlert] of firestore.ts.  (What the manager's
    [acknowledgeAlert] does to an alert that has an acknowledger is the
    matter of C5.)  The manager's operations never fail with an error:
    their only failure answer is [false]. *)
Theorem lifecycle_ignores_resolved env alertId responderId resolution w d :
  writeError env EMERGENCY_ALERTS = None ->
  emergencyAlerts (db w) !! alertId = Some d ->
  EmergencyAlert.status d = Some resolved ->
  (opt_string_truthy (EmergencyAlert.acknowledgedBy d) = false ->
   result_of (Sos.acknowledgeAlert env alertId responderId) w = inr true
   /\ status_of (world_after (Sos.acknowledgeAlert env alertId responderId) w) alertId
      = Some acknowledged)
  /\ (result_of (Sos.startResponse env alertId responderId) w = inr true
      /\ status_of (world_after (Sos.startResponse env alertId responderId) w) alertId
         = Some responding)
  /\ (result_of (Sos.resolveAlert env alertId resolution) w = inr true
      /\ status_of (world_after (Sos.resolveAlert env alertId resolution) w) alertId
         = Some resolved)
  /\ (opt_string_truthy (EmergencyAlert.acknowledgedBy d) = false ->
      result_of (FirestoreDb.acknowledgeAlert env alertId responderId) w = inr tt
      /\ status_of (world_after (FirestoreDb.acknowledgeAlert env alertId responderId) w)
           alertId = Some acknowledged)
  /\ (forall w0,
        (exists b, result_of (Sos.acknowledgeAlert env alertId responderId) w0 = inr b)
        /\ (exists b, result_of (Sos.startResponse env alertId responderId) w0 = inr b)
        /\ (exists b, result_of (Sos.resolveAlert env alertId resolution) w0 = inr b)).
Proof.
  intros Hw Hd Hst.
  split; [| split; [| split; [| split]]].
  - intros _. unfold result_of, world_after.
    rewrite (sos_acknowledgeAlert_run _ _ _ _ _ Hw Hd). cbn.
    split; [reflexivity | apply status_of_insert].
  - unfold result_of, world_after.
    rewrite (sos_startResponse_run _ _ _ _ _ Hw Hd). cbn.
    split; [reflexivity | apply status_of_insert].
  - destruct (sos_resolveAlert_run env alertId resolution w d Hw Hd) as [Hr Hdb].
    split; [exact Hr |]. unfold status_of. rewrite Hdb. cbn.
    rewrite lookup_insert_eq. reflexivity.
  - intros Hack. unfold result_of, world_after.
    rewrite firestore_acknowledgeAlert_run, Hd, Hack, Hw. cbn.
    split; [reflexivity | apply status_of_insert].
  - intros w0. apply sos_lifecycle_total.
Qed.

Lemma lifecycle_ignores_resolved_witness :
  writeError quietEnv EMERGENCY_ALERTS = None
  /\ emergencyAlerts (db (world_with_alert (alert_in resolved None))) !! "a1"
     = Some (alert_in resolved None)
  /\ EmergencyAlert.status (alert_in resolved None) = Some resolved
  /\ opt_string_truthy (EmergencyAlert.acknowledgedBy (alert_in resolved None)) = false
  /\ status_of
       (world_after (Sos.acknowledgeAlert quietEnv "a1" "responder-1")
          (world_with_alert (alert_in resolved None))) "a1"
     = Some acknowledged.
Proof.
  split; [reflexivity |]. split; [vm_compute; reflexivity |]. split; [reflexivity |].
  split; [reflexivity |].
  assert (Hd : emergencyAlerts (db (world_with_alert (alert_in resolved None))) !! "a1"
               = Some (alert_in resolved None)) by (vm_compute; reflexivity).
  exact (proj2 (proj1 (lifecycle_ignores_resolved quietEnv "a1" "responder-1" "done"
                         (world_with_alert (alert_in resolved None))
                         (alert_in resolved None) eq_refl Hd eq_refl) eq_refl)).
Defined.

(** ** The SOS session manager *)

(** C7. While a session is active, [triggerSOS] answers with a failure
    result (['SOS already active']) that carries the stored alert id, and
    leaves the world, hence the alerts, as they were; while no session is
    active, [cancelSOS] answers [false] and changes nothing.  After a
    first [triggerSOS] whose alert the store accepted, any second
    [triggerSOS] answers with that failure result carrying the id of the
    first alert. *)
Theorem sos_session_guards env patientId message reason w :
  (isSOSActive (sos w) = true ->
   Sos.triggerSOS env patientId message w = (w, inr (alreadyActive (sos w)))
   /\ SOSResponse.success (alreadyActive (sos w)) = false
   /\ SOSResponse.alertId (alreadyActive (sos w)) = currentAlertId (sos w))
  /\ (isSOSActive (sos w) = false ->
      Sos.cancelSOS env reason w = (w, inr false))
  /\ (isSOSActive (sos w) = false ->
      writeError env EMERGENCY_ALERTS = None ->
      let w1 := world_after (Sos.triggerSOS env patientId message) w in
      exists alertId,
        result_of (Sos.triggerSOS env patientId message) w = inr (sent alertId)
        /\ forall env' patientId' message',
             world_after (Sos.triggerSOS env' patientId' message') w1 = w1
             /\ exists response,
                  result_of (Sos.triggerSOS env' patientId' message') w1 = inr response
                  /\ SOSResponse.success response = false
                  /\ SOSResponse.alertId response = Some alertId).
Proof.
  split; [| split].
  - intros Hactive. rewrite triggerSOS_run, Hactive. repeat split; reflexivity.
  - apply cancelSOS_idle.
  - intros Hidle Hw. cbn zeta. unfold world_after, result_of.
    rewrite triggerSOS_run, Hidle, Hw. cbv beta iota zeta delta [fst snd].
    eexists. split; [reflexivity |].
    intros env' patientId' message'. rewrite triggerSOS_run.
    cbv beta iota zeta delta [fst snd sos isSOSActive].
    split; [reflexivity |]. eexists. repeat split; reflexivity.
Qed.

Lemma sos_session_guards_witness :
  isSOSActive (sos sosActiveWorld) = true
  /\ Sos.triggerSOS quietEnv "P1" None sosActiveWorld
     = (sosActiveWorld, inr (alreadyActive (sos sosActiveWorld)))
  /\ isSOSActive (sos emptyWorld) = false
  /\ Sos.cancelSOS quietEnv None emptyWorld = (emptyWorld, inr false).
Proof.
  assert (Ha : isSOSActive (sos sosActiveWorld) = true) by (vm_compute; reflexivity).
  split; [exact Ha |].
  split; [exact (proj1 (proj1 (sos_session_guards quietEnv "P1" None None sosActiveWorld) Ha)) |].
  split; [reflexivity |].
  exact (proj1 (proj2 (sos_session_guards quietEnv "P1" None None emptyWorld)) eq_refl).
Defined.

(** ** The notification legs *)

Lemma attempt_not_delivered env method call leg :
  (forall l, call <> Attempt l) -> ~ In (Attempt leg) (delivered env method call).
Proof.
  intros Hcall. unfold delivered.
  destruct (notificationsSupported env); [| intros []].
  destruct (notificationError env method); [intros [] |].
  intros [H | []]. exact (Hcall leg H).
Qed.

Lemma attempted_responderEvents env alert leg :
  attempted leg (responderEvents env alert) <-> leg = Responders.
Proof.
  unfold attempted, responderEvents. cbn. split.
  - intros [[= <-] | H]; [reflexivity |].
    exfalso. revert H. apply attempt_not_delivered. discriminate.
  - intros ->. left. reflexivity.
Qed.

Lemma attempted_familyEvents env patientId alert leg :
  attempted leg (familyEvents env patientId alert) <-> leg = Family.
Proof.
  unfold attempted, familyEvents. cbn. split.
  - intros [[= <-] | H]; [reflexivity |].
    exfalso. revert H. apply attempt_not_delivered. discriminate.
  - intros ->. left. reflexivity.
Qed.

Lemma attempted_contactEvents env patientId leg :
  attempted leg (contactEvents env patientId) <-> leg = EmergencyContacts.
Proof.
  unfold attempted, contactEvents. cbn. split.
  - intros [[= <-] | H]; [reflexivity |].
    exfalso. revert H. apply attempt_not_delivered. discriminate.
  - intros ->. left. reflexivity.
Qed.

(** The legs of a vitals-triggered alert. *)
Lemma attempted_vitalsAlertEvents env patientId alert leg :
  attempted leg (vitalsAlertEvents env patientId alert) <->
  leg = Family \/ (leg = Responders /\ EmergencyAlert.severity alert = Some critical).
Proof.
  unfold vitalsAlertEvents, attempted. rewrite in_app_iff.
  fold (attempted leg (familyEvents env patientId alert)).
  rewrite attempted_familyEvents.
  case_decide as Hsev.
  - fold (attempted leg (responderEvents env alert)). rewrite attempted_responderEvents.
    tauto.
  - cbn. tauto.
Qed.

(** The legs of a manual SOS. *)
Lemma attempted_sosEvents env patientId docId callback alert leg :
  attempted leg (sosEvents env patientId docId callback alert) <->
  leg = Responders
  \/ (leg = EmergencyContacts
      /\ Sos.hasEmergencyContacts (EmergencyAlert.medicalProfile alert) = true).
Proof.
  unfold sosEvents, attempted. rewrite !in_app_iff.
  fold (attempted leg (responderEvents env alert)). rewrite attempted_responderEvents.
  destruct (Sos.hasEmergencyContacts (EmergencyAlert.medicalProfile alert)).
  - fold (attempted leg (contactEvents env patientId)). rewrite attempted_contactEvents.
    destruct callback; cbn; intuition (try discriminate; try congruence).
  - destruct callback; cbn; intuition (try discriminate; try congruence).
Qed.

(** C8, on a vitals-triggered alert of severity [low] (heart rate 110),
    with a complete location fix and no medical profile, so that no
    property of the alert written is [undefined]: the alert is
    dispatched, with the location, and the responder leg is not
    attempted; and on a manual SOS in the same environment the family
    leg is not attempted. *)
Lemma low_severity_alert_skips_responders :
  let vitalsRun := Sos.triggerVitalsAlert quietEnv opaqueNumber "P1" mild_tachycardia in
  let sosRun := Sos.triggerSOS quietEnv "P1" None in
  (Sos.vitalsAlertUndefined quietEnv "P1" = []
   /\ Sos.sosAlertUndefined quietEnv "P1" = []
   /\ currentLocation quietEnv = inr completeFix)
  /\ (result_of vitalsRun emptyWorld = inr "doc"
      /\ (EmergencyAlert.location
            <$> emergencyAlerts (db (world_after vitalsRun emptyWorld)) !! "doc")
         = Some (Some completeFix)
      /\ Sos.calculateVitalsSeverity mild_tachycardia = low
      /\ ~ attempted Responders (trace (world_after vitalsRun emptyWorld)))
  /\ (result_of sosRun emptyWorld = inr (sent "doc")
      /\ (EmergencyAlert.location
            <$> emergencyAlerts (db (world_after sosRun emptyWorld)) !! "doc")
         = Some (Some completeFix)
      /\ ~ attempted Family (trace (world_after sosRun emptyWorld))).
Proof.
  split; [repeat split; reflexivity |].
  vm_compute. repeat split; try reflexivity; intros H;
    repeat (destruct H as [H | H]; [discriminate H |]); exact H.
Qed.

(** C8 (amended). For every vitals-triggered alert that the store
    accepts, the family leg is attempted, the responder leg is attempted
    exactly when the severity is [critical], and the emergency-contact
    leg is not attempted.  For every manual SOS that the store accepts,
    the responder leg is attempted, and the emergency-contact leg is
    attempted exactly when the gathered medical profile carries emergency
    contacts. *)
Theorem dispatch_legs env numberToString patientId vitalData message w :
  writeError env EMERGENCY_ALERTS = None ->
  (exists events,
     trace (world_after (Sos.triggerVitalsAlert env numberToString patientId vitalData) w)
     = (trace w ++ events)%list
     /\ attempted Family events
     /\ (attempted Responders events <-> Sos.calculateVitalsSeverity vitalData = critical)
     /\ ~ attempted EmergencyContacts events)
  /\ (isSOSActive (sos w) = false ->
      exists events,
        trace (world_after (Sos.triggerSOS env patientId message) w) = (trace w ++ events)%list
        /\ attempted Responders events
        /\ (attempted EmergencyContacts events <->
            Sos.hasEmergencyContacts (gathered_profile env patientId) = true)).
Proof.
  intros Hw. split.
  - unfold world_after. rewrite triggerVitalsAlert_run, Hw. cbn.
    eexists. split; [reflexivity |].
    rewrite !attempted_vitalsAlertEvents. cbn.
    split; [left; reflexivity |]. split.
    + split.
      * intros [[=] | [_ [= H]]]. exact H.
      * intros ->. right. split; reflexivity.
    + intros [[=] | [[=] _]].
  - intros Hidle. unfold world_after. rewrite triggerSOS_run, Hidle, Hw.
    cbv beta iota zeta delta [fst trace].
    eexists. split; [reflexivity |].
    rewrite !attempted_sosEvents. cbn.
    split; [left; reflexivity |]. split.
    + intros [[=] | [_ H]]. exact H.
    + intros H. right. split; [reflexivity | exact H].
Qed.

Lemma dispatch_legs_witness :
  writeError quietEnv EMERGENCY_ALERTS = None
  /\ Sos.vitalsAlertUndefined quietEnv "P1" = []
  /\ exists events,
       trace (world_after (Sos.triggerVitalsAlert quietEnv opaqueNumber "P1"
                             tachycardia_and_hypoxia) emptyWorld)
       = (trace emptyWorld ++ events)%list
       /\ attempted Family events
       /\ attempted Responders events.
Proof.
  split; [reflexivity |]. split; [reflexivity |].
  destruct (proj1 (dispatch_legs quietEnv opaqueNumber "P1" tachycardia_and_hypoxia None
                     emptyWorld eq_refl))
    as (events & Htrace & Hfamily & Hresp & _).
  exists events. split; [exact Htrace |]. split; [exact Hfamily |].
  apply Hresp. vm_compute. reflexivity.
Defined.

(** ** Failure handling of the dispatcher *)

(** C9, where an enrichment is not available.  The object that a
    dispatch path passes to [addDoc] then has a property whose value is
    [undefined]: [location] when the location gather threw,
    [medicalProfile] when the profile query threw.  The client of
    config.ts refuses such data, so no alert is persisted:
    [triggerVitalsAlert] throws, and [triggerSOS] answers
    [success: false] and resets the session, where the claim (and the
    comments ``optional, don't fail if unavailable'') say that the
    failure is not propagated and the alert is persisted.  Evaluated
    where the location is denied and the profile query fails, and where
    the location alone is denied; on the vitals path the same happens to
    a patient who stands still, whose fix has no heading and no speed. *)
Theorem enrichment_failure_fails_dispatch :
  (forall env patientId e,
     currentLocation env = inl e ->
     "location" ∈ Sos.sosAlertUndefined env patientId
     /\ "location" ∈ Sos.vitalsAlertUndefined env patientId)
  /\ (forall env patientId e,
        medicalProfileOf env patientId = inl e ->
        "medicalProfile" ∈ Sos.sosAlertUndefined env patientId
        /\ "medicalProfile" ∈ Sos.vitalsAlertUndefined env patientId)
  /\ (forall env numberToString patientId vitalData w,
        Sos.vitalsAlertUndefined env patientId <> [] ->
        refuses_undefined env EMERGENCY_ALERTS (Sos.vitalsAlertUndefined env patientId) ->
        exists e,
          Sos.triggerVitalsAlert env numberToString patientId vitalData w = (w, inl e))
  /\ (forall env patientId message w,
        isSOSActive (sos w) = false ->
        Sos.sosAlertUndefined env patientId <> [] ->
        refuses_undefined env EMERGENCY_ALERTS (Sos.sosAlertUndefined env patientId) ->
        exists e,
          result_of (Sos.triggerSOS env patientId message) w = inr (failedToSend e)
          /\ SOSResponse.success (failedToSend e) = false
          /\ db (world_after (Sos.triggerSOS env patientId message) w) = db w
          /\ isSOSActive (sos (world_after (Sos.triggerSOS env patientId message) w)) = false)
  /\ (Sos.sosAlertUndefined enrichmentFailsEnv "P1" = ["location"; "medicalProfile"]
      /\ refuses_undefined enrichmentFailsEnv EMERGENCY_ALERTS
           (Sos.sosAlertUndefined enrichmentFailsEnv "P1")
      /\ Sos.triggerSOS enrichmentFailsEnv "P1" None emptyWorld
         = (emptyWorld, inr (failedToSend refusedData))
      /\ Sos.triggerVitalsAlert enrichmentFailsEnv opaqueNumber "P1" heart_rate_180 emptyWorld
         = (emptyWorld, inl refusedData))
  /\ (Sos.sosAlertUndefined locationDeniedEnv "P1" = ["location"]
      /\ refuses_undefined locationDeniedEnv EMERGENCY_ALERTS
           (Sos.sosAlertUndefined locationDeniedEnv "P1")
      /\ Sos.triggerSOS locationDeniedEnv "P1" None emptyWorld
         = (emptyWorld, inr (failedToSend refusedData)))
  /\ (Sos.vitalsAlertUndefined standingStillEnv "P1" = ["location.heading"; "location.speed"]
      /\ refuses_undefined standingStillEnv EMERGENCY_ALERTS
           (Sos.vitalsAlertUndefined standingStillEnv "P1")
      /\ Sos.triggerVitalsAlert standingStillEnv opaqueNumber "P1" heart_rate_180 emptyWorld
         = (emptyWorld, inl refusedData)).
Proof.
  split; [| split; [| split; [| split; [| split; [| split]]]]].
  - intros env patientId e He.
    unfold Sos.sosAlertUndefined, Sos.vitalsAlertUndefined. rewrite He.
    split; apply elem_of_app; left; apply list_elem_of_singleton; reflexivity.
  - intros env patientId e He.
    unfold Sos.sosAlertUndefined, Sos.vitalsAlertUndefined. rewrite He.
    split; apply elem_of_app; right; apply list_elem_of_singleton; reflexivity.
  - intros env numberToString patientId vitalData w Hundefined Hclient.
    specialize (Hclient Hundefined). rewrite triggerVitalsAlert_run.
    destruct (writeError env EMERGENCY_ALERTS) as [e|]; [| contradiction].
    exists e. reflexivity.
  - intros env patientId message w Hidle Hundefined Hclient.
    specialize (Hclient Hundefined). unfold result_of, world_after.
    rewrite triggerSOS_run, Hidle.
    destruct (writeError env EMERGENCY_ALERTS) as [e|]; [| contradiction].
    exists e. repeat split; reflexivity.
  - split; [reflexivity |]. split; [intros _; discriminate |].
    split; vm_compute; reflexivity.
  - split; [reflexivity |]. split; [intros _; discriminate |].
    vm_compute; reflexivity.
  - split; [reflexivity |]. split; [intros _; discriminate |].
    vm_compute; reflexivity.
Qed.

(** ** The two classifiers on a zero-valued metric *)

(** C10. A reading whose heart rate is present and equal to 0 is an
    emergency for [checkVitalThresholds]; [calculateVitalsSeverity] skips
    every metric whose value is 0, and on [{heartRate: 0}] returns [low].
    So the reading ingested as an emergency is dispatched by
    [triggerVitalsAlert] as a [vitals_critical] alert of severity [low],
    for which the responder leg is not attempted; the dispatch is run
    with a complete location fix and no medical profile, where no
    property of the alert written is [undefined]. *)
Theorem classifiers_disagree_on_zero :
  (forall r, VitalReading.heartRate r = Some 0%float ->
     Vitals.checkVitalThresholds r Vitals.DEFAULT_THRESHOLDS = true)
  /\ Vitals.checkVitalThresholds zero_heart_rate Vitals.DEFAULT_THRESHOLDS = true
  /\ Sos.calculateVitalsSeverity zero_heart_rate = low
  /\ (forall r, Sos.calculateVitalsSeverity (without_zero_metrics r)
                = Sos.calculateVitalsSeverity r)
  /\ (exists docId reading alertId alert,
        let w1 := world_after (Vitals.addVitalReading quietEnv zero_heart_rate) emptyWorld in
        let dispatch := Sos.triggerVitalsAlert quietEnv opaqueNumber "P1" reading in
        Sos.vitalsAlertUndefined quietEnv "P1" = []
        /\ currentLocation quietEnv = inr completeFix
        /\ EmergencyAlert.location alert = Some completeFix
        /\ result_of (Vitals.addVitalReading quietEnv zero_heart_rate) emptyWorld = inr docId
        /\ vitals (db w1) !! docId = Some reading
        /\ VitalReading.heartRate reading = Some 0%float
        /\ VitalReading.isEmergency reading = Some true
        /\ result_of dispatch w1 = inr alertId
        /\ emergencyAlerts (db (world_after dispatch w1)) !! alertId = Some alert
        /\ EmergencyAlert.type alert = Some vitals_critical
        /\ EmergencyAlert.severity alert = Some low
        /\ ~ attempted Responders (trace (world_after dispatch w1))).
Proof.
  split; [| split; [| split; [| split]]].
  - intros r Hhr. rewrite checkVitalThresholds_blocks.
    unfold heartRate_check. rewrite Hhr. reflexivity.
  - vm_compute. reflexivity.
  - vm_compute. reflexivity.
  - exact calculateVitalsSeverity_skips_zero.
  - exists "doc", (persistedReading quietEnv "doc" zero_heart_rate), "doc0",
      (Sos.timestamped None (now quietEnv)
         (vitalsAlert quietEnv opaqueNumber "P1"
            (persistedReading quietEnv "doc" zero_heart_rate))).
    vm_compute. repeat split; try reflexivity.
    intros H. repeat (destruct H as [H | H]; [discriminate H |]). exact H.
Qed.

Lemma classifiers_disagree_on_zero_witness :
  VitalReading.heartRate zero_heart_rate = Some 0%float
  /\ Vitals.checkVitalThresholds zero_heart_rate Vitals.DEFAULT_THRESHOLDS = true.
Proof.
  split; [reflexivity |].
  exact (proj1 classifiers_disagree_on_zero zero_heart_rate eq_refl).
Defined.

(** A NaN metric compares false with every bound: it is not an emergency
    for the threshold evaluator and is skipped by the severity classifier. *)
Example nan_heart_rate_is_ignored :
  Vitals.checkVitalThresholds (reading_of None (Some PrimFloat.nan) None None)
    Vitals.DEFAULT_THRESHOLDS = false
  /\ Sos.calculateVitalsSeverity (reading_of None (Some PrimFloat.nan) None None) = low.
Proof. vm_compute. split; reflexivity. Qed.

(** * Further properties of the code *)

Set Warnings "-inexact-float".

(** ** Cancelling and resolving an SOS *)

(** An auto-generated document id is never the empty string. *)
Lemma newDocId_truthy {A} (c : gmap string A) : string_truthy (newDocId c) = true.
Proof.
  unfold newDocId, fresh_string. destruct (c !! "doc"); [| reflexivity].
  generalize 0%N (wf_guard 32 (fresh_string_R_wf "doc" c) 0%N).
  revert c. fix FIX 3. intros c n [?]; simpl; unfold fresh_string_go at 1; simpl.
  destruct (Some_dec (c !! _)) as [[??]|?]; auto.
Qed.

(** [cancelSOS] on an active session whose alert exists, when the store
    accepts the write. *)
Lemma cancelSOS_active_run env reason w alertId d :
  isSOSActive (sos w) = true ->
  currentAlertId (sos w) = Some alertId ->
  string_truthy alertId = true ->
  writeError env EMERGENCY_ALERTS = None ->
  emergencyAlerts (db w) !! alertId = Some d ->
  Sos.cancelSOS env reason w
  = (mkWorld
       (mkFirestore (vitals (db w))
          (<[alertId := Sos.resolved_with env (cancellationMessage reason) d]>
             (emergencyAlerts (db w))))
       (mkSOSManager false None (onSOSCallback (sos w)))
       (trace w ++ (if notificationError env showNotification is None
                    then [ShowNotification "SOS Cancelled"
                            (match reason with
                             | Some r =>
                                 if string_truthy r then r
                                 else "Emergency alert has been cancelled by the patient"
                             | None => "Emergency alert has been cancelled by the patient"
                             end) "info" "normal" "responder"]
                    else [])),
     inr (if notificationError env showNotification is None then true else false)).
Proof.
  intros Hactive Hid Htruthy Hw Hd. unfold cancellationMessage. run_sos.
  rewrite Hactive, Hid. cbn. rewrite Htruthy, Hw. cbn. rewrite Hd. cbn.
  destruct (notificationError env showNotification); cbn; rewrite ?app_nil_r; reflexivity.
Qed.

(** X1. [cancelSOS] on an active session whose alert exists, when the
    store accepts the write: the alert becomes [resolved] with the reason
    (or the default text) as message, and the session is cleared.  The
    answer is [true] only if the cancellation notice could be shown: when
    the notification fails the answer is [false] although the SOS has
    been cancelled. *)
Theorem cancelSOS_resolves_and_clears env reason w alertId d :
  isSOSActive (sos w) = true ->
  currentAlertId (sos w) = Some alertId ->
  string_truthy alertId = true ->
  writeError env EMERGENCY_ALERTS = None ->
  emergencyAlerts (db w) !! alertId = Some d ->
  let w' := world_after (Sos.cancelSOS env reason) w in
  emergencyAlerts (db w')
  = <[alertId := Sos.resolved_with env (cancellationMessage reason) d]> (emergencyAlerts (db w))
  /\ status_of w' alertId = Some resolved
  /\ vitals (db w') = vitals (db w)
  /\ isSOSActive (sos w') = false
  /\ currentAlertId (sos w') = None
  /\ result_of (Sos.cancelSOS env reason) w
     = inr (if notificationError env showNotification is None then true else false).
Proof.
  intros Hactive Hid Htruthy Hw Hd. cbn zeta.
  unfold world_after, result_of, status_of.
  rewrite (cancelSOS_active_run _ _ _ _ _ Hactive Hid Htruthy Hw Hd). cbn.
  rewrite lookup_insert_eq. repeat split; reflexivity.
Qed.

Lemma cancelSOS_resolves_and_clears_witness :
  isSOSActive (sos sosActiveWorld) = true
  /\ status_of (world_after (Sos.cancelSOS degradedEnv None) sosActiveWorld) "doc"
     = Some resolved
  /\ result_of (Sos.cancelSOS degradedEnv None) sosActiveWorld = inr false.
Proof.
  assert (Ha : isSOSActive (sos sosActiveWorld) = true) by (vm_compute; reflexivity).
  assert (Hid : currentAlertId (sos sosActiveWorld) = Some "doc") by (vm_compute; reflexivity).
  assert (Hd : emergencyAlerts (db sosActiveWorld) !! "doc"
               = Some (Sos.timestamped None (now quietEnv) (sosAlert quietEnv "P1" None)))
    by (vm_compute; reflexivity).
  destruct (cancelSOS_resolves_and_clears degradedEnv None sosActiveWorld "doc" _
              Ha Hid eq_refl eq_refl Hd) as (_ & Hst & _ & _ & _ & Hres).
  split; [exact Ha |]. split; [exact Hst | exact Hres].
Defined.

(** X2. [cancelSOS] on an active session, when the store rejects the
    write or the alert document does not exist: the answer is [false],
    nothing is changed, and the session stays active. *)
Theorem cancelSOS_rejected_keeps_session env reason w alertId :
  isSOSActive (sos w) = true ->
  currentAlertId (sos w) = Some alertId ->
  string_truthy alertId = true ->
  writeError env EMERGENCY_ALERTS <> None \/ emergencyAlerts (db w) !! alertId = None ->
  Sos.cancelSOS env reason w = (w, inr false).
Proof.
  intros Hactive Hid Htruthy Hfail. run_sos.
  rewrite Hactive, Hid. cbn. rewrite Htruthy. cbn.
  destruct (writeError env EMERGENCY_ALERTS) as [e|]; [reflexivity |].
  destruct Hfail as [Hfail | Hnone]; [congruence |]. rewrite Hnone. reflexivity.
Qed.

Lemma cancelSOS_rejected_keeps_session_witness :
  isSOSActive (sos (mkWorld (mkFirestore ∅ ∅) (mkSOSManager true (Some "gone") false) [])) = true
  /\ Sos.cancelSOS quietEnv None
       (mkWorld (mkFirestore ∅ ∅) (mkSOSManager true (Some "gone") false) [])
     = (mkWorld (mkFirestore ∅ ∅) (mkSOSManager true (Some "gone") false) [], inr false).
Proof.
  split; [reflexivity |].
  exact (cancelSOS_rejected_keeps_session quietEnv None
           (mkWorld (mkFirestore ∅ ∅) (mkSOSManager true (Some "gone") false) []) "gone"
           eq_refl eq_refl eq_refl (or_intror eq_refl)).
Defined.

(** X3. [resolveAlert] clears the SOS session exactly when the resolved
    alert is the one of the session: after resolving the session's alert
    a new [triggerSOS] is no longer answered ['SOS already active'] but
    dispatches a new alert; resolving any other alert leaves the session
    as it was. *)
Theorem resolveAlert_clears_own_session env alertId resolution w d :
  writeError env EMERGENCY_ALERTS = None ->
  emergencyAlerts (db w) !! alertId = Some d ->
  let w' := world_after (Sos.resolveAlert env alertId resolution) w in
  (currentAlertId (sos w) = Some alertId ->
   isSOSActive (sos w') = false
   /\ currentAlertId (sos w') = None
   /\ forall patientId message,
        exists newId,
          result_of (Sos.triggerSOS env patientId message) w' = inr (sent newId)
          /\ newId <> alertId)
  /\ (currentAlertId (sos w) <> Some alertId -> sos w' = sos w).
Proof.
  intros Hw Hd. cbn zeta. unfold world_after, Sos.resolveAlert, try_catch, bind.
  rewrite (updateDoc_alerts_run _ _ _ _ _ Hw Hd).
  unfold get_sos, with_alerts, Sos.set_isSOSActive, Sos.set_currentAlertId,
    bind, get_sos, put_sos, ret.
  cbv beta iota zeta delta [fst snd sos].
  case_decide as Hcur; cbn; split; try congruence; intros _.
  split; [reflexivity |]. split; [reflexivity |].
  intros patientId message. unfold result_of. rewrite triggerSOS_run. cbn. rewrite Hw.
  eexists. split; [reflexivity |].
  intros Heq.
  pose proof (newDocId_fresh
                (<[alertId := Sos.resolved_with env resolution d]> (emergencyAlerts (db w))))
    as Hfresh.
  rewrite Heq, lookup_insert_eq in Hfresh. discriminate Hfresh.
Qed.

Lemma resolveAlert_clears_own_session_witness :
  writeError quietEnv EMERGENCY_ALERTS = None
  /\ currentAlertId (sos sosActiveWorld) = Some "doc"
  /\ isSOSActive (sos (world_after (Sos.resolveAlert quietEnv "doc" "handled") sosActiveWorld))
     = false.
Proof.
  assert (Hid : currentAlertId (sos sosActiveWorld) = Some "doc") by (vm_compute; reflexivity).
  assert (Hd : emergencyAlerts (db sosActiveWorld) !! "doc"
               = Some (Sos.timestamped None (now quietEnv) (sosAlert quietEnv "P1" None)))
    by (vm_compute; reflexivity).
  split; [reflexivity |]. split; [exact Hid |].
  exact (proj1 (proj1 (resolveAlert_clears_own_session quietEnv "doc" "handled"
                         sosActiveWorld _ eq_refl Hd) Hid)).
Defined.

(** X4. A manual SOS followed by its cancellation, when the store
    accepts both writes: exactly one alert has been added, it is
    [active] after the trigger and [resolved] after the cancellation, no
    other alert is touched, and the session is idle again. *)
Theorem triggerSOS_then_cancelSOS env env' patientId message reason w :
  isSOSActive (sos w) = false ->
  writeError env EMERGENCY_ALERTS = None ->
  writeError env' EMERGENCY_ALERTS = None ->
  let w1 := world_after (Sos.triggerSOS env patientId message) w in
  let w2 := world_after (Sos.cancelSOS env' reason) w1 in
  exists alertId,
    result_of (Sos.triggerSOS env patientId message) w = inr (sent alertId)
    /\ emergencyAlerts (db w) !! alertId = None
    /\ status_of w1 alertId = Some active
    /\ status_of w2 alertId = Some resolved
    /\ size (emergencyAlerts (db w2)) = S (size (emergencyAlerts (db w)))
    /\ (forall other, other <> alertId ->
          emergencyAlerts (db w2) !! other = emergencyAlerts (db w) !! other)
    /\ isSOSActive (sos w2) = false
    /\ currentAlertId (sos w2) = None.
Proof.
  intros Hidle Hw Hw'. cbn zeta. unfold world_after, result_of.
  rewrite triggerSOS_run, Hidle, Hw. cbv beta iota zeta delta [fst snd].
  set (alertId := newDocId (emergencyAlerts (db w))).
  set (d := Sos.timestamped None (now env) (sosAlert env patientId message)).
  exists alertId.
  erewrite (cancelSOS_active_run env' reason _ alertId d);
    [| reflexivity | reflexivity | apply newDocId_truthy | exact Hw'
     | cbn; apply lookup_insert_eq].
  unfold status_of. cbn. rewrite !lookup_insert_eq, insert_insert_eq.
  split; [reflexivity |]. split; [apply newDocId_fresh |].
  split; [reflexivity |]. split; [reflexivity |].
  split; [apply map_size_insert_None, newDocId_fresh |].
  split; [| split; reflexivity].
  intros other Hne. rewrite lookup_insert_ne by congruence. reflexivity.
Qed.

Lemma triggerSOS_then_cancelSOS_witness :
  isSOSActive (sos emptyWorld) = false
  /\ exists alertId,
       result_of (Sos.triggerSOS quietEnv "P1" None) emptyWorld = inr (sent alertId)
       /\ status_of
            (world_after (Sos.cancelSOS quietEnv (Some "false alarm"))
               (world_after (Sos.triggerSOS quietEnv "P1" None) emptyWorld)) alertId
          = Some resolved.
Proof.
  split; [reflexivity |].
  destruct (triggerSOS_then_cancelSOS quietEnv quietEnv "P1" None (Some "false alarm")
              emptyWorld eq_refl eq_refl eq_refl)
    as (alertId & Hres & _ & _ & Hst & _).
  exists alertId. split; [exact Hres | exact Hst].
Defined.

(** ** What the lifecycle operations touch *)

(** The store after a lifecycle operation: as before, or with the
    addressed document patched. *)
Lemma lifecycle_shape env op alertId w :
  trace (lifecycle env op alertId w) = trace w
  /\ (db (lifecycle env op alertId w) = db w
      \/ exists d d',
           emergencyAlerts (db w) !! alertId = Some d
           /\ snapshot_of d' = snapshot_of d
           /\ db (lifecycle env op alertId w)
              = mkFirestore (vitals (db w)) (<[alertId := d']> (emergencyAlerts (db w)))).
Proof.
  unfold lifecycle, world_after.
  destruct op as [responderId | responderId | resolution | responderId].
  - run_sos. destruct (writeError env EMERGENCY_ALERTS); [split; [| left]; reflexivity |].
    destruct (emergencyAlerts (db w) !! alertId) as [d|] eqn:Hd;
      [| split; [| left]; reflexivity].
    cbn. split; [reflexivity |]. right. eexists d, _. split; [reflexivity |]. split; [| reflexivity]. reflexivity.
  - run_sos. destruct (writeError env EMERGENCY_ALERTS); [split; [| left]; reflexivity |].
    destruct (emergencyAlerts (db w) !! alertId) as [d|] eqn:Hd;
      [| split; [| left]; reflexivity].
    cbn. split; [reflexivity |]. right. eexists d, _. split; [reflexivity |]. split; [| reflexivity]. reflexivity.
  - run_sos. destruct (writeError env EMERGENCY_ALERTS); [split; [| left]; reflexivity |].
    destruct (emergencyAlerts (db w) !! alertId) as [d|] eqn:Hd;
      [| split; [| left]; reflexivity].
    cbn. case_decide; cbn; (split; [reflexivity |]); right; eexists d, _;
      (split; [reflexivity |]); (split; [| reflexivity]); reflexivity.
  - rewrite firestore_acknowledgeAlert_run.
    destruct (emergencyAlerts (db w) !! alertId) as [d|] eqn:Hd;
      [| split; [| left]; reflexivity].
    destruct (opt_string_truthy (EmergencyAlert.acknowledgedBy d));
      [split; [| left]; reflexivity |].
    destruct (writeError env EMERGENCY_ALERTS); [split; [| left]; reflexivity |].
    cbn. split; [reflexivity |]. right. eexists d, _. split; [reflexivity |]. split; [| reflexivity]. reflexivity.
Qed.

(** X5. Each of the four operations that write the status of an alert
    touches that alert only: the readings, the other alerts and the
    notification trace are as before, no alert is created or deleted,
    and on the alert itself everything fixed at dispatch (patient, type,
    severity, location, vitals, medical profile, creation time) is kept. *)
Theorem lifecycle_touches_one_alert env op alertId w :
  let w' := lifecycle env op alertId w in
  vitals (db w') = vitals (db w)
  /\ trace w' = trace w
  /\ (forall other, other <> alertId ->
        emergencyAlerts (db w') !! other = emergencyAlerts (db w) !! other)
  /\ (forall d, emergencyAlerts (db w) !! alertId = Some d ->
        exists d', emergencyAlerts (db w') !! alertId = Some d'
                   /\ snapshot_of d' = snapshot_of d)
  /\ (emergencyAlerts (db w) !! alertId = None ->
      emergencyAlerts (db w') !! alertId = None).
Proof.
  cbn zeta. destruct (lifecycle_shape env op alertId w) as [Htrace Hdb].
  split; [destruct Hdb as [-> | (d & d' & _ & _ & ->)]; reflexivity |].
  split; [exact Htrace |].
  destruct Hdb as [-> | (d & d' & Hd & Hsnap & ->)]; cbn.
  - split; [reflexivity |]. split; [| tauto].
    intros d Hd. exists d. split; [exact Hd | reflexivity].
  - split; [intros other Hne; rewrite lookup_insert_ne by congruence; reflexivity |].
    split.
    + intros d0 Hd0. exists d'. rewrite lookup_insert_eq. split; [reflexivity |].
      congruence.
    + intros Hnone. congruence.
Qed.

(** X6. On an alert id that has no document, the three operations of
    the manager answer [false] and the transaction of firestore.ts fails
    with ['Alert does not exist']; none of them changes anything (no
    document is created). *)
Theorem lifecycle_on_missing_alert env alertId responderId resolution w :
  emergencyAlerts (db w) !! alertId = None ->
  Sos.acknowledgeAlert env alertId responderId w = (w, inr false)
  /\ Sos.startResponse env alertId responderId w = (w, inr false)
  /\ Sos.resolveAlert env alertId resolution w = (w, inr false)
  /\ FirestoreDb.acknowledgeAlert env alertId responderId w
     = (w, inl (mkError "Alert does not exist")).
Proof.
  intros Hnone. rewrite firestore_acknowledgeAlert_run. run_sos. rewrite Hnone.
  destruct (writeError env EMERGENCY_ALERTS); repeat split; reflexivity.
Qed.

Lemma lifecycle_on_missing_alert_witness :
  emergencyAlerts (db emptyWorld) !! "a1" = None
  /\ Sos.startResponse quietEnv "a1" "responder-1" emptyWorld = (emptyWorld, inr false).
Proof.
  split; [reflexivity |].
  exact (proj1 (proj2 (lifecycle_on_missing_alert quietEnv "a1" "responder-1" "done"
                         emptyWorld eq_refl))).
Defined.

(** ** Ingestion and acknowledgement, composed *)

(** X9. Alerts are not deduplicated: two successive ingestions of
    emergency readings, the store accepting every write, return two
    different reading ids and leave two more readings and two more
    alerts, whatever alerts the store already holds. *)
Theorem addVitalReading_does_not_deduplicate env1 env2 r1 r2 w :
  writeError env1 VITALS = None -> writeError env1 EMERGENCY_ALERTS = None ->
  writeError env2 VITALS = None -> writeError env2 EMERGENCY_ALERTS = None ->
  Vitals.checkVitalThresholds r1 Vitals.DEFAULT_THRESHOLDS = true ->
  Vitals.checkVitalThresholds r2 Vitals.DEFAULT_THRESHOLDS = true ->
  let w1 := world_after (Vitals.addVitalReading env1 r1) w in
  let w2 := world_after (Vitals.addVitalReading env2 r2) w1 in
  exists id1 id2,
    result_of (Vitals.addVitalReading env1 r1) w = inr id1
    /\ result_of (Vitals.addVitalReading env2 r2) w1 = inr id2
    /\ id1 <> id2
    /\ size (vitals (db w2)) = 2 + size (vitals (db w))
    /\ size (emergencyAlerts (db w2)) = 2 + size (emergencyAlerts (db w)).
Proof.
  intros Hv1 Ha1 Hv2 Ha2 Hc1 Hc2. cbn zeta. unfold world_after, result_of.
  rewrite (addVitalReading_run env1 r1 w), Hv1, Hc1, Ha1.
  cbv beta iota zeta delta [fst snd].
  rewrite addVitalReading_run, Hv2, Hc2, Ha2. cbn.
  eexists _, _. split; [reflexivity |]. split; [reflexivity |].
  split.
  - intros Heq.
    pose proof (newDocId_fresh
                  (<[newDocId (vitals (db w)) :=
                       persistedReading env1 (newDocId (vitals (db w))) r1]> (vitals (db w))))
      as Hfresh.
    rewrite <- Heq, lookup_insert_eq in Hfresh. discriminate Hfresh.
  - split.
    + rewrite !map_size_insert_None;
        [reflexivity | apply newDocId_fresh | apply newDocId_fresh].
    + rewrite !map_size_insert_None;
        [reflexivity | apply newDocId_fresh | apply newDocId_fresh].
Qed.

Lemma addVitalReading_does_not_deduplicate_witness :
  Vitals.checkVitalThresholds heart_rate_180 Vitals.DEFAULT_THRESHOLDS = true
  /\ size (emergencyAlerts
             (db (world_after (Vitals.addVitalReading quietEnv heart_rate_180)
                    (world_after (Vitals.addVitalReading quietEnv heart_rate_180) emptyWorld))))
     = 2 + size (emergencyAlerts (db emptyWorld)).
Proof.
  assert (Hc : Vitals.checkVitalThresholds heart_rate_180 Vitals.DEFAULT_THRESHOLDS = true)
    by (vm_compute; reflexivity).
  split; [exact Hc |].
  destruct (addVitalReading_does_not_deduplicate quietEnv quietEnv heart_rate_180
              heart_rate_180 emptyWorld eq_refl eq_refl eq_refl eq_refl Hc Hc)
    as (id1 & id2 & _ & _ & _ & _ & Hsize).
  exact Hsize.
Defined.

(** What [createEmergencyAlert] does, by the answer of the store. *)
Lemma createEmergencyAlert_run env alertData w :
  let alertId := newDocId (emergencyAlerts (db w)) in
  FirestoreDb.createEmergencyAlert env alertData w =
  match writeError env EMERGENCY_ALERTS with
  | Some e => (w, inl e)
  | None =>
      (with_alerts w
         (<[alertId :=
              {| EmergencyAlert.id := Some alertId;
                 EmergencyAlert.patientId := EmergencyAlert.patientId alertData;
                 EmergencyAlert.type := EmergencyAlert.type alertData;
                 EmergencyAlert.alertType := EmergencyAlert.alertType alertData;
                 EmergencyAlert.severity := EmergencyAlert.severity alertData;
                 EmergencyAlert.status := Some active;
                 EmergencyAlert.location := EmergencyAlert.location alertData;
                 EmergencyAlert.vitalData := EmergencyAlert.vitalData alertData;
                 EmergencyAlert.vitalReading := EmergencyAlert.vitalReading alertData;
                 EmergencyAlert.medicalProfile := EmergencyAlert.medicalProfile alertData;
                 EmergencyAlert.message := EmergencyAlert.message alertData;
                 EmergencyAlert.acknowledgedBy := None;
                 EmergencyAlert.acknowledgedAt := None;
                 EmergencyAlert.responderId := EmergencyAlert.responderId alertData;
                 EmergencyAlert.responseTime := EmergencyAlert.responseTime alertData;
                 EmergencyAlert.resolvedAt := EmergencyAlert.resolvedAt alertData;
                 EmergencyAlert.createdAt := Some (now env);
                 EmergencyAlert.updatedAt := EmergencyAlert.updatedAt alertData |}]>
            (emergencyAlerts (db w))),
       inr alertId)
  end.
Proof.
  unfold FirestoreDb.createEmergencyAlert, try_catch, bind, ret, throw, get_db, setDoc_alerts.
  cbn. destruct (writeError env EMERGENCY_ALERTS); reflexivity.
Qed.

(** X10. An alert written by [createEmergencyAlert] is [active] and has
    no acknowledger, whatever the given data says; the transaction of
    firestore.ts then lets one responder (with a non-empty id)
    acknowledge it, and rejects every later acknowledgement, leaving the
    first acknowledger in place. *)
Theorem created_alert_is_acknowledged_once env alertData first second w :
  writeError env EMERGENCY_ALERTS = None ->
  string_truthy first = true ->
  let w1 := world_after (FirestoreDb.createEmergencyAlert env alertData) w in
  let w2 := world_after (FirestoreDb.acknowledgeAlert env (newDocId (emergencyAlerts (db w))) first) w1 in
  let alertId := newDocId (emergencyAlerts (db w)) in
  result_of (FirestoreDb.createEmergencyAlert env alertData) w = inr alertId
  /\ status_of w1 alertId = Some active
  /\ acknowledger_of w1 alertId = None
  /\ result_of (FirestoreDb.acknowledgeAlert env alertId first) w1 = inr tt
  /\ status_of w2 alertId = Some acknowledged
  /\ acknowledger_of w2 alertId = Some first
  /\ FirestoreDb.acknowledgeAlert env alertId second w2
     = (w2, inl (mkError "Alert already acknowledged")).
Proof.
  intros Hw Hfirst. cbn zeta. unfold world_after, result_of.
  rewrite createEmergencyAlert_run, Hw. cbv beta iota zeta delta [fst snd].
  rewrite !firestore_acknowledgeAlert_run.
  unfold status_of, acknowledger_of. cbn.
  rewrite !lookup_insert_eq. cbn. rewrite Hw. cbn.
  rewrite !lookup_insert_eq. cbn. rewrite Hfirst.
  repeat split; reflexivity.
Qed.

Lemma created_alert_is_acknowledged_once_witness :
  writeError quietEnv EMERGENCY_ALERTS = None
  /\ string_truthy "responder-1" = true
  /\ FirestoreDb.acknowledgeAlert quietEnv (newDocId (emergencyAlerts (db emptyWorld)))
       "responder-2"
       (world_after
          (FirestoreDb.acknowledgeAlert quietEnv (newDocId (emergencyAlerts (db emptyWorld)))
             "responder-1")
          (world_after
             (FirestoreDb.createEmergencyAlert quietEnv (alert_in resolved (Some "someone")))
             emptyWorld))
     = (world_after
          (FirestoreDb.acknowledgeAlert quietEnv (newDocId (emergencyAlerts (db emptyWorld)))
             "responder-1")
          (world_after
             (FirestoreDb.createEmergencyAlert quietEnv (alert_in resolved (Some "someone")))
             emptyWorld),
        inl (mkError "Alert already acknowledged")).
Proof.
  split; [reflexivity |]. split; [reflexivity |].
  exact (proj2 (proj2 (proj2 (proj2 (proj2 (proj2
           (created_alert_is_acknowledged_once quietEnv (alert_in resolved (Some "someone"))
              "responder-1" "responder-2" emptyWorld eq_refl eq_refl))))))).
Defined.

(** ** The severity classifier, the message and the threshold evaluator *)

(** The order of binary64 numbers is transitive. *)
Lemma SFltb_trans x y z : SFltb x y = true -> SFltb y z = true -> SFltb x z = true.
Proof.
  unfold SFltb, SFcompare.
  destruct x as [sx|sx| |sx mx ex], y as [sy|sy| |sy my ey], z as [sz|sz| |sz mz ez];
    try discriminate; try reflexivity;
    repeat match goal with s : bool |- _ => destruct s end;
    try discriminate; try reflexivity.
  - destruct (Z.compare_spec ex ey), (Z.compare_spec ey ez), (Z.compare_spec ex ez);
      try discriminate; try reflexivity; try lia; subst.
    all: rewrite ?Pos.compare_cont_spec; cbn; unfold Pos.switch_Eq.
    all: try (destruct (Pos.compare_spec mx my), (Pos.compare_spec my mz),
                (Pos.compare_spec mx mz); cbn; try discriminate; try reflexivity; lia).
  - destruct (Z.compare_spec ex ey), (Z.compare_spec ey ez), (Z.compare_spec ex ez);
      try discriminate; try reflexivity; try lia; subst.
    all: rewrite ?Pos.compare_cont_spec; cbn; unfold Pos.switch_Eq.
    all: try (destruct (Pos.compare_spec mx my), (Pos.compare_spec my mz),
                (Pos.compare_spec mx mz); cbn; try discriminate; try reflexivity; lia).
Qed.

Lemma lt_trans x y z : lt x y = true -> lt y z = true -> lt x z = true.
Proof. unfold lt. rewrite !FloatAxioms.ltb_spec. apply SFltb_trans. Qed.

(** Below a bound, below every larger bound; above a bound, above every
    smaller one. *)
Lemma lt_below v a b : lt a b = true -> lt v a = true -> lt v b = true.
Proof. intros Hab Hva. exact (lt_trans v a b Hva Hab). Qed.

Lemma gt_above v a b : lt b a = true -> gt v a = true -> gt v b = true.
Proof. unfold gt. intros Hba Hav. exact (lt_trans b a v Hba Hav). Qed.

Lemma heartRate_critical_is_flagged v :
  Band.heartRate_critical v = true -> lt v 50%float || gt v 120%float = true.
Proof.
  unfold Band.heartRate_critical. rewrite !orb_true_iff. intros [H | H].
  - left. exact (lt_below v 40%float 50%float eq_refl H).
  - right. exact (gt_above v 150%float 120%float eq_refl H).
Qed.

Lemma temperature_critical_is_flagged v :
  Band.temperature_critical v = true -> lt v 96.5%float || gt v 101%float = true.
Proof.
  unfold Band.temperature_critical. rewrite !orb_true_iff. intros [H | H].
  - left. exact (lt_below v 95%float 96.5%float eq_refl H).
  - right. exact (gt_above v 104%float 101%float eq_refl H).
Qed.

Lemma oxygenSaturation_critical_is_flagged v :
  Band.oxygenSaturation_critical v = true -> lt v 90%float = true.
Proof. exact (lt_below v 85%float 90%float eq_refl). Qed.

(** A metric is counted in one of the two bands exactly when it is truthy
    and beyond the looser bounds, which are those the message tests. *)
Lemma heartRate_counted v :
  Band.heartRate_critical v || Band.heartRate_warning v
  = (lt v 50%float || gt v 120%float).
Proof.
  unfold Band.heartRate_warning.
  destruct (Band.heartRate_critical v) eqn:Hc; cbn; [| reflexivity].
  symmetry. exact (heartRate_critical_is_flagged v Hc).
Qed.

Lemma oxygenSaturation_counted v :
  Band.oxygenSaturation_critical v || Band.oxygenSaturation_warning v = lt v 90%float.
Proof.
  unfold Band.oxygenSaturation_warning.
  destruct (Band.oxygenSaturation_critical v) eqn:Hc; cbn; [| reflexivity].
  symmetry. exact (oxygenSaturation_critical_is_flagged v Hc).
Qed.

Lemma temperature_counted v :
  Band.temperature_critical v || Band.temperature_warning v
  = (lt v 96.5%float || gt v 101%float).
Proof.
  unfold Band.temperature_warning.
  destruct (Band.temperature_critical v) eqn:Hc; cbn; [| reflexivity].
  symmetry. exact (temperature_critical_is_flagged v Hc).
Qed.

(** The sum of the two counts, metric by metric. *)
Lemma counted_in_sum critical warning flagged metric :
  (forall v, critical v || warning v = flagged v) ->
  (forall v, critical v && warning v = false) ->
  Band.counted_in critical metric + Band.counted_in warning metric
  = Band.counted_in flagged metric.
Proof.
  intros Hsum Hdisj. destruct metric as [v|]; [| reflexivity]. cbn.
  specialize (Hsum v). specialize (Hdisj v).
  destruct (number_truthy v), (critical v), (warning v), (flagged v);
    cbn in *; congruence.
Qed.

Lemma counts_by_metric r :
  Band.criticalCount r + Band.warningCount r
  = Band.counted_in (fun v => lt v 50%float || gt v 120%float) (VitalReading.heartRate r)
    + Band.counted_in (fun v => lt v 90%float) (VitalReading.oxygenSaturation r)
    + Band.counted_in (fun v => lt v 96.5%float || gt v 101%float) (VitalReading.temperature r).
Proof.
  unfold Band.criticalCount, Band.warningCount.
  rewrite <- (counted_in_sum Band.heartRate_critical Band.heartRate_warning _
                (VitalReading.heartRate r) heartRate_counted),
    <- (counted_in_sum Band.oxygenSaturation_critical Band.oxygenSaturation_warning _
          (VitalReading.oxygenSaturation r) oxygenSaturation_counted),
    <- (counted_in_sum Band.temperature_critical Band.temperature_warning _
          (VitalReading.temperature r) temperature_counted); [lia | | |].
  - intros v. unfold Band.temperature_warning.
    destruct (Band.temperature_critical v); reflexivity.
  - intros v. unfold Band.oxygenSaturation_warning.
    destruct (Band.oxygenSaturation_critical v); reflexivity.
  - intros v. unfold Band.heartRate_warning.
    destruct (Band.heartRate_critical v); reflexivity.
Qed.

(** The message is the generic one exactly when no metric is counted. *)
Lemma generic_message_iff_nothing_counted numberToString r :
  Sos.generateVitalsMessage numberToString r = "Abnormal vital signs detected"
  <-> Band.criticalCount r + Band.warningCount r = 0.
Proof.
  rewrite counts_by_metric.
  unfold Sos.generateVitalsMessage, Band.counted_in, Sos.push.
  destruct (VitalReading.heartRate r) as [hr|];
    [destruct (number_truthy hr); destruct (lt hr 50%float || gt hr 120%float) |];
  (destruct (VitalReading.oxygenSaturation r) as [ox|];
    [destruct (number_truthy ox); destruct (lt ox 90%float) |]);
  (destruct (VitalReading.temperature r) as [te|];
    [destruct (number_truthy te); destruct (lt te 96.5%float || gt te 101%float) |]);
  cbn; split; intros H; first [reflexivity | discriminate H | lia].
Qed.

(** X7. The alert message names an issue exactly when some metric is
    counted by the severity classifier: it is the generic ['Abnormal
    vital signs detected'] if and only if no present, truthy metric is in
    the critical or in the warning band, and then the severity is [low]. *)
Theorem generateVitalsMessage_generic_iff numberToString r :
  (Sos.generateVitalsMessage numberToString r = "Abnormal vital signs detected"
   <-> Band.criticalCount r + Band.warningCount r = 0)
  /\ (Sos.generateVitalsMessage numberToString r = "Abnormal vital signs detected" ->
      Sos.calculateVitalsSeverity r = low).
Proof.
  split; [apply generic_message_iff_nothing_counted |].
  intros H. apply generic_message_iff_nothing_counted in H.
  rewrite calculateVitalsSeverity_counts.
  replace (Band.criticalCount r) with 0 by lia.
  replace (Band.warningCount r) with 0 by lia. reflexivity.
Qed.

Lemma flagged_heartRate_violates v :
  lt v 50%float || gt v 120%float = true -> lt v 60%float || gt v 100%float = true.
Proof.
  rewrite !orb_true_iff. intros [H | H].
  - left. exact (lt_below v 50%float 60%float eq_refl H).
  - right. exact (gt_above v 120%float 100%float eq_refl H).
Qed.

Lemma flagged_temperature_violates v :
  lt v 96.5%float || gt v 101%float = true -> lt v 96.8%float || gt v 100.4%float = true.
Proof.
  rewrite !orb_true_iff. intros [H | H].
  - left. exact (lt_below v 96.5%float 96.8%float eq_refl H).
  - right. exact (gt_above v 101%float 100.4%float eq_refl H).
Qed.

(** A reading with a counted metric is an emergency under the default
    thresholds. *)
Lemma counted_is_emergency r :
  1 <= Band.criticalCount r + Band.warningCount r ->
  Vitals.checkVitalThresholds r Vitals.DEFAULT_THRESHOLDS = true.
Proof.
  rewrite counts_by_metric, checkVitalThresholds_blocks.
  unfold Band.counted_in, heartRate_check, oxygenSaturation_check, temperature_check.
  cbn [Vitals.DEFAULT_THRESHOLDS VitalThresholds.heartRate VitalThresholds.oxygenSaturation
       VitalThresholds.temperature VitalThresholds.min VitalThresholds.max
       VitalThresholds.floor_min].
  intros H.
  destruct (VitalReading.heartRate r) as [hr|].
  - destruct (number_truthy hr && (lt hr 50%float || gt hr 120%float)) eqn:Hhr.
    + apply andb_true_iff in Hhr as [_ Hhr].
      rewrite (flagged_heartRate_violates hr Hhr). reflexivity.
    + destruct (VitalReading.oxygenSaturation r) as [ox|].
      * destruct (number_truthy ox && lt ox 90%float) eqn:Hox.
        -- apply andb_true_iff in Hox as [_ Hox]. rewrite Hox, orb_true_r. reflexivity.
        -- destruct (VitalReading.temperature r) as [te|]; [| cbn in H; lia].
           destruct (number_truthy te && (lt te 96.5%float || gt te 101%float)) eqn:Hte;
             [| cbn in H; lia].
           apply andb_true_iff in Hte as [_ Hte].
           rewrite (flagged_temperature_violates te Hte), !orb_true_r. reflexivity.
      * destruct (VitalReading.temperature r) as [te|]; [| cbn in H; lia].
        destruct (number_truthy te && (lt te 96.5%float || gt te 101%float)) eqn:Hte;
          [| cbn in H; lia].
        apply andb_true_iff in Hte as [_ Hte].
        rewrite (flagged_temperature_violates te Hte), !orb_true_r. reflexivity.
  - destruct (VitalReading.oxygenSaturation r) as [ox|].
    + destruct (number_truthy ox && lt ox 90%float) eqn:Hox.
      * apply andb_true_iff in Hox as [_ Hox]. rewrite Hox. reflexivity.
      * destruct (VitalReading.temperature r) as [te|]; [| cbn in H; lia].
        destruct (number_truthy te && (lt te 96.5%float || gt te 101%float)) eqn:Hte;
          [| cbn in H; lia].
        apply andb_true_iff in Hte as [_ Hte].
        rewrite (flagged_temperature_violates te Hte), !orb_true_r. reflexivity.
    + destruct (VitalReading.temperature r) as [te|]; [| cbn in H; lia].
      destruct (number_truthy te && (lt te 96.5%float || gt te 101%float)) eqn:Hte;
        [| cbn in H; lia].
      apply andb_true_iff in Hte as [_ Hte].
      rewrite (flagged_temperature_violates te Hte), !orb_true_r. reflexivity.
Qed.

(** X8. The severity classifier never outruns the threshold evaluator:
    a vitals record whose severity is not [low], or whose message names
    an issue, is an emergency under the default thresholds.  The converse
    fails: a heart rate of 110 alone is an emergency of severity [low]
    with the generic message. *)
Theorem severity_implies_emergency :
  (forall r, Sos.calculateVitalsSeverity r <> low ->
     Vitals.checkVitalThresholds r Vitals.DEFAULT_THRESHOLDS = true)
  /\ (forall numberToString r,
        Sos.generateVitalsMessage numberToString r <> "Abnormal vital signs detected" ->
        Vitals.checkVitalThresholds r Vitals.DEFAULT_THRESHOLDS = true)
  /\ (Vitals.checkVitalThresholds mild_tachycardia Vitals.DEFAULT_THRESHOLDS = true
      /\ Sos.calculateVitalsSeverity mild_tachycardia = low
      /\ Sos.generateVitalsMessage opaqueNumber mild_tachycardia
         = "Abnormal vital signs detected").
Proof.
  split; [| split].
  - intros r Hsev. apply counted_is_emergency.
    rewrite calculateVitalsSeverity_counts in Hsev. unfold severityPolicy in Hsev.
    destruct (Band.criticalCount r) as [|c]; [| lia].
    destruct (Band.warningCount r) as [|[|k]]; [| | lia]; cbn in Hsev; congruence.
  - intros numberToString r Hmsg. apply counted_is_emergency.
    destruct (Nat.eq_dec (Band.criticalCount r + Band.warningCount r) 0) as [H0 | H0];
      [| lia].
    exfalso. apply Hmsg. apply generic_message_iff_nothing_counted. exact H0.
  - vm_compute. repeat split; reflexivity.
Qed.

(** ** The status badges and the threshold evaluator *)

(** X11. On the patient dashboard a metric shown is flagged [critical]
    exactly when it is truthy and violates its default range, and a
    metric that is absent, 0 or NaN is shown as [unknown].  Hence, for a
    reading without blood pressure whose metrics are all truthy, the
    reading is an emergency if and only if one of the three badges is
    [critical]; a heart rate of 0 is an emergency shown as [unknown]. *)
Theorem patient_badges_agree_with_thresholds :
  (forall type value,
     truthy value = false -> PatientDashboard.getVitalStatus type value = "unknown")
  /\ (forall r,
        VitalReading.bloodPressure r = None ->
        truthy (VitalReading.heartRate r) = true ->
        truthy (VitalReading.oxygenSaturation r) = true ->
        truthy (VitalReading.temperature r) = true ->
        (Vitals.checkVitalThresholds r Vitals.DEFAULT_THRESHOLDS = true <->
         PatientDashboard.getVitalStatus "heartRate" (VitalReading.heartRate r) = "critical"
         \/ PatientDashboard.getVitalStatus "spo2" (VitalReading.oxygenSaturation r) = "critical"
         \/ PatientDashboard.getVitalStatus "temperature" (VitalReading.temperature r)
            = "critical"))
  /\ (Vitals.checkVitalThresholds zero_heart_rate Vitals.DEFAULT_THRESHOLDS = true
      /\ PatientDashboard.getVitalStatus "heartRate" (VitalReading.heartRate zero_heart_rate)
         = "unknown").
Proof.
  split; [| split].
  - intros type value H. unfold PatientDashboard.getVitalStatus. rewrite H. reflexivity.
  - intros r Hbp Hhr Hox Hte.
    rewrite checkVitalThresholds_blocks.
    unfold bloodPressure_check, heartRate_check, oxygenSaturation_check, temperature_check,
      PatientDashboard.getVitalStatus.
    rewrite Hbp, Hhr, Hox, Hte.
    destruct (VitalReading.heartRate r) as [hr|]; [| discriminate Hhr].
    destruct (VitalReading.oxygenSaturation r) as [ox|]; [| discriminate Hox].
    destruct (VitalReading.temperature r) as [te|]; [| discriminate Hte].
    cbn.
    repeat match goal with
           | |- context [PrimFloat.ltb ?a ?b] => destruct (PrimFloat.ltb a b)
           end;
      cbn; split; intros H; try reflexivity; try discriminate H; auto;
      repeat (destruct H as [H | H]; try discriminate H).
  - vm_compute. split; reflexivity.
Qed.

Ltac float_cases :=
  repeat match goal with
         | |- context [PrimFloat.ltb ?a ?b] => destruct (PrimFloat.ltb a b)
         end;
  cbn; intros H; first [reflexivity | discriminate H].

(** X12. On the responder dashboard a metric is flagged [critical]
    exactly when it violates its default range ([warning] and [normal]
    only inside it), zero included: for a reading without blood
    pressure, the reading is an emergency if and only if a present
    metric is flagged [critical]. *)
Theorem responder_badges_agree_with_thresholds r :
  VitalReading.bloodPressure r = None ->
  (Vitals.checkVitalThresholds r Vitals.DEFAULT_THRESHOLDS = true <->
   (exists v, VitalReading.heartRate r = Some v
              /\ ResponderDashboard.getVitalStatus "heartRate" v = "critical")
   \/ (exists v, VitalReading.oxygenSaturation r = Some v
                 /\ ResponderDashboard.getVitalStatus "oxygenSaturation" v = "critical")
   \/ (exists v, VitalReading.temperature r = Some v
                 /\ ResponderDashboard.getVitalStatus "temperature" v = "critical")).
Proof.
  intros Hbp. rewrite checkVitalThresholds_blocks.
  unfold bloodPressure_check, heartRate_check, oxygenSaturation_check, temperature_check,
    ResponderDashboard.getVitalStatus.
  rewrite Hbp, orb_false_r, !orb_true_iff. cbn.
  split.
  - intros [[H | H] | H].
    + destruct (VitalReading.heartRate r) as [v|]; [| discriminate H].
      left. exists v. split; [reflexivity |]. rewrite H. reflexivity.
    + destruct (VitalReading.oxygenSaturation r) as [v|]; [| discriminate H].
      right. left. exists v. split; [reflexivity |]. rewrite H. reflexivity.
    + destruct (VitalReading.temperature r) as [v|]; [| discriminate H].
      right. right. exists v. split; [reflexivity |]. rewrite H. reflexivity.
  - intros [(v & -> & H) | [(v & -> & H) | (v & -> & H)]].
    + left. left. revert H. float_cases.
    + left. right. revert H. float_cases.
    + right. revert H. float_cases.
Qed.

Lemma responder_badges_agree_with_thresholds_witness :
  VitalReading.bloodPressure heart_rate_180 = None
  /\ Vitals.checkVitalThresholds heart_rate_180 Vitals.DEFAULT_THRESHOLDS = true
  /\ ResponderDashboard.getVitalStatus "heartRate" 180%float = "critical".
Proof.
  split; [reflexivity |]. split; [vm_compute; reflexivity |].
  destruct (proj1 (responder_badges_agree_with_thresholds heart_rate_180 eq_refl))
    as [(v & Hv & H) | [(v & Hv & _) | (v & Hv & _)]];
    [vm_compute; reflexivity | | discriminate Hv | discriminate Hv].
  injection Hv as <-. exact H.
Defined.

(** ** The heart-rate characteristic *)

Lemma byte_of_to_N n : (n < 256)%N -> Byte.to_N (byte_of n) = n.
Proof.
  intros Hn. unfold byte_of. destruct (Byte.of_N n) as [b|] eqn:Hb.
  - cbn. apply Byte.to_of_N. exact Hb.
  - apply Byte.of_N_None_iff in Hb. lia.
Qed.

Lemma to_N_bound b : (Byte.to_N b < 256)%N.
Proof. destruct b; vm_compute; reflexivity. Qed.

(** X13. [parseHeartRateData] decodes what a device encodes: for every
    rate below 65536, sent in one byte or in two, and whatever bytes
    follow in the packet, the parsed rate is the rate sent. *)
Theorem parseHeartRateData_decodes n rest :
  (n < 65536)%N ->
  Ble.parseHeartRateData (Some (encodeHeartRate n ++ rest)%list) = inr (Some n).
Proof.
  intros Hn. unfold encodeHeartRate.
  destruct (N.ltb_spec n 256) as [Hsmall | Hbig].
  - cbn. rewrite byte_of_to_N by exact Hsmall. reflexivity.
  - cbn -[N.mul N.add N.div N.modulo].
    rewrite !byte_of_to_N.
    + replace (n mod 256 + 256 * (n / 256))%N with n; [reflexivity |].
      rewrite N.add_comm. apply N.div_mod. lia.
    + apply N.Div0.div_lt_upper_bound. lia.
    + apply N.mod_lt. lia.
Qed.

Lemma parseHeartRateData_decodes_witness :
  (300 < 65536)%N
  /\ Ble.parseHeartRateData (Some (encodeHeartRate 300 ++ [Byte.x10; Byte.x02])%list)
     = inr (Some 300%N).
Proof.
  split; [reflexivity |].
  exact (parseHeartRateData_decodes 300 [Byte.x10; Byte.x02] eq_refl).
Defined.

(** X14. The edges of [parseHeartRateData]: a characteristic without
    value parses to [null]; a value parses to a rate below 65536 (below
    256 when bit 0 of the flags is clear) and is never [null]; and the
    parse throws a [RangeError] exactly when the packet is cut short:
    empty, or shorter than 2 bytes, or than 3 bytes with bit 0 set. *)
Theorem parseHeartRateData_edges value :
  Ble.parseHeartRateData None = inr None
  /\ match Ble.parseHeartRateData (Some value) with
     | inr (Some rate) =>
         (rate < 65536)%N
         /\ exists flags, value !! 0 = Some flags
              /\ if (N.land (Byte.to_N flags) 1 =? 0)%N
                 then (rate < 256)%N /\ 2 <= length value
                 else 3 <= length value
     | inr None => False
     | inl e =>
         e = Ble.RangeError
         /\ match value !! 0 with
            | None => value = []
            | Some flags =>
                if (N.land (Byte.to_N flags) 1 =? 0)%N
                then length value < 2 else length value < 3
            end
     end.
Proof.
  split; [reflexivity |].
  unfold Ble.parseHeartRateData, Ble.getUint8, Ble.getUint16.
  destruct value as [| flags [| lo [| hi rest]]]; cbn -[N.land N.mul N.add N.eqb].
  - split; reflexivity.
  - destruct (N.land (Byte.to_N flags) 1 =? 0)%N; cbn; split; first [reflexivity | lia].
  - destruct (N.land (Byte.to_N flags) 1 =? 0)%N eqn:Hflag; cbn.
    + split; [pose proof (to_N_bound lo); lia |].
      exists flags. rewrite Hflag. split; [reflexivity |].
      split; [apply to_N_bound | lia].
    + split; [reflexivity | lia].
  - destruct (N.land (Byte.to_N flags) 1 =? 0)%N eqn:Hflag; cbn -[N.mul N.add].
    + split; [pose proof (to_N_bound lo); lia |].
      exists flags. rewrite Hflag. split; [reflexivity |].
      split; [apply to_N_bound | lia].
    + split; [pose proof (to_N_bound lo); pose proof (to_N_bound hi); lia |].
      exists flags. rewrite Hflag. split; [reflexivity | lia].
Qed.

(** X15. What the heart-rate listener forwards: nothing when no data
    callback is registered or when the parsed rate is 0; otherwise a
    record that carries the heart rate alone, for the device that sent
    it.  So a forwarded heart rate is between 1 and 65535. *)
Theorem onHeartRateValueChanged_forwards onDataCallback now' deviceId value :
  match Ble.onHeartRateValueChanged onDataCallback now' deviceId value with
  | inr (Some data) =>
      onDataCallback = true
      /\ exists rate,
           Ble.parseHeartRateData value = inr (Some rate)
           /\ (1 <= rate < 65536)%N
           /\ Ble.heartRate data = Some (Ble.number_of_N rate)
           /\ Ble.oxygenSaturation data = None
           /\ Ble.temperature data = None
           /\ Ble.bloodPressure data = None
           /\ Ble.deviceId data = deviceId
  | inr None =>
      onDataCallback = false
      \/ Ble.parseHeartRateData value = inr None
      \/ Ble.parseHeartRateData value = inr (Some 0%N)
  | inl e => Ble.parseHeartRateData value = inl e
  end.
Proof.
  unfold Ble.onHeartRateValueChanged, Ble.parseHeartRateData, Ble.getUint8, Ble.getUint16.
  destruct value as [[| flags [| lo [| hi rest]]] |]; cbn -[N.land N.mul N.add N.eqb];
    try reflexivity; try (right; left; reflexivity);
    destruct (N.land (Byte.to_N flags) 1 =? 0)%N; cbn -[N.mul N.add N.eqb];
    try reflexivity;
    destruct onDataCallback; cbn -[N.mul N.add N.eqb]; try (left; reflexivity);
    match goal with
    | |- context [(?rate =? 0)%N] =>
        destruct (N.eqb_spec rate 0) as [Hz | Hnz]; cbn -[N.mul N.add]
    end;
    try (right; right; rewrite Hz; reflexivity);
    (split; [reflexivity |]); eexists; (split; [reflexivity |]);
    (split; [pose proof (to_N_bound lo); try pose proof (to_N_bound hi); lia |]);
    repeat split; reflexivity.
Qed.

(** ** From the device to the store *)

(** What the data callback does when the store rejects the reading. *)
Lemma onBluetoothData_rejected env patientId data w :
  writeError env VITALS <> None ->
  VitalsContext.onBluetoothData env patientId data w = (w, inr tt).
Proof.
  intros Hrejected.
  unfold VitalsContext.onBluetoothData, try_catch, bind, ret.
  rewrite addVitalReading_run.
  destruct (writeError env VITALS) as [e|]; [reflexivity | contradiction].
Qed.

(** X16. A heart rate that the listener of the monitor forwards reaches
    [addVitalReading] in an object whose [oxygenSaturation],
    [temperature] and [bloodPressure] are [undefined]: the data callback
    names them and the device data lacks them.  The client of config.ts
    refuses such data, so the callback stores nothing (no reading, no
    alert) and returns normally: the heart rate is lost. *)
Theorem ble_heart_rate_is_not_stored env patientId now' deviceId value data w :
  Ble.onHeartRateValueChanged true now' deviceId value = inr (Some data) ->
  refuses_undefined env VITALS (VitalsContext.undefinedProps data) ->
  VitalsContext.undefinedProps data = ["oxygenSaturation"; "temperature"; "bloodPressure"]
  /\ VitalsContext.onBluetoothData env patientId data w = (w, inr tt).
Proof.
  intros Hforwarded Hclient.
  assert (Hundefined : VitalsContext.undefinedProps data
                       = ["oxygenSaturation"; "temperature"; "bloodPressure"]).
  { unfold Ble.onHeartRateValueChanged in Hforwarded.
    destruct (Ble.parseHeartRateData value) as [e | [hr |]]; try discriminate Hforwarded.
    destruct (true && negb (hr =? 0)%N); [| discriminate Hforwarded].
    injection Hforwarded as <-. reflexivity. }
  split; [exact Hundefined |].
  apply onBluetoothData_rejected. apply Hclient.
  rewrite Hundefined. discriminate.
Qed.

Lemma ble_heart_rate_is_not_stored_witness :
  Ble.onHeartRateValueChanged true 1000 "hrm-1" (Some (encodeHeartRate 72))
  = inr (Some monitorData)
  /\ refuses_undefined readOnlyEnv VITALS (VitalsContext.undefinedProps monitorData)
  /\ VitalsContext.onBluetoothData readOnlyEnv "P1" monitorData emptyWorld
     = (emptyWorld, inr tt).
Proof.
  assert (Hforwarded : Ble.onHeartRateValueChanged true 1000 "hrm-1"
                         (Some (encodeHeartRate 72)) = inr (Some monitorData)).
  { vm_compute. reflexivity. }
  assert (Hclient : refuses_undefined readOnlyEnv VITALS
                      (VitalsContext.undefinedProps monitorData)).
  { intros _. discriminate. }
  split; [exact Hforwarded |]. split; [exact Hclient |].
  exact (proj2 (ble_heart_rate_is_not_stored readOnlyEnv "P1" 1000 "hrm-1"
                  (Some (encodeHeartRate 72)) monitorData emptyWorld Hforwarded Hclient)).
Defined.

(** X17. The data callback never throws: when the store rejects the
    write of the reading, the callback returns normally, nothing is
    persisted, and the reading is lost. *)
Theorem onBluetoothData_swallows_failures env patientId data w :
  result_of (VitalsContext.onBluetoothData env patientId data) w = inr tt
  /\ (writeError env VITALS <> None ->
      world_after (VitalsContext.onBluetoothData env patientId data) w = w).
Proof.
  unfold result_of, world_after, VitalsContext.onBluetoothData, try_catch, bind, ret.
  rewrite addVitalReading_run.
  destruct (writeError env VITALS) as [e|]; cbn; [split; reflexivity |].
  destruct (Vitals.checkVitalThresholds _ _); cbn;
    [destruct (writeError env EMERGENCY_ALERTS); cbn |]; split; congruence.
Qed.

Lemma onBluetoothData_swallows_failures_witness :
  writeError readOnlyEnv VITALS <> None
  /\ result_of (VitalsContext.onBluetoothData readOnlyEnv "P1" monitorData) emptyWorld = inr tt
  /\ world_after (VitalsContext.onBluetoothData readOnlyEnv "P1" monitorData) emptyWorld
     = emptyWorld.
Proof.
  assert (Hrejected : writeError readOnlyEnv VITALS <> None) by discriminate.
  split; [exact Hrejected |].
  split.
  - exact (proj1 (onBluetoothData_swallows_failures readOnlyEnv "P1" monitorData emptyWorld)).
  - exact (proj2 (onBluetoothData_swallows_failures readOnlyEnv "P1" monitorData emptyWorld)
             Hrejected).
Defined.

(** ** The provider's emergency functions *)

(** X18. The provider's [triggerSOS] turns every failure answer of the
    manager into a thrown error that it also records: while a session is
    active it throws ['SOS already active'] (no alert is created), and
    when the store rejects the alert it throws the manager's ['Failed to
    send emergency alert: ...'] message; in both cases [loading] is back
    to [false] and the flag [isSOSActive] of the provider is unchanged.
    Without a patient id it throws ['Patient ID not found'] before
    touching anything.  On success the provider's flag is set. *)
Theorem provider_triggerSOS_outcomes env patientId message st w :
  (opt_string_truthy patientId = false ->
   VitalsContext.triggerSOS env patientId message st w
   = ((st, w), inl (mkError "Patient ID not found")))
  /\ (opt_string_truthy patientId = true ->
      isSOSActive (sos w) = true ->
      VitalsContext.triggerSOS env patientId message st w
      = ((VitalsContext.mkState (VitalsContext.isSOSActive st) false
            (Some "SOS already active"), w),
         inl (mkError "SOS already active")))
  /\ (opt_string_truthy patientId = true ->
      isSOSActive (sos w) = false ->
      forall e, writeError env EMERGENCY_ALERTS = Some e ->
      exists w',
        VitalsContext.triggerSOS env patientId message st w
        = ((VitalsContext.mkState (VitalsContext.isSOSActive st) false
              (Some (SOSResponse.message (failedToSend e))), w'),
           inl (mkError (SOSResponse.message (failedToSend e))))
        /\ db w' = db w /\ isSOSActive (sos w') = false)
  /\ (opt_string_truthy patientId = true ->
      isSOSActive (sos w) = false ->
      writeError env EMERGENCY_ALERTS = None ->
      exists w',
        VitalsContext.triggerSOS env patientId message st w
        = ((VitalsContext.mkState true false (VitalsContext.error st), w'), inr tt)
        /\ isSOSActive (sos w') = true).
Proof.
  unfold VitalsContext.triggerSOS.
  split; [intros ->; reflexivity |].
  split; [| split].
  - intros -> Hactive. cbn [negb]. rewrite triggerSOS_run, Hactive. reflexivity.
  - intros -> Hidle e He. cbn [negb]. rewrite triggerSOS_run, Hidle, He.
    eexists. split; [reflexivity |]. split; reflexivity.
  - intros -> Hidle Hw. cbn [negb]. rewrite triggerSOS_run, Hidle, Hw.
    eexists. split; [reflexivity |]. reflexivity.
Qed.

Lemma provider_triggerSOS_outcomes_witness :
  isSOSActive (sos sosActiveWorld) = true
  /\ VitalsContext.triggerSOS quietEnv (Some "P1") None
       (VitalsContext.mkState true false None) sosActiveWorld
     = ((VitalsContext.mkState true false (Some "SOS already active"), sosActiveWorld),
        inl (mkError "SOS already active")).
Proof.
  split; [reflexivity |].
  exact (proj1 (proj2 (provider_triggerSOS_outcomes quietEnv (Some "P1") None
                         (VitalsContext.mkState true false None) sosActiveWorld))
           eq_refl eq_refl).
Defined.

(** X19. The patient's subscription callback dispatches a vitals alert
    each time it is run on a snapshot whose first reading is flagged as
    an emergency: delivering the same snapshot twice leaves two alerts
    (the store accepting the writes).  A snapshot that is empty, or whose
    first reading is not flagged, changes nothing. *)
Theorem onPatientVitals_dispatches_each_time env numberToString patientId latest older w :
  (VitalReading.isEmergency latest = Some true ->
   writeError env EMERGENCY_ALERTS = None ->
   let deliver := VitalsContext.onPatientVitals env numberToString patientId (latest :: older) in
   size (emergencyAlerts (db (world_after deliver w)))
   = S (size (emergencyAlerts (db w)))
   /\ size (emergencyAlerts (db (world_after deliver (world_after deliver w))))
      = S (S (size (emergencyAlerts (db w)))))
  /\ (VitalReading.isEmergency latest <> Some true ->
      VitalsContext.onPatientVitals env numberToString patientId (latest :: older) w
      = (w, inr tt))
  /\ VitalsContext.onPatientVitals env numberToString patientId [] w = (w, inr tt).
Proof.
  split; [| split].
  - intros Hem Hw. cbn zeta. unfold world_after, VitalsContext.onPatientVitals.
    rewrite Hem. unfold try_catch, bind, ret.
    rewrite !triggerVitalsAlert_run, ?Hw. cbv beta iota zeta delta [fst snd].
    rewrite ?triggerVitalsAlert_run, ?Hw. cbn.
    rewrite !map_size_insert_None by apply newDocId_fresh.
    split; reflexivity.
  - intros Hne. unfold VitalsContext.onPatientVitals.
    destruct (VitalReading.isEmergency latest) as [[|]|]; first [congruence | reflexivity].
  - reflexivity.
Qed.

Lemma onPatientVitals_dispatches_each_time_witness :
  VitalReading.isEmergency flaggedReading = Some true
  /\ size (emergencyAlerts (db (world_after
             (VitalsContext.onPatientVitals quietEnv opaqueNumber "P1" [flaggedReading])
             (world_after
                (VitalsContext.onPatientVitals quietEnv opaqueNumber "P1" [flaggedReading])
                emptyWorld)))) = 2%nat.
Proof.
  split; [reflexivity |].
  exact (proj2 (proj1 (onPatientVitals_dispatches_each_time quietEnv opaqueNumber "P1"
                         flaggedReading [] emptyWorld) eq_refl eq_refl)).
Defined.

(** ** Family connections *)

Lemma firstUserMatching_ok : Accounts.query_ok accountsEnv.
Proof.
  intros us p. cbn. unfold firstUserMatching.
  destruct (head _) as [[k u]|] eqn:Hhead.
  - apply head_Some_elem_of in Hhead. apply list_elem_of_filter in Hhead as [Hp Hin].
    apply elem_of_map_to_list in Hin. split; [exact Hin | exact Hp].
  - intros k u Hku Hp. apply head_None in Hhead.
    assert (Hin : (k, u) ∈ filter (fun kv : string * Accounts.UserData =>
                                     Accounts.patientId kv.2 = Some p) (map_to_list us)).
    { apply list_elem_of_filter. split; [exact Hp |]. apply elem_of_map_to_list. exact Hku. }
    rewrite Hhead in Hin. apply elem_of_nil in Hin. exact Hin.
Qed.

Lemma usersReadOnly_query_ok : Accounts.query_ok usersReadOnlyEnv.
Proof. exact firstUserMatching_ok. Qed.

(** What [createFamilyConnection] does, by the answers of the store. *)
Lemma createFamilyConnection_run env familyUserId p s :
  let docRef := newDocId (Accounts.familyConnections s) in
  Accounts.createFamilyConnection env familyUserId p s =
  match Accounts.readError env Accounts.USERS with
  | Some e => (s, inl e)
  | None =>
      match Accounts.firstUserByPatientId env (Accounts.users s) p with
      | None => (s, inl (mkError "Patient not found"))
      | Some (patientDocId, _) =>
          match Accounts.writeError env Accounts.FAMILY_CONNECTIONS with
          | Some e => (s, inl e)
          | None =>
              let connections :=
                <[docRef := connectionDoc env docRef familyUserId p patientDocId]>
                  (Accounts.familyConnections s) in
              let connected := connectedPatientsOf s familyUserId in
              if bool_decide (p ∈ connected)
              then (Accounts.mkStore (Accounts.users s) connections, inr docRef)
              else
                match Accounts.writeError env Accounts.USERS with
                | Some e => (Accounts.mkStore (Accounts.users s) connections, inl e)
                | None =>
                    (Accounts.mkStore
                       (<[familyUserId :=
                            Accounts.merge
                              (default Accounts.no_user_data (Accounts.users s !! familyUserId))
                              (Accounts.mkUserData None None None None None
                                 (Some (connected ++ [p])%list) None
                                 (Some (Accounts.now env)))]> (Accounts.users s))
                       connections,
                     inr docRef)
                end
          end
      end
  end.
Proof.
  cbn zeta.
  unfold Accounts.createFamilyConnection, Accounts.findUserByPatientId,
    Accounts.getUserProfile, Accounts.updateUserProfile, connectedPatientsOf,
    connectionDoc, Accounts.with_connections, Accounts.with_users,
    op_try, op_bind, op_ret, op_throw.
  destruct (Accounts.readError env Accounts.USERS) as [e|]; [reflexivity |].
  destruct (Accounts.firstUserByPatientId env (Accounts.users s) p) as [[k u]|];
    [| reflexivity].
  destruct (Accounts.writeError env Accounts.FAMILY_CONNECTIONS) as [e|]; [reflexivity |].
  cbn.
  destruct (Accounts.users s !! familyUserId) as [fu|] eqn:Hfu; cbn;
    case_bool_decide; cbn; try reflexivity;
    destruct (Accounts.writeError env Accounts.USERS); try reflexivity;
    change (gmap_lookup familyUserId (Accounts.users s))
      with (Accounts.users s !! familyUserId) in Hfu; rewrite ?Hfu; reflexivity.
Qed.

(** X20. [createFamilyConnection] for a patient id that no user has
    fails with ['Patient not found'] and writes nothing. *)
Theorem createFamilyConnection_unknown_patient env familyUserId p s :
  Accounts.query_ok env ->
  Accounts.readError env Accounts.USERS = None ->
  (forall k u, Accounts.users s !! k = Some u -> Accounts.patientId u <> Some p) ->
  Accounts.createFamilyConnection env familyUserId p s
  = (s, inl (mkError "Patient not found")).
Proof.
  intros Hq Hr Hnone. rewrite createFamilyConnection_run, Hr.
  specialize (Hq (Accounts.users s) p).
  destruct (Accounts.firstUserByPatientId env (Accounts.users s) p) as [[k u]|];
    [| reflexivity].
  destruct Hq as [Hku Hp]. exfalso. exact (Hnone k u Hku Hp).
Qed.

Lemma createFamilyConnection_unknown_patient_witness :
  Accounts.readError accountsEnv Accounts.USERS = None
  /\ Accounts.createFamilyConnection accountsEnv "uid-f" "P-404" twoUsers
     = (twoUsers, inl (mkError "Patient not found")).
Proof.
  split; [reflexivity |].
  apply (createFamilyConnection_unknown_patient accountsEnv "uid-f" "P-404" twoUsers
           firstUserMatching_ok eq_refl).
  intros k u Hku. unfold twoUsers in Hku. cbn in Hku.
  apply lookup_insert_Some in Hku as [[_ <-] | [_ Hku]]; [discriminate |].
  apply lookup_singleton_Some in Hku as [_ <-]. discriminate.
Defined.

(** X21. [createFamilyConnection] for the patient id of an existing
    user, when the store accepts everything: one connection document is
    added, [active], from the family user to the patient id, naming a
    user document that has this patient id; afterwards the family user's
    list of connected patients contains the patient, keeps the patients
    it had in their order, and gains no duplicate. *)
Theorem createFamilyConnection_connects env familyUserId p s k0 u0 :
  Accounts.query_ok env ->
  Accounts.readError env Accounts.USERS = None ->
  Accounts.writeError env Accounts.USERS = None ->
  Accounts.writeError env Accounts.FAMILY_CONNECTIONS = None ->
  Accounts.users s !! k0 = Some u0 -> Accounts.patientId u0 = Some p ->
  let s' := (Accounts.createFamilyConnection env familyUserId p s).1 in
  let before := connectedPatientsOf s familyUserId in
  exists docRef patientDocId patientDoc',
    (Accounts.createFamilyConnection env familyUserId p s).2 = inr docRef
    /\ Accounts.familyConnections s !! docRef = None
    /\ Accounts.familyConnections s'
       = <[docRef := connectionDoc env docRef familyUserId p patientDocId]>
           (Accounts.familyConnections s)
    /\ Accounts.users s !! patientDocId = Some patientDoc'
    /\ Accounts.patientId patientDoc' = Some p
    /\ connectedPatientsOf s' familyUserId
       = (if bool_decide (p ∈ before) then before else before ++ [p])%list
    /\ p ∈ connectedPatientsOf s' familyUserId
    /\ (NoDup before -> NoDup (connectedPatientsOf s' familyUserId)).
Proof.
  intros Hq Hr Hwu Hwc Hk0 Hp0. cbn zeta.
  rewrite createFamilyConnection_run, Hr, Hwc, Hwu.
  specialize (Hq (Accounts.users s) p).
  destruct (Accounts.firstUserByPatientId env (Accounts.users s) p) as [[k u]|];
    [| exfalso; exact (Hq k0 u0 Hk0 Hp0)].
  destruct Hq as [Hku Hpu]. cbn zeta.
  exists (newDocId (Accounts.familyConnections s)), k, u.
  case_bool_decide as Hin; cbn.
  - split; [reflexivity |]. split; [apply newDocId_fresh |]. split; [reflexivity |].
    split; [exact Hku |]. split; [exact Hpu |]. split; [reflexivity |].
    split; [exact Hin | tauto].
  - assert (Hafter : connectedPatientsOf
                       (Accounts.mkStore
                          (<[familyUserId :=
                               Accounts.merge
                                 (default Accounts.no_user_data
                                    (Accounts.users s !! familyUserId))
                                 (Accounts.mkUserData None None None None None
                                    (Some (connectedPatientsOf s familyUserId ++ [p])%list)
                                    None (Some (Accounts.now env)))]> (Accounts.users s))
                          (<[newDocId (Accounts.familyConnections s) :=
                               connectionDoc env (newDocId (Accounts.familyConnections s))
                                 familyUserId p k]> (Accounts.familyConnections s)))
                       familyUserId
                     = (connectedPatientsOf s familyUserId ++ [p])%list).
    { unfold connectedPatientsOf at 1. cbn. rewrite lookup_insert_eq. reflexivity. }
    rewrite Hafter.
    split; [reflexivity |]. split; [apply newDocId_fresh |]. split; [reflexivity |].
    split; [exact Hku |]. split; [exact Hpu |]. split; [reflexivity |].
    split; [apply elem_of_app; right; apply list_elem_of_singleton; reflexivity |].
    intros Hnd. apply NoDup_app. split; [exact Hnd |].
    split; [| apply NoDup_singleton].
    intros x Hx Hx'. apply list_elem_of_singleton in Hx'. subst x. exact (Hin Hx).
Qed.

Lemma createFamilyConnection_connects_witness :
  Accounts.readError accountsEnv Accounts.USERS = None
  /\ Accounts.users twoUsers !! "uid-p" = Some patientDoc
  /\ "P-1" ∈ connectedPatientsOf
               (Accounts.createFamilyConnection accountsEnv "uid-f" "P-1" twoUsers).1 "uid-f".
Proof.
  assert (Hp : Accounts.users twoUsers !! "uid-p" = Some patientDoc)
    by (vm_compute; reflexivity).
  split; [reflexivity |]. split; [exact Hp |].
  destruct (createFamilyConnection_connects accountsEnv "uid-f" "P-1" twoUsers "uid-p"
              patientDoc firstUserMatching_ok eq_refl eq_refl eq_refl Hp eq_refl)
    as (docRef & k & u & _ & _ & _ & _ & _ & _ & Hin & _).
  exact Hin.
Defined.

(** The outcome of [createFamilyConnection] when the patient exists and
    the store accepts every read and write. *)
Lemma createFamilyConnection_accepted env familyUserId p s k0 u0 :
  Accounts.query_ok env ->
  Accounts.readError env Accounts.USERS = None ->
  Accounts.writeError env Accounts.USERS = None ->
  Accounts.writeError env Accounts.FAMILY_CONNECTIONS = None ->
  Accounts.users s !! k0 = Some u0 -> Accounts.patientId u0 = Some p ->
  exists k,
    Accounts.createFamilyConnection env familyUserId p s
    = (Accounts.mkStore
         (if bool_decide (p ∈ connectedPatientsOf s familyUserId)
          then Accounts.users s
          else <[familyUserId :=
                   Accounts.merge
                     (default Accounts.no_user_data (Accounts.users s !! familyUserId))
                     (Accounts.mkUserData None None None None None
                        (Some (connectedPatientsOf s familyUserId ++ [p])%list) None
                        (Some (Accounts.now env)))]> (Accounts.users s))
         (<[newDocId (Accounts.familyConnections s) :=
              connectionDoc env (newDocId (Accounts.familyConnections s))
                familyUserId p k]> (Accounts.familyConnections s)),
       inr (newDocId (Accounts.familyConnections s))).
Proof.
  intros Hq Hr Hwu Hwc Hk0 Hp0.
  rewrite createFamilyConnection_run, Hr, Hwc, Hwu.
  specialize (Hq (Accounts.users s) p).
  destruct (Accounts.firstUserByPatientId env (Accounts.users s) p) as [[k u]|];
    [| exfalso; exact (Hq k0 u0 Hk0 Hp0)].
  exists k. cbn zeta. case_bool_decide; reflexivity.
Qed.

(** X22. [createFamilyConnection] does not look for an existing
    connection: a second call for the same family user and patient
    stores a second connection document under another id, while the
    [users] collection, and with it the family user's list of connected
    patients, stays as the first call left it. *)
Theorem createFamilyConnection_twice env familyUserId p s k0 u0 :
  Accounts.query_ok env ->
  Accounts.readError env Accounts.USERS = None ->
  Accounts.writeError env Accounts.USERS = None ->
  Accounts.writeError env Accounts.FAMILY_CONNECTIONS = None ->
  Accounts.users s !! k0 = Some u0 -> Accounts.patientId u0 = Some p ->
  let first := Accounts.createFamilyConnection env familyUserId p s in
  let second := Accounts.createFamilyConnection env familyUserId p first.1 in
  exists d1 d2 c1 c2,
    first.2 = inr d1 /\ second.2 = inr d2 /\ d1 <> d2
    /\ Accounts.familyConnections second.1 !! d1 = Some c1
    /\ Accounts.familyConnections second.1 !! d2 = Some c2
    /\ Accounts.c_familyUserId c1 = Accounts.c_familyUserId c2
    /\ Accounts.c_patientId c1 = Accounts.c_patientId c2
    /\ size (Accounts.familyConnections second.1)
       = (size (Accounts.familyConnections s) + 2)%nat
    /\ Accounts.users second.1 = Accounts.users first.1.
Proof.
  intros Hq Hr Hwu Hwc Hk0 Hp0. cbn zeta.
  destruct (createFamilyConnection_accepted env familyUserId p s k0 u0
              Hq Hr Hwu Hwc Hk0 Hp0) as [k1 E1].
  rewrite E1. cbn [fst snd].
  set (s1 := Accounts.mkStore _ _) in *.
  assert (Hlisted : p ∈ connectedPatientsOf s1 familyUserId).
  { unfold s1, connectedPatientsOf at 1. cbn [Accounts.users].
    case_bool_decide as Hin; [exact Hin |].
    rewrite lookup_insert_eq. cbn.
    apply elem_of_app. right. apply list_elem_of_singleton. reflexivity. }
  assert (Hpatient : exists u1, Accounts.users s1 !! k0 = Some u1
                                /\ Accounts.patientId u1 = Some p).
  { unfold s1. cbn [Accounts.users]. case_bool_decide; [eauto |].
    destruct (decide (familyUserId = k0)) as [-> | Hne].
    - rewrite lookup_insert_eq, Hk0. cbn. eauto.
    - rewrite lookup_insert_ne by exact Hne. eauto. }
  destruct Hpatient as (u1 & Hk1 & Hp1).
  destruct (createFamilyConnection_accepted env familyUserId p s1 k0 u1
              Hq Hr Hwu Hwc Hk1 Hp1) as [k2 E2].
  rewrite E2. cbn [fst snd Accounts.users Accounts.familyConnections].
  rewrite (bool_decide_eq_true_2 _ Hlisted).
  assert (Hfresh2 : Accounts.familyConnections s1
                      !! newDocId (Accounts.familyConnections s1) = None)
    by apply newDocId_fresh.
  assert (Hne : newDocId (Accounts.familyConnections s)
                <> newDocId (Accounts.familyConnections s1)).
  { intros Heq. rewrite <- Heq in Hfresh2. unfold s1 in Hfresh2.
    cbn [Accounts.familyConnections] in Hfresh2.
    rewrite lookup_insert_eq in Hfresh2. discriminate Hfresh2. }
  eexists _, _, _, _.
  split; [reflexivity |]. split; [reflexivity |]. split; [exact Hne |].
  split.
  { rewrite lookup_insert_ne by (intros Heq; exact (Hne (eq_sym Heq))).
    unfold s1. cbn [Accounts.familyConnections]. apply lookup_insert_eq. }
  split; [apply lookup_insert_eq |].
  split; [reflexivity |]. split; [reflexivity |].
  split; [| reflexivity].
  rewrite map_size_insert_None by exact Hfresh2.
  unfold s1. cbn [Accounts.familyConnections].
  rewrite map_size_insert_None by apply newDocId_fresh. lia.
Qed.

Lemma createFamilyConnection_twice_witness :
  Accounts.users twoUsers !! "uid-p" = Some patientDoc
  /\ Accounts.patientId patientDoc = Some "P-1"
  /\ size (Accounts.familyConnections
             (Accounts.createFamilyConnection accountsEnv "uid-f" "P-1"
                (Accounts.createFamilyConnection accountsEnv "uid-f" "P-1" twoUsers).1).1)
     = 2%nat.
Proof.
  assert (Hp : Accounts.users twoUsers !! "uid-p" = Some patientDoc)
    by (vm_compute; reflexivity).
  split; [exact Hp |]. split; [reflexivity |].
  destruct (createFamilyConnection_twice accountsEnv "uid-f" "P-1" twoUsers "uid-p"
              patientDoc firstUserMatching_ok eq_refl eq_refl eq_refl Hp eq_refl)
    as (d1 & d2 & c1 & c2 & _ & _ & _ & _ & _ & _ & _ & Hsize & _).
  exact Hsize.
Defined.

(** X23. The two writes of [createFamilyConnection] are not one
    transaction: when the [users] collection rejects the update of the
    family user, the call fails with that error, the [users] collection
    is as before, and the connection document that was written first
    stays in the store. *)
Theorem createFamilyConnection_is_not_atomic env familyUserId p s k0 u0 e :
  Accounts.query_ok env ->
  Accounts.readError env Accounts.USERS = None ->
  Accounts.writeError env Accounts.FAMILY_CONNECTIONS = None ->
  Accounts.writeError env Accounts.USERS = Some e ->
  Accounts.users s !! k0 = Some u0 -> Accounts.patientId u0 = Some p ->
  p ∉ connectedPatientsOf s familyUserId ->
  let r := Accounts.createFamilyConnection env familyUserId p s in
  r.2 = inl e
  /\ Accounts.users r.1 = Accounts.users s
  /\ exists docRef c,
       Accounts.familyConnections s !! docRef = None
       /\ Accounts.familyConnections r.1 = <[docRef := c]> (Accounts.familyConnections s)
       /\ Accounts.c_familyUserId c = familyUserId
       /\ Accounts.c_patientId c = p
       /\ Accounts.c_status c = "active".
Proof.
  intros Hq Hr Hwc Hwu Hk0 Hp0 Hnew. cbn zeta.
  rewrite createFamilyConnection_run, Hr, Hwc, Hwu.
  specialize (Hq (Accounts.users s) p).
  destruct (Accounts.firstUserByPatientId env (Accounts.users s) p) as [[k u]|];
    [| exfalso; exact (Hq k0 u0 Hk0 Hp0)].
  cbn zeta. rewrite (bool_decide_eq_false_2 _ Hnew). cbn.
  split; [reflexivity |]. split; [reflexivity |].
  eexists _, _. split; [apply newDocId_fresh |].
  split; [reflexivity |]. split; [reflexivity |]. split; reflexivity.
Qed.

Lemma createFamilyConnection_is_not_atomic_witness :
  Accounts.writeError usersReadOnlyEnv Accounts.USERS = Some (mkError "permission-denied")
  /\ (Accounts.createFamilyConnection usersReadOnlyEnv "uid-f" "P-1" twoUsers).2
     = inl (mkError "permission-denied")
  /\ size (Accounts.familyConnections
             (Accounts.createFamilyConnection usersReadOnlyEnv "uid-f" "P-1" twoUsers).1)
     = 1%nat.
Proof.
  assert (Hp : Accounts.users twoUsers !! "uid-p" = Some patientDoc)
    by (vm_compute; reflexivity).
  assert (Hnew : "P-1" ∉ connectedPatientsOf twoUsers "uid-f").
  { vm_compute. intros H. inversion H. }
  destruct (createFamilyConnection_is_not_atomic usersReadOnlyEnv "uid-f" "P-1" twoUsers
              "uid-p" patientDoc (mkError "permission-denied")
              usersReadOnly_query_ok eq_refl eq_refl eq_refl Hp eq_refl Hnew)
    as (Hres & _ & docRef & c & Hfresh & Hconn & _).
  split; [reflexivity |]. split; [exact Hres |].
  rewrite Hconn. rewrite map_size_insert_None by exact Hfresh. reflexivity.
Defined.

(** X24. A patient who signs up gets the generated patient id, in the
    returned data and in the stored document; a family user can then be
    connected with that id: [createFamilyConnection] finds the patient
    and returns a connection id. *)
Theorem signUp_patient_can_be_connected env email password displayName user familyUserId s :
  Accounts.query_ok env ->
  Accounts.createUser env email password = inr user ->
  Accounts.updateProfileError env = None ->
  Accounts.readError env Accounts.USERS = None ->
  Accounts.writeError env Accounts.USERS = None ->
  Accounts.writeError env Accounts.FAMILY_CONNECTIONS = None ->
  let signedUp := Accounts.signUpUser env email password Accounts.patient displayName s in
  exists userData stored docRef,
    signedUp.2 = inr userData
    /\ Accounts.patientId userData = Some (Accounts.generatePatientId env)
    /\ Accounts.connectedPatients userData = None
    /\ Accounts.users signedUp.1 !! Accounts.a_uid user = Some stored
    /\ Accounts.patientId stored = Some (Accounts.generatePatientId env)
    /\ Accounts.familyConnections signedUp.1 = Accounts.familyConnections s
    /\ (Accounts.createFamilyConnection env familyUserId
          (Accounts.generatePatientId env) signedUp.1).2 = inr docRef.
Proof.
  intros Hq Hc Hu Hr Hwu Hwc. cbn zeta.
  assert (E : exists userData stored,
             Accounts.signUpUser env email password Accounts.patient displayName s
             = (Accounts.mkStore (<[Accounts.a_uid user := stored]> (Accounts.users s))
                  (Accounts.familyConnections s), inr userData)
             /\ Accounts.patientId userData = Some (Accounts.generatePatientId env)
             /\ Accounts.connectedPatients userData = None
             /\ Accounts.patientId stored = Some (Accounts.generatePatientId env)).
  { unfold Accounts.signUpUser, Accounts.createUserProfile, Accounts.with_users,
      op_try, op_bind, op_ret, op_throw.
    rewrite Hc, Hu, Hwu.
    destruct (opt_string_truthy displayName); cbn;
      eexists _, _; (split; [reflexivity |]); cbn; repeat split; reflexivity. }
  destruct E as (userData & stored & E & Hpid & Hcp & Hstored).
  rewrite E. cbn [fst snd Accounts.users Accounts.familyConnections].
  set (s1 := Accounts.mkStore _ _).
  assert (Hk : Accounts.users s1 !! Accounts.a_uid user = Some stored)
    by (unfold s1; cbn [Accounts.users]; apply lookup_insert_eq).
  destruct (createFamilyConnection_accepted env familyUserId
              (Accounts.generatePatientId env) s1 (Accounts.a_uid user) stored
              Hq Hr Hwu Hwc Hk Hstored) as [k E2].
  exists userData, stored, (newDocId (Accounts.familyConnections s1)).
  rewrite E2. cbn [snd].
  split; [reflexivity |]. split; [exact Hpid |]. split; [exact Hcp |].
  split; [exact Hk |]. split; [exact Hstored |]. split; reflexivity.
Qed.

Lemma signUp_patient_can_be_connected_witness :
  Accounts.createUser accountsEnv "new@example.org" "secret"
  = inr (Accounts.mkAuthUser "uid-new" "new@example.org" None)
  /\ exists docRef,
       (Accounts.createFamilyConnection accountsEnv "uid-f" "P-LX3K9A-7QF2ZD"
          (Accounts.signUpUser accountsEnv "new@example.org" "secret" Accounts.patient
             (Some "New") twoUsers).1).2 = inr docRef.
Proof.
  split; [reflexivity |].
  destruct (signUp_patient_can_be_connected accountsEnv "new@example.org" "secret"
              (Some "New") (Accounts.mkAuthUser "uid-new" "new@example.org" None)
              "uid-f" twoUsers firstUserMatching_ok eq_refl eq_refl eq_refl eq_refl eq_refl)
    as (userData & stored & docRef & _ & _ & _ & _ & _ & _ & Hconn).
  exists docRef. exact Hconn.
Defined.

(** ** Medical profiles *)

Lemma fold_contactErrors (l : list (nat * Medical.Contact.t)) (acc : list string) :
  fold_left
    (fun errors '(index, contact) =>
       let errors :=
         if negb (string_truthy (Medical.Contact.name contact))
         then Sos.push errors
                ("Emergency contact " ++ pretty (index + 1)%nat ++ ": Name is required")
         else errors in
       if negb (string_truthy (Medical.Contact.phoneNumber contact))
       then Sos.push errors
              ("Emergency contact " ++ pretty (index + 1)%nat
               ++ ": Phone number is required")
       else errors)
    l acc
  = (acc ++ flat_map contactErrors l)%list.
Proof.
  revert acc. induction l as [| [index contact] l IH]; intros acc; cbn [fold_left flat_map].
  - symmetry. apply app_nil_r.
  - rewrite IH. unfold contactErrors at 2, Sos.push. cbn [fst snd].
    destruct (string_truthy (Medical.Contact.name contact)),
      (string_truthy (Medical.Contact.phoneNumber contact)); cbn [negb];
      rewrite <- ?app_assoc; reflexivity.
Qed.

(** The list that [validateMedicalProfile] returns, error by error. *)
Lemma validateMedicalProfile_errors patientId emergencyContacts :
  Medical.validateMedicalProfile patientId emergencyContacts
  = app (if opt_string_truthy patientId then [] else ["Patient ID is required"])
      (app (if emergencyContacts is Some []
            then ["At least one emergency contact is required"] else [])
           (if emergencyContacts is Some cs
            then flat_map contactErrors (imap (fun index contact => (index, contact)) cs)
            else [])).
Proof.
  unfold Medical.validateMedicalProfile.
  destruct emergencyContacts as [cs|].
  - rewrite fold_contactErrors. unfold Sos.push.
    destruct (opt_string_truthy patientId), cs; cbn [negb length Nat.eqb app];
      reflexivity.
  - destruct (opt_string_truthy patientId); reflexivity.
Qed.

Lemma contactErrors_nil entry : contactErrors entry = [] <-> reachable entry.2.
Proof.
  unfold contactErrors, reachable.
  destruct (string_truthy (Medical.Contact.name entry.2)),
    (string_truthy (Medical.Contact.phoneNumber entry.2)); cbn; split;
    intros H; try discriminate H; try reflexivity; try (split; reflexivity);
    destruct H; discriminate.
Qed.

Lemma flat_map_contactErrors_nil l :
  flat_map contactErrors l = [] <-> Forall (fun entry => reachable entry.2) l.
Proof.
  induction l as [| entry l IH]; cbn [flat_map].
  - split; [constructor | reflexivity].
  - split.
    + intros H. apply app_eq_nil in H as [H1 H2]. constructor.
      * apply contactErrors_nil. exact H1.
      * apply IH. exact H2.
    + intros H. inversion H as [| ? ? H1 H2]. subst.
      apply contactErrors_nil in H1. apply IH in H2. rewrite H1, H2. reflexivity.
Qed.

(** X25. [validateMedicalProfile] returns no error exactly when the
    patient id is a non-empty string and the emergency contacts are
    either not given or a non-empty list in which every contact has a
    name and a phone number; a contact without a name is reported with
    its position in the list, counted from one. *)
Theorem validateMedicalProfile_accepts_iff patientId emergencyContacts :
  (Medical.validateMedicalProfile patientId emergencyContacts = []
   <-> opt_string_truthy patientId = true
       /\ match emergencyContacts with
          | Some cs => cs <> [] /\ Forall reachable cs
          | None => True
          end)
  /\ (forall cs index contact,
        emergencyContacts = Some cs -> cs !! index = Some contact ->
        string_truthy (Medical.Contact.name contact) = false ->
        ("Emergency contact " ++ pretty (index + 1)%nat ++ ": Name is required")
          ∈ Medical.validateMedicalProfile patientId emergencyContacts).
Proof.
  rewrite validateMedicalProfile_errors. split.
  - split.
    + intros H. apply app_eq_nil in H as [Hp H]. apply app_eq_nil in H as [Hnone Hcs].
      split; [destruct (opt_string_truthy patientId); [reflexivity | discriminate Hp] |].
      destruct emergencyContacts as [cs|]; [| exact I].
      split; [intros ->; discriminate Hnone |].
      apply flat_map_contactErrors_nil in Hcs.
      apply Forall_forall. intros contact Hin.
      apply list_elem_of_lookup in Hin as [index Hindex].
      rewrite Forall_forall in Hcs.
      apply (Hcs (index, contact)).
      apply elem_of_lookup_imap. exists index, contact. split; [reflexivity | exact Hindex].
    + intros [Hp Hcs]. rewrite Hp. cbn [app].
      destruct emergencyContacts as [cs|]; [| reflexivity].
      destruct Hcs as [Hne Hall].
      destruct cs as [| c cs]; [contradiction |]. cbn [app].
      apply flat_map_contactErrors_nil. apply Forall_forall.
      intros entry Hin. apply elem_of_lookup_imap in Hin as (index & contact & -> & Hindex).
      rewrite Forall_forall in Hall. apply Hall.
      apply list_elem_of_lookup. exists index. exact Hindex.
  - intros cs index contact -> Hindex Hname.
    apply elem_of_app. right. apply elem_of_app. right.
    apply list_elem_of_In. apply in_flat_map. exists (index, contact). split.
    + apply list_elem_of_In. apply elem_of_lookup_imap.
      exists index, contact. split; [reflexivity | exact Hindex].
    + unfold contactErrors. cbn [fst snd]. rewrite Hname. cbn [negb].
      apply in_or_app. left. left. reflexivity.
Qed.

Lemma validateMedicalProfile_accepts_iff_witness :
  [primaryContact; namelessContact] !! 1%nat = Some namelessContact
  /\ string_truthy (Medical.Contact.name namelessContact) = false
  /\ "Emergency contact 2: Name is required"
       ∈ Medical.validateMedicalProfile (Some "P-1") (Some [primaryContact; namelessContact]).
Proof.
  split; [reflexivity |]. split; [reflexivity |].
  exact (proj2 (validateMedicalProfile_accepts_iff (Some "P-1")
                  (Some [primaryContact; namelessContact]))
           [primaryContact; namelessContact] 1%nat namelessContact
           eq_refl eq_refl eq_refl).
Defined.

Lemma filter_active_twice (meds : list Medical.Medication.t) :
  List.filter Medical.Medication.active (List.filter Medical.Medication.active meds)
  = List.filter Medical.Medication.active meds.
Proof.
  induction meds as [| med meds IH]; [reflexivity |]. cbn [List.filter].
  destruct (Medical.Medication.active med) eqn:Hactive; [| exact IH].
  cbn [List.filter]. rewrite Hactive, IH. reflexivity.
Qed.

(** X26. The text of [formatMedicalProfile] does not depend on the
    medications that are not active: it is the text of the profile
    without them, and when no medication is active the text is the one
    of the profile without any medication. *)
Theorem formatMedicalProfile_ignores_inactive (profile : Medical.Profile.t) :
  Medical.formatMedicalProfile profile
  = Medical.formatMedicalProfile
      (with_medications profile
         (List.filter Medical.Medication.active (Medical.Profile.medications profile))).
Proof.
  unfold Medical.formatMedicalProfile, with_medications.
  cbn [Medical.Profile.bloodType Medical.Profile.allergies Medical.Profile.medications
       Medical.Profile.medicalConditions].
  rewrite filter_active_twice.
  destruct (List.filter Medical.Medication.active (Medical.Profile.medications profile))
    as [| med meds] eqn:Hactive.
  - clear Hactive. destruct (Medical.Profile.medications profile); reflexivity.
  - assert (Hsome : (0 <? length (Medical.Profile.medications profile))%nat = true).
    { destruct (Medical.Profile.medications profile); [discriminate Hactive | reflexivity]. }
    rewrite Hsome. reflexivity.
Qed.

Lemma firstProfileMatching_ok : Medical.query_ok medicalEnv.
Proof.
  intros ps p. cbn. unfold firstProfileMatching.
  destruct (head _) as [[k d]|] eqn:Hhead.
  - apply head_Some_elem_of in Hhead. apply list_elem_of_filter in Hhead as [Hp Hin].
    apply elem_of_map_to_list in Hin. split; [exact Hin | exact Hp].
  - intros k d Hkd Hp. apply head_None in Hhead.
    assert (Hin : (k, d) ∈ filter (fun kv : string * Medical.Profile.t =>
                                     Medical.Profile.patientId kv.2 = p) (map_to_list ps)).
    { apply list_elem_of_filter. split; [exact Hp |]. apply elem_of_map_to_list. exact Hkd. }
    rewrite Hhead in Hin. apply elem_of_nil in Hin. exact Hin.
Qed.

Lemma oneProfile_the_profile : the_profile oneProfile "P-1" "prof-1" profileDoc.
Proof.
  split; [reflexivity |]. split; [reflexivity |]. split; [reflexivity |].
  intros k' d' Hk' _. unfold oneProfile in Hk'.
  apply lookup_singleton_Some in Hk' as [<- _]. reflexivity.
Qed.

(** The six list operations when the patient has no profile. *)
Lemma withProfile_missing {A} env p (change : Medical.Profile.t -> Medical.Profile.updates * A) s :
  Medical.query_ok env ->
  Medical.readError env = None ->
  (forall k d, s !! k = Some d -> Medical.Profile.patientId d <> p) ->
  Medical.withProfile env p change s = (s, inl (mkError "Medical profile not found")).
Proof.
  intros Hq Hr Hnone.
  unfold Medical.withProfile, Medical.getMedicalProfile, op_try, op_bind, op_throw.
  rewrite Hr. specialize (Hq s p).
  destruct (Medical.firstProfileOf env s p) as [[k d]|]; [| reflexivity].
  destruct Hq as [Hkd Hp]. exfalso. exact (Hnone k d Hkd Hp).
Qed.

(** The six list operations on the one profile of the patient, when
    the store accepts the read and the write. *)
Lemma withProfile_run {A} env p (change : Medical.Profile.t -> Medical.Profile.updates * A)
    s k d :
  Medical.query_ok env ->
  Medical.readError env = None ->
  Medical.writeError env = None ->
  the_profile s p k d ->
  Medical.withProfile env p change s
  = (<[k := Medical.Profile.apply d (change (fetched k d)).1 (Medical.now env)]> s,
     inr (change (fetched k d)).2).
Proof.
  intros Hq Hr Hw (Hkd & Hp & Hid & Hunique).
  unfold Medical.withProfile, Medical.getMedicalProfile, Medical.updateMedicalProfile,
    op_try, op_bind, op_throw, op_ret.
  rewrite Hr. specialize (Hq s p).
  destruct (Medical.firstProfileOf env s p) as [[k' d']|];
    [| exfalso; exact (Hq k d Hkd Hp)].
  destruct Hq as [Hkd' Hp'].
  assert (k' = k) by exact (Hunique k' d' Hkd' Hp'). subst k'.
  assert (d' = d) by congruence. subst d'.
  change (Medical.Profile.mk _ _ _ _ _ _ _ _ _) with (fetched k d).
  destruct (change (fetched k d)) as [u result] eqn:Hchange.
  assert (Hfetched : Medical.Profile.id (fetched k d) = Some k)
    by (unfold fetched; cbn [Medical.Profile.id]; rewrite Hid; reflexivity).
  rewrite Hw, !Hfetched.
  change (default EmptyString (Some k)) with k.
  rewrite Hkd. reflexivity.
Qed.

(** The patient still has one profile after such an operation. *)
Lemma the_profile_after s p k d u t :
  the_profile s p k d ->
  Medical.Profile.u_patientId u = None ->
  the_profile (<[k := Medical.Profile.apply d u t]> s) p k (Medical.Profile.apply d u t).
Proof.
  intros (Hkd & Hp & Hid & Hunique) Hu.
  split; [apply lookup_insert_eq |].
  split; [cbn; rewrite Hu; exact Hp |].
  split; [exact Hid |].
  intros k' d' Hk' Hp'. destruct (decide (k' = k)) as [-> | Hne]; [reflexivity |].
  rewrite lookup_insert_ne in Hk' by (intros Heq; exact (Hne (eq_sym Heq))).
  exact (Hunique k' d' Hk' Hp').
Qed.

(** X27. Without a medical profile of the patient, each of the six list
    operations fails with ['Medical profile not found'] and leaves the
    collection as it was. *)
Theorem list_operations_need_a_profile env p s med medId medUpdates contact contactId
    contactUpdates :
  Medical.query_ok env ->
  Medical.readError env = None ->
  (forall k d, s !! k = Some d -> Medical.Profile.patientId d <> p) ->
  let notFound {A} : gmap string Medical.Profile.t * (JsError + A) :=
    (s, inl (mkError "Medical profile not found")) in
  Medical.addMedication env p med s = notFound
  /\ Medical.updateMedication env p medId medUpdates s = notFound
  /\ Medical.removeMedication env p medId s = notFound
  /\ Medical.addEmergencyContact env p contact s = notFound
  /\ Medical.updateEmergencyContact env p contactId contactUpdates s = notFound
  /\ Medical.removeEmergencyContact env p contactId s = notFound.
Proof.
  intros Hq Hr Hnone. cbn zeta.
  unfold Medical.addMedication, Medical.updateMedication, Medical.removeMedication,
    Medical.addEmergencyContact, Medical.updateEmergencyContact,
    Medical.removeEmergencyContact.
  repeat split; apply withProfile_missing; assumption.
Qed.

Lemma list_operations_need_a_profile_witness :
  Medical.readError medicalEnv = None
  /\ Medical.removeMedication medicalEnv "P-404" "med-1" oneProfile
     = (oneProfile, inl (mkError "Medical profile not found")).
Proof.
  split; [reflexivity |].
  assert (Hnone : forall k d, oneProfile !! k = Some d -> Medical.Profile.patientId d <> "P-404").
  { intros k d Hkd. unfold oneProfile in Hkd.
    apply lookup_singleton_Some in Hkd as [_ <-]. discriminate. }
  exact (proj1 (proj2 (proj2
    (list_operations_need_a_profile medicalEnv "P-404" oneProfile aspirin "med-1"
       (Medical.Medication.mkUpdates None None None None None None None None None)
       primaryContact "c-1"
       (Medical.Contact.mkUpdates None None None None None None None)
       firstProfileMatching_ok eq_refl Hnone)))).
Defined.

(** X28. [removeMedication], on the one profile of the patient and with
    a store that accepts the read and the write, succeeds whether or not
    a medication has the id; afterwards the stored profile has exactly
    the medications whose id differs, in their order (all of them when
    none had the id), its other lists are as before, and no other
    document is touched. *)
Theorem removeMedication_removes_by_id env p medicationId s k d :
  Medical.query_ok env ->
  Medical.readError env = None ->
  Medical.writeError env = None ->
  the_profile s p k d ->
  let r := Medical.removeMedication env p medicationId s in
  r.2 = inr tt
  /\ exists d',
       r.1 = <[k := d']> s
       /\ Medical.Profile.medications d'
          = List.filter (fun med => negb (String.eqb (Medical.Medication.id med) medicationId))
              (Medical.Profile.medications d)
       /\ (forall med, med ∈ Medical.Profile.medications d'
                       <-> med ∈ Medical.Profile.medications d
                           /\ Medical.Medication.id med <> medicationId)
       /\ (Forall (fun med => Medical.Medication.id med <> medicationId)
             (Medical.Profile.medications d)
           -> Medical.Profile.medications d' = Medical.Profile.medications d)
       /\ Medical.Profile.emergencyContacts d' = Medical.Profile.emergencyContacts d
       /\ Medical.Profile.allergies d' = Medical.Profile.allergies d
       /\ Medical.Profile.medicalConditions d' = Medical.Profile.medicalConditions d
       /\ Medical.Profile.patientId d' = Medical.Profile.patientId d
       /\ Medical.Profile.updatedAt d' = Some (Medical.now env).
Proof.
  intros Hq Hr Hw Hprofile. cbn zeta. unfold Medical.removeMedication.
  rewrite (withProfile_run env p _ s k d Hq Hr Hw Hprofile). cbn [fst snd].
  split; [reflexivity |].
  eexists. split; [reflexivity |]. cbn.
  split; [reflexivity |].
  split.
  { intros med. rewrite !list_elem_of_In, filter_In, negb_true_iff, String.eqb_neq.
    reflexivity. }
  split.
  { intros Hall. induction Hall as [| med meds Hmed _ IH]; [reflexivity |].
    cbn [List.filter]. apply String.eqb_neq in Hmed. rewrite Hmed. cbn [negb].
    rewrite IH. reflexivity. }
  repeat split; reflexivity.
Qed.

Lemma removeMedication_removes_by_id_witness :
  the_profile oneProfile "P-1" "prof-1" profileDoc
  /\ (Medical.removeMedication medicalEnv "P-1" "med-2" oneProfile).2 = inr tt.
Proof.
  split; [exact oneProfile_the_profile |].
  exact (proj1 (removeMedication_removes_by_id medicalEnv "P-1" "med-2" oneProfile
                  "prof-1" profileDoc firstProfileMatching_ok eq_refl eq_refl
                  oneProfile_the_profile)).
Defined.

(** X29. [addMedication] stores the medication at the end of the list
    under the generated id, whatever id it came with, and returns that
    id; [removeMedication] with the returned id then gives back the
    list of before, provided no medication of the profile already had
    the generated id. *)
Theorem addMedication_then_removeMedication env p med s k d :
  Medical.query_ok env ->
  Medical.readError env = None ->
  Medical.writeError env = None ->
  the_profile s p k d ->
  Forall (fun m => Medical.Medication.id m <> Medical.generateId env)
    (Medical.Profile.medications d) ->
  let added := Medical.addMedication env p med s in
  let removed := Medical.removeMedication env p (Medical.generateId env) added.1 in
  added.2 = inr (Medical.generateId env)
  /\ (exists d1,
        added.1 = <[k := d1]> s
        /\ Medical.Profile.medications d1
           = (Medical.Profile.medications d
              ++ [Medical.Medication.with_id med (Medical.generateId env)])%list)
  /\ removed.2 = inr tt
  /\ removed.1
     = <[k := with_medications
               (Medical.Profile.apply d Medical.Profile.no_updates (Medical.now env))
               (Medical.Profile.medications d)]> s.
Proof.
  intros Hq Hr Hw Hprofile Hfresh. cbn zeta.
  unfold Medical.addMedication, Medical.removeMedication.
  rewrite (withProfile_run env p _ s k d Hq Hr Hw Hprofile). cbn [fst snd].
  split; [reflexivity |].
  split; [eexists; split; reflexivity |].
  match goal with
  | |- context [<[k := Medical.Profile.apply d ?u ?t]> s] =>
      pose proof (the_profile_after s p k d u t Hprofile eq_refl) as Hprofile1
  end.
  rewrite (withProfile_run env p _ _ k _ Hq Hr Hw Hprofile1). cbn [fst snd].
  split; [reflexivity |].
  rewrite insert_insert_eq. f_equal.
  unfold Medical.Profile.apply, with_medications, fetched. cbn.
  f_equal.
  rewrite List.filter_app. cbn [List.filter Medical.Medication.with_id Medical.Medication.id].
  rewrite String.eqb_refl. cbn [negb]. rewrite app_nil_r.
  clear -Hfresh. induction Hfresh as [| m meds Hm _ IH]; [reflexivity |].
  cbn [List.filter]. apply String.eqb_neq in Hm. rewrite Hm. cbn [negb].
  rewrite IH. reflexivity.
Qed.

Lemma addMedication_then_removeMedication_witness :
  the_profile oneProfile "P-1" "prof-1" profileDoc
  /\ (Medical.removeMedication medicalEnv "P-1" (Medical.generateId medicalEnv)
        (Medical.addMedication medicalEnv "P-1" insulin oneProfile).1).2 = inr tt.
Proof.
  split; [exact oneProfile_the_profile |].
  assert (Hfresh : Forall (fun m => Medical.Medication.id m <> Medical.generateId medicalEnv)
                     (Medical.Profile.medications profileDoc)).
  { repeat constructor; discriminate. }
  exact (proj1 (proj2 (proj2
    (addMedication_then_removeMedication medicalEnv "P-1" insulin oneProfile "prof-1"
       profileDoc firstProfileMatching_ok eq_refl eq_refl oneProfile_the_profile Hfresh)))).
Defined.

(** ** Location tracking *)

Lemma step_keeps_single_watch (a : Gps.Action) (s : Gps.State) :
  single_watch s -> single_watch (Gps.step a s).
Proof.
  destruct s as [watchId isTracking last onLocation onError supported watches].
  unfold single_watch. cbn [Gps.watches Gps.watchId Gps.isTracking].
  intros [Hwatches Htracking]. subst watches isTracking.
  destruct a as [onError' | | id location]; cbn [Gps.step].
  - unfold Gps.startTracking. cbn [Gps.supported Gps.isTracking].
    destruct supported; cbn [negb fst];
      [| cbn [Gps.watches Gps.watchId Gps.isTracking]; split; reflexivity].
    destruct watchId as [id|]; cbn; split; try reflexivity;
      rewrite ?difference_diag_L, union_empty_r_L; reflexivity.
  - unfold Gps.stopTracking. cbn [Gps.watchId].
    destruct watchId as [id|]; cbn; split; try reflexivity.
    apply difference_diag_L.
  - unfold Gps.onPosition. cbn [Gps.watches].
    case_bool_decide; cbn; split; reflexivity.
Qed.

(** X30. Whatever sequence of [startTracking] and [stopTracking] calls
    and position callbacks the manager goes through from its
    construction, the browser holds no position watch other than the
    one whose id the manager remembers (so at most one), and
    [isTracking] is set exactly while there is one: starting again
    while tracking clears the previous watch. *)
Theorem tracking_keeps_a_single_watch (supported : bool) (actions : list Gps.Action) :
  single_watch (after_actions actions (Gps.initial supported))
  /\ size (Gps.watches (after_actions actions (Gps.initial supported))) <= 1.
Proof.
  assert (Hinv : forall s, single_watch s -> single_watch (after_actions actions s)).
  { unfold after_actions. induction actions as [| a actions IH]; intros s Hs; [exact Hs |].
    cbn [fold_left]. apply IH. apply step_keeps_single_watch. exact Hs. }
  assert (Hinitial : single_watch (Gps.initial supported)) by (split; reflexivity).
  specialize (Hinv _ Hinitial). split; [exact Hinv |].
  destruct Hinv as [Hwatches _]. rewrite Hwatches.
  destruct (Gps.watchId _); [rewrite size_singleton | rewrite size_empty]; lia.
Qed.
